(** * go-mem0: the request builder, the transport and the memory client

    A shallow embedding of the Go package [client] (client.go, memory.go,
    types.go, errors.go, utils.go and the helpers of client_test.go) and
    the properties of its request construction, session handling, error
    model and entity deletion.

    Go values are modelled as follows.
    - [string] is a byte string: Rocq's [string].
    - a pointer field [*T] used as an optional value is [option T];
      [nil] is [None].
    - [interface{}] is the tagged union [Value]; the nil interface is [VNil].
    - [map[string]interface{}] is [gmap string Value]; a map-typed field that
      may be nil is an [option] of it.
    - [url.Values] is [gmap string (list string)].
    - [(T, error)] results are [Result T].
    - a method with a pointer receiver that performs requests is a function
      in the monad [M], which threads the client, the calls of the transport
      so far and the lines printed.
    - the standard library and the network, which the package calls but does
      not define (encoding/json, net/http), are the fields of the record
      [Env]. *)

From Stdlib Require Import ZArith DecimalString Ascii.
From stdpp Require Import gmap strings list sorting.

#[local] Set Warnings "-register-all".
#[local] Open Scope string_scope.
#[local] Open Scope Z_scope.
#[local] Open Scope list_scope.

(** ** Dynamic values *)

(** A [float64] is carried as its IEEE-754 bit pattern; the client only ever
    passes such values through. *)
Definition float64 := Z.

(** [time.Time], as an instant in Unix nanoseconds. *)
Definition Time := Z.

(** The dynamic types stored behind [interface{}] by this package. *)
Inductive Value :=
| VNil
| VBool (b : bool)
| VInt (n : Z)
| VFloat (x : float64)
| VString (s : string)
| VAPIVersion (s : string)
| VOutputFormat (s : string)
| VStrings (l : list string)
| VList (l : list Value)
| VMap (m : gmap string Value)
| VMaps (l : list (gmap string Value))
| VMessages (l : list Message)
with Message :=
| mkMessage (Role : string) (Content : Value).

Definition Role (m : Message) : string := let (r, _) := m in r.
Definition Content (m : Message) : Value := let (_, c) := m in c.

(** [v != nil] for an interface value. *)
Definition is_nil (v : Value) : bool :=
  match v with VNil => true | _ => false end.

(** The type assertion [v.(string)]. *)
Definition as_string (v : Value) : option string :=
  match v with VString s => Some s | _ => None end.

(** The type assertion [v.(map[string]interface{})]. *)
Definition as_map (v : Value) : option (gmap string Value) :=
  match v with VMap m => Some m | _ => None end.

(** ** types.go *)

Definition APIVersion := string.
Definition OutputFormat := string.
Definition Event := string.

Definition APIVersionV1 : APIVersion := "v1".
Definition APIVersionV2 : APIVersion := "v2".
Definition OutputFormatV1 : OutputFormat := "v1.0".
Definition OutputFormatV1_1 : OutputFormat := "v1.1".
Definition EventAdd : Event := "ADD".
Definition EventUpdate : Event := "UPDATE".
Definition EventDelete : Event := "DELETE".
Definition EventNoop : Event := "NOOP".

Module MemoryOptions.
Record t := mk {
  APIVersion : option APIVersion;
  Version : option string;
  UserID : option string;
  AgentID : option string;
  AppID : option string;
  RunID : option string;
  Metadata : option (gmap string Value);
  Filters : option (gmap string Value);
  OrgName : option string;
  ProjectName : option string;
  OrgID : Value;
  ProjectID : Value;
  Infer : option bool;
  Page : option Z;
  PageSize : option Z;
  Includes : option string;
  Excludes : option string;
  EnableGraph : option bool;
  StartDate : option string;
  EndDate : option string;
  CustomCategories : option (list (gmap string Value));
  CustomInstructions : option string;
  Timestamp : option Z;
  OutputFormat : option OutputFormat;
  AsyncMode : option bool
}.

(** [MemoryOptions{}] *)
Definition zero : t :=
  mk None None None None None None None None None None VNil VNil None None
     None None None None None None None None None None None.

(** The assignments [opts.F = x] that the client performs. *)
Definition set_Version (x : option string) (o : t) : t :=
  mk (APIVersion o) x (UserID o) (AgentID o) (AppID o) (RunID o)
     (Metadata o) (Filters o) (OrgName o) (ProjectName o) (OrgID o)
     (ProjectID o) (Infer o) (Page o) (PageSize o) (Includes o) (Excludes o)
     (EnableGraph o) (StartDate o) (EndDate o) (CustomCategories o)
     (CustomInstructions o) (Timestamp o) (OutputFormat o) (AsyncMode o).

Definition set_OrgName (x : option string) (o : t) : t :=
  mk (APIVersion o) (Version o) (UserID o) (AgentID o) (AppID o) (RunID o)
     (Metadata o) (Filters o) x (ProjectName o) (OrgID o)
     (ProjectID o) (Infer o) (Page o) (PageSize o) (Includes o) (Excludes o)
     (EnableGraph o) (StartDate o) (EndDate o) (CustomCategories o)
     (CustomInstructions o) (Timestamp o) (OutputFormat o) (AsyncMode o).

Definition set_ProjectName (x : option string) (o : t) : t :=
  mk (APIVersion o) (Version o) (UserID o) (AgentID o) (AppID o) (RunID o)
     (Metadata o) (Filters o) (OrgName o) x (OrgID o)
     (ProjectID o) (Infer o) (Page o) (PageSize o) (Includes o) (Excludes o)
     (EnableGraph o) (StartDate o) (EndDate o) (CustomCategories o)
     (CustomInstructions o) (Timestamp o) (OutputFormat o) (AsyncMode o).

Definition set_OrgID (x : Value) (o : t) : t :=
  mk (APIVersion o) (Version o) (UserID o) (AgentID o) (AppID o) (RunID o)
     (Metadata o) (Filters o) (OrgName o) (ProjectName o) x
     (ProjectID o) (Infer o) (Page o) (PageSize o) (Includes o) (Excludes o)
     (EnableGraph o) (StartDate o) (EndDate o) (CustomCategories o)
     (CustomInstructions o) (Timestamp o) (OutputFormat o) (AsyncMode o).

Definition set_ProjectID (x : Value) (o : t) : t :=
  mk (APIVersion o) (Version o) (UserID o) (AgentID o) (AppID o) (RunID o)
     (Metadata o) (Filters o) (OrgName o) (ProjectName o) (OrgID o)
     x (Infer o) (Page o) (PageSize o) (Includes o) (Excludes o)
     (EnableGraph o) (StartDate o) (EndDate o) (CustomCategories o)
     (CustomInstructions o) (Timestamp o) (OutputFormat o) (AsyncMode o).
End MemoryOptions.

Module SearchOptions.
(** The embedded [MemoryOptions] is the field [Base]; [EnableGraph] of the
    outer struct shadows the embedded one. *)
Record t := mk {
  Base : MemoryOptions.t;
  Limit : option Z;
  EnableGraph : option bool;
  Threshold : option float64;
  TopK : option Z;
  OnlyMetadataBasedSearch : option bool;
  KeywordSearch : option bool;
  Fields : option (list string);
  Categories : option (list string);
  Rerank : option bool
}.

(** [SearchOptions{}] *)
Definition zero : t :=
  mk MemoryOptions.zero None None None None None None None None None.

Definition set_Base (b : MemoryOptions.t) (o : t) : t :=
  mk b (Limit o) (EnableGraph o) (Threshold o) (TopK o)
     (OnlyMetadataBasedSearch o) (KeywordSearch o) (Fields o) (Categories o)
     (Rerank o).
End SearchOptions.

Module MemoryData.
Record t := mk { Memory : string }.
End MemoryData.

Module Memory.
Record t := mk {
  ID : string;
  Messages : list Message;
  Event : option Event;
  Data : option MemoryData.t;
  Memory : option string;
  UserID : option string;
  Hash : option string;
  Categories : list string;
  CreatedAt : option Time;
  UpdatedAt : option Time;
  MemoryType : option string;
  Score : option float64;
  Metadata : Value;
  Owner : option string;
  AgentID : option string;
  AppID : option string;
  RunID : option string
}.
End Memory.

Module MemoryHistory.
Record t := mk {
  ID : string;
  MemoryID : string;
  Input : list Message;
  OldMemory : option string;
  NewMemory : option string;
  UserID : string;
  Categories : list string;
  Event : Event;
  CreatedAt : Time;
  UpdatedAt : Time
}.
End MemoryHistory.

Module MemoryUpdateBody.
Record t := mk { MemoryID : string; Text : string }.
End MemoryUpdateBody.

Module User.
Record t := mk {
  ID : string;
  Name : string;
  CreatedAt : Time;
  UpdatedAt : Time;
  TotalMemories : Z;
  Owner : string;
  Type_ : string
}.
End User.

Module AllUsers.
Record t := mk {
  Count : Z;
  Results : list User.t;
  Next : Value;
  Previous : Value
}.
End AllUsers.

Module DeleteUsersParams.
Record t := mk {
  UserID : option string;
  AgentID : option string;
  AppID : option string;
  RunID : option string
}.

(** [DeleteUsersParams{}] *)
Definition zero : t := mk None None None None.
End DeleteUsersParams.

Module DeleteUserData.
Record t := mk { EntityID : Z; EntityType : string }.
End DeleteUserData.

Module MessageResponse.
Record t := mk { Message : string }.
End MessageResponse.

(** ** errors.go *)

Module APIError.
Record t := mk { Message : string; StatusCode : Z; Body : string }.
End APIError.

Module ValidationError.
Record t := mk { Field : string; Message : string }.
End ValidationError.

(** The values of Go's [error] interface that the package produces or passes
    on: its two error types, the results of [fmt.Errorf] with and without a
    wrapped error, and errors that come out of the standard library. *)
Inductive error :=
| APIErr (e : APIError.t)
| ValidationErr (e : ValidationError.t)
| ErrorString (msg : string)
| WrapError (prefix : string) (err : error)
| LibError (msg : string).

Definition NewAPIError (message : string) (statusCode : Z) (body : string) : error :=
  APIErr (APIError.mk message statusCode body).

Definition NewValidationError (field message : string) : error :=
  ValidationErr (ValidationError.mk field message).

(** [%d] of an [int]. *)
Definition fmt_d (n : Z) : string := NilZero.string_of_int (Z.to_int n).

(** The method [Error()]. *)
Fixpoint Error (e : error) : string :=
  match e with
  | APIErr a =>
      if (0 <? APIError.StatusCode a)%Z
      then "API request failed (status " +:+ fmt_d (APIError.StatusCode a) +:+ "): "
             +:+ APIError.Message a
      else "API request failed: " +:+ APIError.Message a
  | ValidationErr v =>
      if String.eqb (ValidationError.Field v) ""
      then "validation error: " +:+ ValidationError.Message v
      else "validation error for field '" +:+ ValidationError.Field v +:+ "': "
             +:+ ValidationError.Message v
  | ErrorString msg => msg
  | WrapError prefix err => prefix +:+ Error err
  | LibError msg => msg
  end.

(** The type switch [err.(type)] of a caller, on the value it was handed. *)
Definition is_APIError (e : error) : bool :=
  match e with APIErr _ => true | _ => false end.

Definition is_ValidationError (e : error) : bool :=
  match e with ValidationErr _ => true | _ => false end.

Inductive Result (A : Type) :=
| Ok (a : A)
| Err (e : error).
Arguments Ok {A} a.
Arguments Err {A} e.



(** ** net/url: [url.Values] and its encoding *)

(** [make(map[string]interface{})] and [url.Values{}] *)
Definition Payload_empty : gmap string Value := ∅.
Definition Values_empty : gmap string (list string) := ∅.

(** [v.Add(key, value)]: appends [value] to the values of [key]. *)
Definition Values_Add (key value : string) (v : gmap string (list string))
  : gmap string (list string) :=
  <[key := (default [] (v !! key) ++ [value])%list]> v.

(** [v.Get(key)]: the first value of [key], or the empty string. *)
Definition Values_Get (key : string) (v : gmap string (list string)) : string :=
  match v !! key with
  | Some (x :: _) => x
  | _ => ""
  end.

Definition byte_in (lo hi : string) (c : ascii) : bool :=
  match lo, hi with
  | String l _, String h _ => (nat_of_ascii l <=? nat_of_ascii c)%nat && (nat_of_ascii c <=? nat_of_ascii h)%nat
  | _, _ => false
  end.

(** [shouldEscape(c, encodeQueryComponent)]: everything but the unreserved
    characters is escaped. *)
Definition shouldEscape (c : ascii) : bool :=
  negb (byte_in "a" "z" c || byte_in "A" "Z" c || byte_in "0" "9" c
        || Ascii.eqb c "-" || Ascii.eqb c "_" || Ascii.eqb c "." || Ascii.eqb c "~").

Definition upperhex (n : nat) : ascii :=
  nth n (String.list_ascii_of_string "0123456789ABCDEF") "0"%char.

(** [url.QueryEscape] *)
Fixpoint QueryEscape (s : string) : string :=
  match s with
  | EmptyString => EmptyString
  | String c rest =>
      if Ascii.eqb c " " then String "+" (QueryEscape rest)
      else if shouldEscape c
      then String "%" (String (upperhex (nat_of_ascii c / 16))
                         (String (upperhex (nat_of_ascii c mod 16)) (QueryEscape rest)))
      else String c (QueryEscape rest)
  end.

(** [slices.Sorted(maps.Keys(v))] *)
Definition sorted_keys (v : gmap string (list string)) : list string :=
  merge_sort (λ a b, String.leb a b) (map fst (map_to_list v)).

(** The [key=value] pieces that [Encode] joins, keys in sorted order. *)
Definition Encode_pieces (v : gmap string (list string)) : list string :=
  flat_map (λ k, map (λ x, QueryEscape k +:+ "=" +:+ QueryEscape x)
                     (default [] (v !! k)))
           (sorted_keys v).

(** [v.Encode()] *)
Definition Values_Encode (v : gmap string (list string)) : string :=
  String.concat "&" (Encode_pieces v).

(** The escaped keys and values of the pieces, pair by pair. *)
Definition Encode_pairs (v : gmap string (list string)) : list (string * string) :=
  flat_map (λ k, map (λ x, (QueryEscape k, QueryEscape x))
                     (default [] (v !! k)))
           (sorted_keys v).



(** ** client.go: the request builder *)

(** [if x != nil { payload[key] = f(x) }] for a pointer, map or slice field *)
Definition put_opt {A} (key : string) (f : A → Value) (x : option A)
    (payload : gmap string Value) : gmap string Value :=
  match x with
  | Some a => <[key := f a]> payload
  | None => payload
  end.

(** [if x != nil { payload[key] = x }] for an [interface{}] field *)
Definition put_val (key : string) (x : Value) (payload : gmap string Value)
  : gmap string Value :=
  if is_nil x then payload else <[key := x]> payload.

(** [if x != nil { params.Add(key, f(x)) }] *)
Definition add_opt {A} (key : string) (f : A → string) (x : option A)
    (params : gmap string (list string)) : gmap string (list string) :=
  match x with
  | Some a => Values_Add key (f a) params
  | None => params
  end.

Definition add_val (key : string) (f : Value → string) (x : Value)
    (params : gmap string (list string)) : gmap string (list string) :=
  if is_nil x then params else Values_Add key (f x) params.

(** [preparePayload] combines messages with options for API requests. *)
Definition preparePayload (messages : list Message) (options : MemoryOptions.t)
  : gmap string Value :=
  let payload := Payload_empty in
  let payload := <["messages" := VMessages messages]> payload in
  let payload := put_opt "api_version" VAPIVersion (MemoryOptions.APIVersion options) payload in
  let payload := put_opt "version" VAPIVersion (MemoryOptions.Version options) payload in
  let payload := put_opt "user_id" VString (MemoryOptions.UserID options) payload in
  let payload := put_opt "agent_id" VString (MemoryOptions.AgentID options) payload in
  let payload := put_opt "app_id" VString (MemoryOptions.AppID options) payload in
  let payload := put_opt "run_id" VString (MemoryOptions.RunID options) payload in
  let payload := put_opt "metadata" VMap (MemoryOptions.Metadata options) payload in
  let payload := put_opt "filters" VMap (MemoryOptions.Filters options) payload in
  let payload := put_opt "org_name" VString (MemoryOptions.OrgName options) payload in
  let payload := put_opt "project_name" VString (MemoryOptions.ProjectName options) payload in
  let payload := put_val "org_id" (MemoryOptions.OrgID options) payload in
  let payload := put_val "project_id" (MemoryOptions.ProjectID options) payload in
  let payload := put_opt "infer" VBool (MemoryOptions.Infer options) payload in
  let payload := put_opt "enable_graph" VBool (MemoryOptions.EnableGraph options) payload in
  let payload := put_opt "custom_categories" VMaps (MemoryOptions.CustomCategories options) payload in
  let payload := put_opt "custom_instructions" VString (MemoryOptions.CustomInstructions options) payload in
  let payload := put_opt "output_format" VOutputFormat (MemoryOptions.OutputFormat options) payload in
  let payload := put_opt "async_mode" VBool (MemoryOptions.AsyncMode options) payload in
  payload.

(** The argument of [prepareParams] is an [interface{}]; its type switch
    tells [MemoryOptions], [SearchOptions] and anything else apart. *)
Inductive Options :=
| OfMemoryOptions (opts : MemoryOptions.t)
| OfSearchOptions (opts : SearchOptions.t)
| OfOther (v : Value).

Section Builder.

(** [fmt.Sprintf("%v", v)] for the dynamic types that are neither strings
    nor integers nor booleans (floats, maps, slices), which the package
    leaves to the standard library. *)
Variable Sprint_other : Value → string.

(** [fmt.Sprintf("%v", v)] *)
Definition fmt_v (v : Value) : string :=
  match v with
  | VNil => "<nil>"
  | VBool b => if b then "true" else "false"
  | VInt n => fmt_d n
  | VString s | VAPIVersion s | VOutputFormat s => s
  | _ => Sprint_other v
  end.

(** [prepareParams] converts options to URL parameters. *)
Definition prepareParams (options : Options) : gmap string (list string) :=
  let params := Values_empty in
  match options with
  | OfMemoryOptions opts =>
      let params := add_opt "user_id" id (MemoryOptions.UserID opts) params in
      let params := add_opt "agent_id" id (MemoryOptions.AgentID opts) params in
      let params := add_opt "app_id" id (MemoryOptions.AppID opts) params in
      let params := add_opt "run_id" id (MemoryOptions.RunID opts) params in
      let params := add_opt "org_name" id (MemoryOptions.OrgName opts) params in
      let params := add_opt "project_name" id (MemoryOptions.ProjectName opts) params in
      let params := add_val "org_id" fmt_v (MemoryOptions.OrgID opts) params in
      let params := add_val "project_id" fmt_v (MemoryOptions.ProjectID opts) params in
      params
  | OfSearchOptions opts =>
      let memOpts := SearchOptions.Base opts in
      let params := add_opt "user_id" id (MemoryOptions.UserID memOpts) params in
      params
  | OfOther _ => params
  end.

End Builder.

(** *** The option fields and their wire names (the [json] tags of types.go) *)

Inductive MemoryField :=
| FAPIVersion | FVersion | FUserID | FAgentID | FAppID | FRunID | FMetadata
| FFilters | FOrgName | FProjectName | FOrgID | FProjectID | FInfer | FPage
| FPageSize | FIncludes | FExcludes | FEnableGraph | FStartDate | FEndDate
| FCustomCategories | FCustomInstructions | FTimestamp | FOutputFormat
| FAsyncMode.

Definition wire_name (f : MemoryField) : string :=
  match f with
  | FAPIVersion => "api_version" | FVersion => "version"
  | FUserID => "user_id" | FAgentID => "agent_id" | FAppID => "app_id"
  | FRunID => "run_id" | FMetadata => "metadata" | FFilters => "filters"
  | FOrgName => "org_name" | FProjectName => "project_name"
  | FOrgID => "org_id" | FProjectID => "project_id" | FInfer => "infer"
  | FPage => "page" | FPageSize => "page_size" | FIncludes => "includes"
  | FExcludes => "excludes" | FEnableGraph => "enable_graph"
  | FStartDate => "start_date" | FEndDate => "end_date"
  | FCustomCategories => "custom_categories"
  | FCustomInstructions => "custom_instructions"
  | FTimestamp => "timestamp" | FOutputFormat => "output_format"
  | FAsyncMode => "async_mode"
  end.

Definition isSome {A} (x : option A) : bool :=
  match x with Some _ => true | None => false end.

(** [opts.F != nil] *)
Definition is_set (o : MemoryOptions.t) (f : MemoryField) : bool :=
  match f with
  | FAPIVersion => isSome (MemoryOptions.APIVersion o)
  | FVersion => isSome (MemoryOptions.Version o)
  | FUserID => isSome (MemoryOptions.UserID o)
  | FAgentID => isSome (MemoryOptions.AgentID o)
  | FAppID => isSome (MemoryOptions.AppID o)
  | FRunID => isSome (MemoryOptions.RunID o)
  | FMetadata => isSome (MemoryOptions.Metadata o)
  | FFilters => isSome (MemoryOptions.Filters o)
  | FOrgName => isSome (MemoryOptions.OrgName o)
  | FProjectName => isSome (MemoryOptions.ProjectName o)
  | FOrgID => negb (is_nil (MemoryOptions.OrgID o))
  | FProjectID => negb (is_nil (MemoryOptions.ProjectID o))
  | FInfer => isSome (MemoryOptions.Infer o)
  | FPage => isSome (MemoryOptions.Page o)
  | FPageSize => isSome (MemoryOptions.PageSize o)
  | FIncludes => isSome (MemoryOptions.Includes o)
  | FExcludes => isSome (MemoryOptions.Excludes o)
  | FEnableGraph => isSome (MemoryOptions.EnableGraph o)
  | FStartDate => isSome (MemoryOptions.StartDate o)
  | FEndDate => isSome (MemoryOptions.EndDate o)
  | FCustomCategories => isSome (MemoryOptions.CustomCategories o)
  | FCustomInstructions => isSome (MemoryOptions.CustomInstructions o)
  | FTimestamp => isSome (MemoryOptions.Timestamp o)
  | FOutputFormat => isSome (MemoryOptions.OutputFormat o)
  | FAsyncMode => isSome (MemoryOptions.AsyncMode o)
  end.

(** The fields of [SearchOptions]: the promoted fields of the embedded
    struct and its own. *)
Inductive SearchField :=
| FBase (f : MemoryField)
| FLimit | FSearchEnableGraph | FThreshold | FTopK | FOnlyMetadataBasedSearch
| FKeywordSearch | FFields | FCategories | FRerank.

Definition search_wire_name (f : SearchField) : string :=
  match f with
  | FBase f => wire_name f
  | FLimit => "limit" | FSearchEnableGraph => "enable_graph"
  | FThreshold => "threshold" | FTopK => "top_k"
  | FOnlyMetadataBasedSearch => "only_metadata_based_search"
  | FKeywordSearch => "keyword_search" | FFields => "fields"
  | FCategories => "categories" | FRerank => "rerank"
  end.

Definition search_is_set (o : SearchOptions.t) (f : SearchField) : bool :=
  match f with
  | FBase f => is_set (SearchOptions.Base o) f
  | FLimit => isSome (SearchOptions.Limit o)
  | FSearchEnableGraph => isSome (SearchOptions.EnableGraph o)
  | FThreshold => isSome (SearchOptions.Threshold o)
  | FTopK => isSome (SearchOptions.TopK o)
  | FOnlyMetadataBasedSearch => isSome (SearchOptions.OnlyMetadataBasedSearch o)
  | FKeywordSearch => isSome (SearchOptions.KeywordSearch o)
  | FFields => isSome (SearchOptions.Fields o)
  | FCategories => isSome (SearchOptions.Categories o)
  | FRerank => isSome (SearchOptions.Rerank o)
  end.

(** ** unicode/utf8, unicode and strings: what [validateAPIKey] relies on *)

Definition bytes_of (s : string) : list Z :=
  map (λ c, Z.of_nat (nat_of_ascii c)) (String.list_ascii_of_string s).

Definition RuneError : Z := 65533.

Definition is_cont (b : Z) : bool := (128 <=? b) && (b <=? 191).

(** [utf8.DecodeRuneInString]: the first rune of a non-empty byte sequence
    and its width; an invalid or truncated encoding is [RuneError] of
    width 1. The second byte is checked against the accept range of the
    first, which rules out overlong forms and surrogates. *)
Definition DecodeRune (p : list Z) : Z * nat :=
  match p with
  | [] => (RuneError, 0%nat)
  | p0 :: p' =>
      if p0 <? 128 then (p0, 1%nat)
      else if (p0 <? 194) || (244 <? p0) then (RuneError, 1%nat)
      else
        let sz := if p0 <? 224 then 2%nat else if p0 <? 240 then 3%nat else 4%nat in
        let lo := if p0 =? 224 then 160 else if p0 =? 240 then 144 else 128 in
        let hi := if p0 =? 237 then 159 else if p0 =? 244 then 143 else 191 in
        if (length p <? sz)%nat then (RuneError, 1%nat)
        else
          match p' with
          | b1 :: p'' =>
              if (b1 <? lo) || (hi <? b1) then (RuneError, 1%nat)
              else if (sz <=? 2)%nat
              then (Z.lor (Z.shiftl (Z.land p0 31) 6) (Z.land b1 63), 2%nat)
              else
                match p'' with
                | b2 :: p''' =>
                    if negb (is_cont b2) then (RuneError, 1%nat)
                    else if (sz <=? 3)%nat
                    then (Z.lor (Z.lor (Z.shiftl (Z.land p0 15) 12)
                                       (Z.shiftl (Z.land b1 63) 6))
                                (Z.land b2 63), 3%nat)
                    else
                      match p''' with
                      | b3 :: _ =>
                          if negb (is_cont b3) then (RuneError, 1%nat)
                          else (Z.lor (Z.lor (Z.lor (Z.shiftl (Z.land p0 7) 18)
                                                    (Z.shiftl (Z.land b1 63) 12))
                                             (Z.shiftl (Z.land b2 63) 6))
                                      (Z.land b3 63), 4%nat)
                      | [] => (RuneError, 1%nat)
                      end
                | [] => (RuneError, 1%nat)
                end
          | [] => (RuneError, 1%nat)
          end
  end.

(** [unicode.IsSpace]: the Latin-1 spaces and the rest of the Unicode
    White_Space property. *)
Definition IsSpace (r : Z) : bool :=
  if r <=? 255
  then ((9 <=? r) && (r <=? 13)) || (r =? 32) || (r =? 133) || (r =? 160)
  else (r =? 5760) || ((8192 <=? r) && (r <=? 8202)) || (r =? 8232)
       || (r =? 8233) || (r =? 8239) || (r =? 8287) || (r =? 12288).

(** The runes of a string with the bytes of each, as [for range s] yields
    them. [fuel] bounds the number of runes; the length of the string is
    always enough. *)
Fixpoint runes_fuel (fuel : nat) (s : string) : list (Z * string) :=
  match fuel with
  | O => []
  | S fuel' =>
      match s with
      | EmptyString => []
      | String _ _ =>
          let '(r, width) := DecodeRune (bytes_of s) in
          (r, String.substring 0 width s)
            :: runes_fuel fuel' (String.substring width (String.length s - width) s)
      end
  end.

Definition runes (s : string) : list (Z * string) :=
  runes_fuel (String.length s) s.

Fixpoint drop_while {A} (f : A → bool) (l : list A) : list A :=
  match l with
  | x :: l' => if f x then drop_while f l' else l
  | [] => []
  end.

(** [strings.TrimSpace]: the string without its leading and trailing white
    space, as defined by Unicode. *)
Definition TrimSpace (s : string) : string :=
  let is_space := λ rc : Z * string, IsSpace rc.1 in
  let trimmed := rev (drop_while is_space (rev (drop_while is_space (runes s)))) in
  String.concat "" (map snd trimmed).

(** A string that consists of white space only. *)
Definition whitespace_only (s : string) : bool :=
  forallb (λ rc : Z * string, IsSpace rc.1) (runes s).

(** ** strings.Cut and the reading of a query string *)

(** [strings.Cut(s, sep)] for a one-byte separator: the text before and after
    its first occurrence, and whether it occurs. *)
Fixpoint Cut (sep : ascii) (s : string) : string * string * bool :=
  match s with
  | EmptyString => (EmptyString, EmptyString, false)
  | String c rest =>
      if Ascii.eqb c sep then (EmptyString, rest, true)
      else let '(before, after, found) := Cut sep rest in
           (String c before, after, found)
  end.

Fixpoint contains (sep : ascii) (s : string) : bool :=
  match s with
  | EmptyString => false
  | String c rest => Ascii.eqb c sep || contains sep rest
  end.

(** The pieces of [s] between occurrences of [sep]. *)
Fixpoint split_on (sep : ascii) (s : string) : list string :=
  match s with
  | EmptyString => [EmptyString]
  | String c rest =>
      if Ascii.eqb c sep then EmptyString :: split_on sep rest
      else match split_on sep rest with
           | piece :: pieces => String c piece :: pieces
           | [] => [String c EmptyString]
           end
  end.

(** The raw [key=value] pairs of the query of a request target, read as
    [url.ParseQuery] cuts them: the query follows the first [?], pairs are
    separated by [&], empty pairs are skipped, and a pair is cut at its
    first [=]. *)
Definition read_pair (pair : string) : string * string :=
  let '(k, v, _) := Cut "=" pair in (k, v).

Definition query_pairs (target : string) : list (string * string) :=
  let '(_, query, _) := Cut "?" target in
  map read_pair (filter (λ pair, pair ≠ EmptyString) (split_on "&" query)).

Definition path_of (target : string) : string :=
  let '(path, _, _) := Cut "?" target in path.

Definition has_param (key : string) (target : string) : bool :=
  existsb (λ kv : string * string, String.eqb kv.1 key) (query_pairs target).

(** ** client.go: the client and its transport *)

Module ClientOptions.
Record t := mk {
  APIKey : string;
  Host : option string;
  OrganizationName : option string;
  ProjectName : option string;
  OrganizationID : Value;
  ProjectID : Value
}.
End ClientOptions.

Module MemoryClient.
Record t := mk {
  apiKey : string;
  host : string;
  organizationName : option string;
  projectName : option string;
  organizationID : Value;
  projectID : Value;
  headers : gmap string string;
  httpClient_Timeout : Z;
  telemetryID : string
}.

Definition set_organizationID (x : Value) (c : t) : t :=
  mk (apiKey c) (host c) (organizationName c) (projectName c) x (projectID c)
     (headers c) (httpClient_Timeout c) (telemetryID c).

Definition set_projectID (x : Value) (c : t) : t :=
  mk (apiKey c) (host c) (organizationName c) (projectName c)
     (organizationID c) x (headers c) (httpClient_Timeout c) (telemetryID c).

Definition set_telemetryID (x : string) (c : t) : t :=
  mk (apiKey c) (host c) (organizationName c) (projectName c)
     (organizationID c) (projectID c) (headers c) (httpClient_Timeout c) x.
End MemoryClient.

(** One invocation of the transport: the arguments of
    [fetchWithErrorHandling]. *)
Record Call := mkCall {
  call_method : string;
  call_endpoint : string;
  call_body : Value
}.

(** The [http.Request] handed to [httpClient.Do]. *)
Record Request := mkRequest {
  req_Method : string;
  req_URL : string;
  req_Header : gmap string string;
  req_Body : option string
}.

(** What [httpClient.Do] followed by [io.ReadAll] gives: an error of the
    transport (unreachable host, cancelled context, expired timeout), or a
    status code with the body read or the error of reading it. *)
Inductive DoResult :=
| DoError (err : error)
| DoResponse (StatusCode : Z) (body : Result string).

(** The standard library and the network, which the package calls but does
    not define. [http_Do] is given the calls made before the current one, so
    that the answer of the server may depend on what it was sent. *)
Record Env := mkEnv {
  Sprint_other : Value → string;
  json_Marshal : Value → Result string;
  json_Unmarshal : string → Result Value;
  json_Unmarshal_Memories : string → Result (list Memory.t);
  json_Unmarshal_Memory : string → Result Memory.t;
  json_Unmarshal_MessageResponse : string → Result MessageResponse.t;
  json_Unmarshal_History : string → Result (list MemoryHistory.t);
  json_Unmarshal_AllUsers : string → Result AllUsers.t;
  http_NewRequest : string → string → option error;
  http_Do : list Call → Request → DoResult
}.

(** The state that the methods of the client read and change: the client
    itself (they have a pointer receiver), the calls of the transport so
    far, and the lines printed. *)
Record World := mkWorld {
  client : MemoryClient.t;
  calls : list Call;
  stdout : list string
}.

Definition M (A : Type) : Type := World → Result A * World.

#[global] Instance M_ret : MRet M := λ A a w, (Ok a, w).
#[global] Instance M_bind : MBind M := λ A B f m w,
  match m w with
  | (Ok a, w') => f a w'
  | (Err e, w') => (Err e, w')
  end.

(** [return nil, err] *)
Definition fail {A} (e : error) : M A := λ w, (Err e, w).

(** [if err != nil { return nil, f(err) }] around a call *)
Definition on_error {A} (f : error → error) (m : M A) : M A := λ w,
  match m w with
  | (Ok a, w') => (Ok a, w')
  | (Err e, w') => (Err (f e), w')
  end.

Definition lift {A} (r : Result A) : M A := λ w, (r, w).

(** [x, err := f(); if err != nil { return nil, err }; return g(x)] on plain
    results *)
Definition and_then {A B} (r : Result A) (g : A → Result B) : Result B :=
  match r with
  | Ok a => g a
  | Err e => Err e
  end.

Definition get_client : M MemoryClient.t := λ w, (Ok (client w), w).

Definition modify_client (f : MemoryClient.t → MemoryClient.t) : M unit := λ w,
  (Ok (), mkWorld (f (client w)) (calls w) (stdout w)).

Definition Println (line : string) : M unit := λ w,
  (Ok (), mkWorld (client w) (calls w) (stdout w ++ [line])).

(** [if cond { body }] *)
Definition when (cond : bool) (body : M unit) : M unit :=
  if cond then body else mret ().

Definition isNone {A} (x : option A) : bool :=
  match x with Some _ => false | None => true end.

(** [validateAPIKey] validates the API key. *)
Definition validateAPIKey (apiKey : string) : option error :=
  if String.eqb apiKey "" then
    Some (NewValidationError "apiKey" "Mem0 API key is required")
  else if String.eqb (TrimSpace apiKey) "" then
    Some (NewValidationError "apiKey" "Mem0 API key cannot be empty")
  else None.

(** [opts.APIVersion != nil && *opts.APIVersion == APIVersionV2] *)
Definition is_v2 (o : MemoryOptions.t) : bool :=
  match MemoryOptions.APIVersion o with
  | Some v => String.eqb v APIVersionV2
  | None => false
  end.

Section Client.

Variable env : Env.

(** [validateOrgProject] validates organization and project configuration. *)
Definition validateOrgProject : M unit :=
  c ← get_client;
  when ((isNone (MemoryClient.organizationName c) && isSome (MemoryClient.projectName c))
        || (isSome (MemoryClient.organizationName c) && isNone (MemoryClient.projectName c)))
       (Println "Warning: Both organizationName and projectName must be provided together when using either. This will be removed from version 1.0.40. Note that organizationName/projectName are being deprecated in favor of organizationId/projectId.");;
  when ((is_nil (MemoryClient.organizationID c) && negb (is_nil (MemoryClient.projectID c)))
        || (negb (is_nil (MemoryClient.organizationID c)) && is_nil (MemoryClient.projectID c)))
       (Println "Warning: Both organizationId and projectId must be provided together when using either. This will be removed from version 1.0.40.").

(** [fetchWithErrorHandling] makes HTTP requests with error handling. Its
    receiver [c] and the calls made before this one are explicit. *)
Definition fetchWithErrorHandling (c : MemoryClient.t) (history : list Call)
    (method endpoint : string) (body : Value) : Result Value :=
  match (if is_nil body then Ok None
         else match json_Marshal env body with
              | Ok jsonBody => Ok (Some jsonBody)
              | Err err => Err (WrapError "failed to marshal request body: " err)
              end) with
  | Err err => Err err
  | Ok reqBody =>
      let url := MemoryClient.host c +:+ endpoint in
      match http_NewRequest env method url with
      | Some err => Err (WrapError "failed to create request: " err)
      | None =>
          let header := map_fold (λ key value h, <[key := value]> h) ∅
                                 (MemoryClient.headers c) in
          let header := if String.eqb (MemoryClient.telemetryID c) "" then header
                        else <["Mem0-User-ID" := MemoryClient.telemetryID c]> header in
          match http_Do env history (mkRequest method url header reqBody) with
          | DoError err => Err (WrapError "request failed: " err)
          | DoResponse _ (Err err) =>
              Err (WrapError "failed to read response body: " err)
          | DoResponse StatusCode (Ok respBody) =>
              if (StatusCode <? 200) || (300 <=? StatusCode)
              then Err (NewAPIError respBody StatusCode respBody)
              else match json_Unmarshal env respBody with
                   | Err err => Err (WrapError "failed to parse response JSON: " err)
                   | Ok result => Ok result
                   end
          end
      end
  end.

(** A call [c.fetchWithErrorHandling(ctx, method, endpoint, body)] by an
    operation: it is recorded, and answered from the calls before it. *)
Definition fetch (method endpoint : string) (body : Value) : M Value := λ w,
  (fetchWithErrorHandling (client w) (calls w) method endpoint body,
   mkWorld (client w) (calls w ++ [mkCall method endpoint body]) (stdout w)).

(** utils.go: [parseResponse] converts a generic response to a specific
    type, by way of its JSON text. *)
Definition parseResponse {T} (unmarshal : string → Result T) (response : Value)
  : Result T :=
  match json_Marshal env response with
  | Err err => Err (WrapError "failed to marshal response: " err)
  | Ok jsonBytes =>
      match unmarshal jsonBytes with
      | Err err => Err (WrapError "failed to unmarshal response: " err)
      | Ok target => Ok target
      end
  end.

(** ** memory.go: the operations *)

(** [m[key]], the nil interface for a missing key *)
Definition index (m : gmap string Value) (key : string) : Value :=
  default VNil (m !! key).

(** [Ping] checks the API connection and initializes telemetry. *)
Definition Ping : M unit :=
  response ← on_error (WrapError "failed to ping server: ")
                      (fetch "GET" "/v1/ping/" VNil);
  match as_map response with
  | None => fail (NewAPIError "Invalid response format from ping endpoint" 0 "")
  | Some responseMap =>
      if negb (match as_string (index responseMap "status") with
               | Some status => String.eqb status "ok"
               | None => false
               end)
      then
        let message := default "" (as_string (index responseMap "message")) in
        let message := if String.eqb message "" then "API Key is invalid"
                       else message in
        fail (NewAPIError message 0 "")
      else
        c ← get_client;
        when (isSome (responseMap !! "org_id") && is_nil (MemoryClient.organizationID c))
             (modify_client (MemoryClient.set_organizationID (index responseMap "org_id")));;
        c ← get_client;
        when (isSome (responseMap !! "project_id") && is_nil (MemoryClient.projectID c))
             (modify_client (MemoryClient.set_projectID (index responseMap "project_id")));;
        match as_string (index responseMap "user_email") with
        | Some userEmail => modify_client (MemoryClient.set_telemetryID userEmail)
        | None => mret ()
        end
  end.

(** [if c.telemetryID == "" { if err := c.Ping(ctx); err != nil { return
    nil, err } }], the first statement of every operation *)
Definition ensure_telemetry : M unit :=
  c ← get_client;
  when (String.eqb (MemoryClient.telemetryID c) "") Ping.

(** [initializeClient] initializes the client by pinging the server. *)
Definition initializeClient : M unit :=
  Ping;;
  validateOrgProject.

(** The statements under "Set organization/project info", which [Add],
    [GetAll], [DeleteAll], [Users] and [DeleteUsers] each spell out. *)
Definition setOrgProject (c : MemoryClient.t) (opts : MemoryOptions.t)
  : MemoryOptions.t :=
  let opts :=
    if isSome (MemoryClient.organizationName c) && isSome (MemoryClient.projectName c)
    then MemoryOptions.set_ProjectName (MemoryClient.projectName c)
           (MemoryOptions.set_OrgName (MemoryClient.organizationName c) opts)
    else opts in
  if negb (is_nil (MemoryClient.organizationID c)) && negb (is_nil (MemoryClient.projectID c))
  then MemoryOptions.set_ProjectName None
         (MemoryOptions.set_OrgName None
            (MemoryOptions.set_ProjectID (MemoryClient.projectID c)
               (MemoryOptions.set_OrgID (MemoryClient.organizationID c) opts)))
  else opts.

(** [opts := T{}; if len(options) > 0 { opts = options[0] }] for a
    variadic parameter *)
Definition first_or {A} (zero : A) (options : list A) : A :=
  match options with
  | o :: _ => o
  | [] => zero
  end.

(** The payload that [Add] builds from the client and the options. *)
Definition Add_payload (c : MemoryClient.t) (messages : list Message)
    (options : list MemoryOptions.t) : gmap string Value :=
  let opts := first_or MemoryOptions.zero options in
  let opts := setOrgProject c opts in
  let opts := match MemoryOptions.APIVersion opts with
              | Some version => MemoryOptions.set_Version (Some version) opts
              | None => opts
              end in
  preparePayload messages opts.

(** [Add] creates new memories from messages. *)
Definition Add (messages : list Message) (options : list MemoryOptions.t)
  : M (list Memory.t) :=
  ensure_telemetry;;
  validateOrgProject;;
  c ← get_client;
  let payload := Add_payload c messages options in
  response ← fetch "POST" "/v1/memories/" (VMap payload);
  lift (parseResponse (json_Unmarshal_Memories env) response).

(** [Update] modifies an existing memory. *)
Definition Update (memoryID message : string) : M (list Memory.t) :=
  ensure_telemetry;;
  validateOrgProject;;
  let payload : gmap string Value := {[ "text" := VString message ]} in
  let endpoint := "/v1/memories/" +:+ memoryID +:+ "/" in
  response ← fetch "PUT" endpoint (VMap payload);
  lift (parseResponse (json_Unmarshal_Memories env) response).

(** [Get] retrieves a specific memory by ID. *)
Definition Get (memoryID : string) : M Memory.t :=
  ensure_telemetry;;
  let endpoint := "/v1/memories/" +:+ memoryID +:+ "/" in
  response ← fetch "GET" endpoint VNil;
  lift (parseResponse (json_Unmarshal_Memory env) response).

(** The method, endpoint and body that [GetAll] hands to the transport. *)
Definition GetAll_request (c : MemoryClient.t) (options : list SearchOptions.t)
  : Call :=
  let opts := first_or SearchOptions.zero options in
  let opts := SearchOptions.set_Base (setOrgProject c (SearchOptions.Base opts)) opts in
  let base := SearchOptions.Base opts in
  let paginationParams :=
    match MemoryOptions.Page base, MemoryOptions.PageSize base with
    | Some page, Some pageSize =>
        "page=" +:+ fmt_d page +:+ "&page_size=" +:+ fmt_d pageSize
    | _, _ => ""
    end in
  if is_v2 base
  then
    let method := "POST" in
    let endpoint := if negb (String.eqb paginationParams "")
                    then "/v2/memories/?" +:+ paginationParams
                    else "/v2/memories/" in
    let requestBody : gmap string Value := ∅ in
    let requestBody := put_val "org_id" (MemoryOptions.OrgID base) requestBody in
    let requestBody := put_val "project_id" (MemoryOptions.ProjectID base) requestBody in
    mkCall method endpoint (VMap requestBody)
  else
    let method := "GET" in
    let params := prepareParams (Sprint_other env) (OfMemoryOptions base) in
    let queryString := Values_Encode params in
    let endpoint :=
      if negb (String.eqb paginationParams "") && negb (String.eqb queryString "")
      then "/v1/memories/?" +:+ queryString +:+ "&" +:+ paginationParams
      else if negb (String.eqb paginationParams "")
      then "/v1/memories/?" +:+ paginationParams
      else if negb (String.eqb queryString "")
      then "/v1/memories/?" +:+ queryString
      else "/v1/memories/" in
    mkCall method endpoint VNil.

(** [GetAll] retrieves all memories with optional filters. *)
Definition GetAll (options : list SearchOptions.t) : M (list Memory.t) :=
  ensure_telemetry;;
  validateOrgProject;;
  c ← get_client;
  let request := GetAll_request c options in
  response ← fetch (call_method request) (call_endpoint request)
                                    (call_body request);
  lift (parseResponse (json_Unmarshal_Memories env) response).

(** Helper function to add search options to payload. *)
Definition addSearchOptionsToPayload (payload : gmap string Value)
    (opts : SearchOptions.t) : gmap string Value :=
  let base := SearchOptions.Base opts in
  let payload := put_opt "user_id" VString (MemoryOptions.UserID base) payload in
  let payload := put_opt "agent_id" VString (MemoryOptions.AgentID base) payload in
  let payload := put_opt "app_id" VString (MemoryOptions.AppID base) payload in
  let payload := put_opt "run_id" VString (MemoryOptions.RunID base) payload in
  let payload := put_opt "metadata" VMap (MemoryOptions.Metadata base) payload in
  let payload := put_opt "filters" VMap (MemoryOptions.Filters base) payload in
  let payload := put_opt "limit" VInt (SearchOptions.Limit opts) payload in
  let payload := put_opt "enable_graph" VBool (SearchOptions.EnableGraph opts) payload in
  let payload := put_opt "threshold" VFloat (SearchOptions.Threshold opts) payload in
  let payload := put_opt "top_k" VInt (SearchOptions.TopK opts) payload in
  let payload := put_opt "only_metadata_based_search" VBool
                         (SearchOptions.OnlyMetadataBasedSearch opts) payload in
  let payload := put_opt "keyword_search" VBool (SearchOptions.KeywordSearch opts) payload in
  let payload := put_opt "fields" VStrings (SearchOptions.Fields opts) payload in
  let payload := put_opt "categories" VStrings (SearchOptions.Categories opts) payload in
  let payload := put_opt "rerank" VBool (SearchOptions.Rerank opts) payload in
  payload.

(** The payload that [Search] builds from the client, the query and the
    options. *)
Definition Search_payload (c : MemoryClient.t) (query : string)
    (opts : SearchOptions.t) : gmap string Value :=
  let payload : gmap string Value := {[ "query" := VString query ]} in
  let payload :=
    match MemoryClient.organizationName c, MemoryClient.projectName c with
    | Some organizationName, Some projectName =>
        <["project_name" := VString projectName]>
          (<["org_name" := VString organizationName]> payload)
    | _, _ => payload
    end in
  let payload :=
    if negb (is_nil (MemoryClient.organizationID c)) && negb (is_nil (MemoryClient.projectID c))
    then delete "project_name"
           (delete "org_name"
              (<["project_id" := MemoryClient.projectID c]>
                 (<["org_id" := MemoryClient.organizationID c]> payload)))
    else payload in
  addSearchOptionsToPayload payload opts.

Definition Search_endpoint (opts : SearchOptions.t) : string :=
  if is_v2 (SearchOptions.Base opts)
  then "/v2/memories/search/" else "/v1/memories/search/".

(** [Search] searches for memories matching a query. *)
Definition Search (query : string) (options : list SearchOptions.t)
  : M (list Memory.t) :=
  ensure_telemetry;;
  validateOrgProject;;
  c ← get_client;
  let opts := first_or SearchOptions.zero options in
  let payload := Search_payload c query opts in
  let endpoint := Search_endpoint opts in
  response ← fetch "POST" endpoint (VMap payload);
  lift (parseResponse (json_Unmarshal_Memories env) response).

(** [Delete] removes a specific memory. *)
Definition Delete (memoryID : string) : M MessageResponse.t :=
  ensure_telemetry;;
  let endpoint := "/v1/memories/" +:+ memoryID +:+ "/" in
  response ← fetch "DELETE" endpoint VNil;
  lift (parseResponse (json_Unmarshal_MessageResponse env) response).

(** [DeleteAll] removes all memories matching the filter criteria. *)
Definition DeleteAll (options : list MemoryOptions.t) : M MessageResponse.t :=
  ensure_telemetry;;
  validateOrgProject;;
  c ← get_client;
  let opts := first_or MemoryOptions.zero options in
  let opts := setOrgProject c opts in
  let params := prepareParams (Sprint_other env) (OfMemoryOptions opts) in
  let endpoint := "/v1/memories/?" +:+ Values_Encode params in
  response ← fetch "DELETE" endpoint VNil;
  lift (parseResponse (json_Unmarshal_MessageResponse env) response).

(** The result of a batch call: the response if it is a string, else its
    [message] if it is a map that has one, else a fixed text. *)
Definition batch_result (fallback : string) (response : Value) : string :=
  match as_string response with
  | Some result => result
  | None =>
      match as_map response with
      | Some responseMap =>
          match as_string (index responseMap "message") with
          | Some message => message
          | None => fallback
          end
      | None => fallback
      end
  end.

(** [BatchUpdate] updates multiple memories in a single request. *)
Definition BatchUpdate (memories : list MemoryUpdateBody.t) : M string :=
  ensure_telemetry;;
  let memoriesBody : list (gmap string Value) :=
    map (λ memory, {[ "memory_id" := VString (MemoryUpdateBody.MemoryID memory);
                      "text" := VString (MemoryUpdateBody.Text memory) ]})
        memories in
  let payload : gmap string Value := {[ "memories" := VMaps memoriesBody ]} in
  response ← fetch "PUT" "/v1/batch/" (VMap payload);
  mret (batch_result "Batch update completed" response).

(** [BatchDelete] deletes multiple memories in a single request. *)
Definition BatchDelete (memoryIDs : list string) : M string :=
  ensure_telemetry;;
  let memoriesBody : list (gmap string Value) :=
    map (λ memoryID, {[ "memory_id" := VString memoryID ]}) memoryIDs in
  let payload : gmap string Value := {[ "memories" := VMaps memoriesBody ]} in
  response ← fetch "DELETE" "/v1/batch/" (VMap payload);
  mret (batch_result "Batch delete completed" response).

(** [History] retrieves the change history for a specific memory. *)
Definition History (memoryID : string) : M (list MemoryHistory.t) :=
  ensure_telemetry;;
  let endpoint := "/v1/memories/" +:+ memoryID +:+ "/history/" in
  response ← fetch "GET" endpoint VNil;
  lift (parseResponse (json_Unmarshal_History env) response).

(** The endpoint that [Users] builds from the client. *)
Definition Users_endpoint (c : MemoryClient.t) : string :=
  let options := setOrgProject c MemoryOptions.zero in
  let params := prepareParams (Sprint_other env) (OfMemoryOptions options) in
  "/v1/entities/?" +:+ Values_Encode params.

(** [Users] retrieves all users/entities. *)
Definition Users : M AllUsers.t :=
  ensure_telemetry;;
  validateOrgProject;;
  c ← get_client;
  let endpoint := Users_endpoint c in
  response ← fetch "GET" endpoint VNil;
  lift (parseResponse (json_Unmarshal_AllUsers env) response).

(** [DeleteUser] deletes a user entity (deprecated). *)
Definition DeleteUser (data : DeleteUserData.t) : M MessageResponse.t :=
  ensure_telemetry;;
  let entityType := DeleteUserData.EntityType data in
  let entityType := if String.eqb entityType "" then "user" else entityType in
  let endpoint := "/v1/entities/" +:+ entityType +:+ "/"
                    +:+ fmt_d (DeleteUserData.EntityID data) +:+ "/" in
  response ← fetch "DELETE" endpoint VNil;
  lift (parseResponse (json_Unmarshal_MessageResponse env) response).

(** [m[key]] for a [map[string]string] *)
Definition index_s (m : gmap string string) (key : string) : string :=
  default "" (m !! key).

Definition entity_of (type name : string) : gmap string string :=
  {[ "type" := type; "name" := name ]}.

(** The endpoint of the deletion of one entity. *)
Definition delete_endpoint (requestOptions : MemoryOptions.t)
    (entity : gmap string string) : string :=
  let endpoint := "/v2/entities/" +:+ index_s entity "type" +:+ "/"
                    +:+ index_s entity "name" +:+ "/" in
  let params := prepareParams (Sprint_other env) (OfMemoryOptions requestOptions) in
  if negb (String.eqb (Values_Encode params) "")
  then endpoint +:+ "?" +:+ Values_Encode params
  else endpoint.

(** The loop "Delete each entity" of [DeleteUsers]. *)
Fixpoint delete_each (requestOptions : MemoryOptions.t)
    (toDelete : list (gmap string string)) : M unit :=
  match toDelete with
  | [] => mret ()
  | entity :: rest =>
      on_error (λ err,
                  NewAPIError ("Failed to delete " +:+ index_s entity "type" +:+ " "
                                 +:+ index_s entity "name" +:+ ": " +:+ Error err)
                              0 "")
               (fetch "DELETE" (delete_endpoint requestOptions entity) VNil);;
      delete_each requestOptions rest
  end.

(** What [DeleteUsers] is to delete, when a parameter names it. *)
Definition selected_entity (deleteParams : DeleteUsersParams.t)
  : option (gmap string string) :=
  match DeleteUsersParams.UserID deleteParams with
  | Some userID => Some (entity_of "user" userID)
  | None =>
      match DeleteUsersParams.AgentID deleteParams with
      | Some agentID => Some (entity_of "agent" agentID)
      | None =>
          match DeleteUsersParams.AppID deleteParams with
          | Some appID => Some (entity_of "app" appID)
          | None =>
              match DeleteUsersParams.RunID deleteParams with
              | Some runID => Some (entity_of "run" runID)
              | None => None
              end
          end
      end
  end.

(** [DeleteUsers] deletes users based on the provided parameters. *)
Definition DeleteUsers (params : list DeleteUsersParams.t) : M MessageResponse.t :=
  ensure_telemetry;;
  validateOrgProject;;
  let deleteParams := first_or DeleteUsersParams.zero params in
  toDelete ← match selected_entity deleteParams with
             | Some entity => mret [entity]
             | None =>
                 entities ← Users;
                 mret (map (λ entity, entity_of (User.Type_ entity) (User.Name entity))
                           (AllUsers.Results entities))
             end;
  if (length toDelete =? 0)%nat then fail (ErrorString "no entities to delete")
  else
    c ← get_client;
    let requestOptions := setOrgProject c MemoryOptions.zero in
    delete_each requestOptions toDelete;;
    let message :=
      if isSome (DeleteUsersParams.UserID deleteParams)
         || isSome (DeleteUsersParams.AgentID deleteParams)
         || isSome (DeleteUsersParams.AppID deleteParams)
         || isSome (DeleteUsersParams.RunID deleteParams)
      then "Entity deleted successfully."
      else "All users, agents, apps and runs deleted." in
    mret (MessageResponse.mk message).

(** [NewMemoryClient] creates a new MemoryClient instance. It is run with
    the calls and output so far and returns them as it leaves them. *)
Definition NewMemoryClient (options : ClientOptions.t)
    (calls0 : list Call) (stdout0 : list string)
  : Result MemoryClient.t * list Call * list string :=
  match validateAPIKey (ClientOptions.APIKey options) with
  | Some err => (Err err, calls0, stdout0)
  | None =>
      let host := match ClientOptions.Host options with
                  | Some h => h
                  | None => "https://api.mem0.ai"
                  end in
      let c :=
        MemoryClient.mk (ClientOptions.APIKey options) host
          (ClientOptions.OrganizationName options)
          (ClientOptions.ProjectName options)
          (ClientOptions.OrganizationID options)
          (ClientOptions.ProjectID options)
          {[ "Authorization" := "Token " +:+ ClientOptions.APIKey options;
             "Content-Type" := "application/json" ]}
          (60 * 1000000000)
          "" in
      let '(r, w) := initializeClient (mkWorld c calls0 stdout0) in
      let w := match r with
               | Err err =>
                   (Println ("Failed to initialize client: " +:+ Error err) w).2
               | Ok _ => w
               end in
      (Ok (client w), calls w, stdout w)
  end.

End Client.

(** ** client_test.go: the helpers of the tests *)

Definition charset : string := "abcdefghijklmnopqrstuvwxyz0123456789".

(** [t.IsZero()]: the instant is January 1, year 1, 00:00:00 UTC. *)
Definition Time_IsZero (t : Time) : bool := t =? -62135596800 * 1000000000.

Section TestHelpers.

(** The source of math/rand: [rand.Intn(n)] draws a number and advances
    the source. *)
Variable Source : Type.
Variable rand_Intn : Z → Source → Z * Source.

(** [for i := range b { b[i] = charset[rand.Intn(len(charset))] }], for the
    [n] bytes that are left to fill; an index outside [charset] panics,
    which is [None]. *)
Fixpoint fill (n : nat) (src : Source) : option (list ascii) * Source :=
  match n with
  | O => (Some [], src)
  | S n' =>
      let '(k, src) := rand_Intn (Z.of_nat (String.length charset)) src in
      match (if k <? 0 then None else String.get (Z.to_nat k) charset) with
      | None => (None, src)
      | Some c => let '(rest, src) := fill n' src in (cons c <$> rest, src)
      end
  end.

(** [randomString] generates a random string. *)
Definition randomString (src : Source) : option string * Source :=
  let '(b, src) := fill 20 src in (String.string_of_list_ascii <$> b, src).

(** [fmt.Sprintf("%v", p)] for a [*string]: an address, or <nil>. *)
Variable Sprint_pointer : option string → string.

(** [validateMemoryObject] validates a memory object structure; the result
    is the list of the failures that it reports with [t.Error] and
    [t.Errorf]. *)
Definition validateMemoryObject (memory : Memory.t) (expectedUserID : string)
  : list string :=
  let errors := [] in
  let errors :=
    if String.eqb (Memory.ID memory) ""
    then errors ++ ["Memory ID should be a non-empty string"] else errors in
  let errors :=
    if match Memory.Memory memory with
       | None => true
       | Some content => String.eqb content ""
       end
    then errors ++ ["Memory content should be a non-empty string"] else errors in
  let errors :=
    if match Memory.UserID memory with
       | None => true
       | Some userID => negb (String.eqb userID expectedUserID)
       end
    then errors ++ ["Memory user_id should be " +:+ expectedUserID +:+ ", got "
                      +:+ Sprint_pointer (Memory.UserID memory)]
    else errors in
  let errors :=
    errors ++ flat_map (λ category,
                          if String.eqb category ""
                          then ["Category should be a non-empty string"] else [])
                       (Memory.Categories memory) in
  let errors :=
    if match Memory.CreatedAt memory with
       | Some t => Time_IsZero t
       | None => false
       end
    then errors ++ ["CreatedAt should be a valid date"] else errors in
  let errors :=
    if match Memory.UpdatedAt memory with
       | Some t => Time_IsZero t
       | None => false
       end
    then errors ++ ["UpdatedAt should be a valid date"] else errors in
  errors.

End TestHelpers.

(** ** Vocabulary for the statements *)

(** The operation [m], run from [w], makes exactly the call [call] and
    returns what [k] makes of its answer; it leaves the client as it was. *)
Definition single_call {A} (env : Env) (m : M A) (w : World) (call : Call)
    (k : Value → Result A) : Prop :=
  (m w).1 = and_then (fetchWithErrorHandling env (client w) (calls w)
                        (call_method call) (call_endpoint call) (call_body call)) k
  ∧ calls (m w).2 = calls w ++ [call]
  ∧ client (m w).2 = client w.

(** The operation run from [w] has a session once it is past its first
    statement, in the world [w0]: [w] itself if the session was established
    before, else [w] after a ping that succeeded and told the user. *)
Definition established_by (env : Env) (w w0 : World) : Prop :=
  ensure_telemetry env w = (Ok (), w0)
  ∧ MemoryClient.telemetryID (client w0) ≠ "".

(** Request bodies can be encoded and requests constructed, and the next
    exchange with the server, whatever the request, has the outcome [d]. *)
Definition next_exchange (env : Env) (w : World) (d : DoResult) : Prop :=
  (∀ body, ∃ jsonBody, json_Marshal env body = Ok jsonBody)
  ∧ (∀ method url, http_NewRequest env method url = None)
  ∧ (∀ request, http_Do env (calls w) request = d).

(** Every operation that makes one call returns the error [e]. *)
Definition operations_return (env : Env) (w : World) (e : error) : Prop :=
  (∀ messages options, (Add env messages options w).1 = Err e)
  ∧ (∀ memoryID message, (Update env memoryID message w).1 = Err e)
  ∧ (∀ memoryID, (Get env memoryID w).1 = Err e)
  ∧ (∀ options, (GetAll env options w).1 = Err e)
  ∧ (∀ query options, (Search env query options w).1 = Err e)
  ∧ (∀ memoryID, (Delete env memoryID w).1 = Err e)
  ∧ (∀ options, (DeleteAll env options w).1 = Err e)
  ∧ (∀ memories, (BatchUpdate env memories w).1 = Err e)
  ∧ (∀ memoryIDs, (BatchDelete env memoryIDs w).1 = Err e)
  ∧ (∀ memoryID, (History env memoryID w).1 = Err e)
  ∧ (Users env w).1 = Err e
  ∧ (∀ data, (DeleteUser env data w).1 = Err e).

(** The options with which [DeleteUsers] builds its endpoints. *)
Definition delete_options (c : MemoryClient.t) : MemoryOptions.t :=
  setOrgProject c MemoryOptions.zero.

Definition delete_call (env : Env) (c : MemoryClient.t)
    (entity : gmap string string) : Call :=
  mkCall "DELETE" (delete_endpoint env (delete_options c) entity) VNil.

(** Each deletion of [entities], issued in order after [history], succeeds. *)
Fixpoint deletions_succeed (env : Env) (c : MemoryClient.t) (history : list Call)
    (entities : list (gmap string string)) : Prop :=
  match entities with
  | [] => True
  | entity :: rest =>
      (∃ v, fetchWithErrorHandling env c history "DELETE"
              (delete_endpoint env (delete_options c) entity) VNil = Ok v)
      ∧ deletions_succeed env c (history ++ [delete_call env c entity]) rest
  end.

Definition is_DELETE (call : Call) : bool := String.eqb (call_method call) "DELETE".

(** The entities that [DeleteUsers] targets when no parameter is set. *)
Definition entities_of (users : list User.t) : list (gmap string string) :=
  map (λ entity, entity_of (User.Type_ entity) (User.Name entity)) users.

(** The transport failures: no HTTP response at all, or a response in the
    2xx range whose body is not JSON; each with the error that
    [fetchWithErrorHandling] makes of it. *)
Inductive transport_failure (env : Env) : DoResult → error → Prop :=
| no_response err :
    transport_failure env (DoError err) (WrapError "request failed: " err)
| malformed_json status respBody err :
    200 ≤ status < 300 →
    json_Unmarshal env respBody = Err err →
    transport_failure env (DoResponse status (Ok respBody))
                      (WrapError "failed to parse response JSON: " err).

(** The number of DELETE calls among [l]. *)
Definition count_DELETE (l : list Call) : nat := length (List.filter is_DELETE l).

(** The first parameter that is set, in the order given. *)
Fixpoint first_set (candidates : list (string * option string))
  : option (string * string) :=
  match candidates with
  | [] => None
  | (type, Some name) :: _ => Some (type, name)
  | (_, None) :: rest => first_set rest
  end.

(** The parameters of [DeleteUsers] in their order of priority. *)
Definition by_priority (p : DeleteUsersParams.t) : list (string * option string) :=
  [("user", DeleteUsersParams.UserID p); ("agent", DeleteUsersParams.AgentID p);
   ("app", DeleteUsersParams.AppID p); ("run", DeleteUsersParams.RunID p)].


(** A [key=value] piece of a query string. *)
Definition join_pair (kv : string * string) : string := kv.1 +:+ "=" +:+ kv.2.

(** A pair whose parts can be joined and read back: no [&] in either, no
    [=] in the key. *)
Definition safe_pair (kv : string * string) : Prop :=
  contains "&" kv.1 = false ∧ contains "=" kv.1 = false ∧ contains "&" kv.2 = false.

(** The request target of a path and the pairs of its query. *)
Definition target_of (path : string) (pairs : list (string * string)) : string :=
  if decide (pairs = []) then path
  else path +:+ "?" +:+ String.concat "&" (map join_pair pairs).

(** The pagination parameters that the options ask for: both or none. *)
Definition pagination_pairs (o : MemoryOptions.t) : list (string * string) :=
  match MemoryOptions.Page o, MemoryOptions.PageSize o with
  | Some page, Some pageSize => [("page", fmt_d page); ("page_size", fmt_d pageSize)]
  | _, _ => []
  end.

(** [P] holds of every operation of the client that starts by making sure
    of the session, whatever its arguments. *)
Definition every_operation (env : Env) (P : ∀ A, M A → Prop) : Prop :=
  (∀ messages options, P _ (Add env messages options))
  ∧ (∀ memoryID message, P _ (Update env memoryID message))
  ∧ (∀ memoryID, P _ (Get env memoryID))
  ∧ (∀ options, P _ (GetAll env options))
  ∧ (∀ query options, P _ (Search env query options))
  ∧ (∀ memoryID, P _ (Delete env memoryID))
  ∧ (∀ options, P _ (DeleteAll env options))
  ∧ (∀ memories, P _ (BatchUpdate env memories))
  ∧ (∀ memoryIDs, P _ (BatchDelete env memoryIDs))
  ∧ (∀ memoryID, P _ (History env memoryID))
  ∧ P _ (Users env)
  ∧ (∀ data, P _ (DeleteUser env data))
  ∧ (∀ params, P _ (DeleteUsers env params)).

(** What may have happened between the worlds [w] and [w']: calls were
    made and lines printed, identifiers of the organization and project
    that were missing were filled in, and a session was established if
    there was none. *)
Definition evolves (w w' : World) : Prop :=
  let c := client w in
  let c' := client w' in
  MemoryClient.apiKey c' = MemoryClient.apiKey c
  ∧ MemoryClient.host c' = MemoryClient.host c
  ∧ MemoryClient.headers c' = MemoryClient.headers c
  ∧ MemoryClient.httpClient_Timeout c' = MemoryClient.httpClient_Timeout c
  ∧ MemoryClient.organizationName c' = MemoryClient.organizationName c
  ∧ MemoryClient.projectName c' = MemoryClient.projectName c
  ∧ (is_nil (MemoryClient.organizationID c) = false →
     MemoryClient.organizationID c' = MemoryClient.organizationID c)
  ∧ (is_nil (MemoryClient.projectID c) = false →
     MemoryClient.projectID c' = MemoryClient.projectID c)
  ∧ (MemoryClient.telemetryID c ≠ "" → c' = c)
  ∧ calls w `prefix_of` calls w'
  ∧ stdout w `prefix_of` stdout w'.

(** The call that [Ping] makes. *)
Definition ping_call : Call := mkCall "GET" "/v1/ping/" VNil.

(** The lines that [validateOrgProject] prints for the client [c]. *)
Definition warnings (c : MemoryClient.t) : list string :=
  (if xorb (isSome (MemoryClient.organizationName c)) (isSome (MemoryClient.projectName c))
   then ["Warning: Both organizationName and projectName must be provided together when using either. This will be removed from version 1.0.40. Note that organizationName/projectName are being deprecated in favor of organizationId/projectId."]
   else [])
  ++ (if xorb (is_nil (MemoryClient.organizationID c)) (is_nil (MemoryClient.projectID c))
      then ["Warning: Both organizationId and projectId must be provided together when using either. This will be removed from version 1.0.40."]
      else []).

(** The value of a field of the options as an interface value, if the field
    is set. *)
Definition field_value (o : MemoryOptions.t) (f : MemoryField) : option Value :=
  match f with
  | FAPIVersion => VAPIVersion <$> MemoryOptions.APIVersion o
  | FVersion => VAPIVersion <$> MemoryOptions.Version o
  | FUserID => VString <$> MemoryOptions.UserID o
  | FAgentID => VString <$> MemoryOptions.AgentID o
  | FAppID => VString <$> MemoryOptions.AppID o
  | FRunID => VString <$> MemoryOptions.RunID o
  | FMetadata => VMap <$> MemoryOptions.Metadata o
  | FFilters => VMap <$> MemoryOptions.Filters o
  | FOrgName => VString <$> MemoryOptions.OrgName o
  | FProjectName => VString <$> MemoryOptions.ProjectName o
  | FOrgID => if is_nil (MemoryOptions.OrgID o) then None
              else Some (MemoryOptions.OrgID o)
  | FProjectID => if is_nil (MemoryOptions.ProjectID o) then None
                  else Some (MemoryOptions.ProjectID o)
  | FInfer => VBool <$> MemoryOptions.Infer o
  | FPage => VInt <$> MemoryOptions.Page o
  | FPageSize => VInt <$> MemoryOptions.PageSize o
  | FIncludes => VString <$> MemoryOptions.Includes o
  | FExcludes => VString <$> MemoryOptions.Excludes o
  | FEnableGraph => VBool <$> MemoryOptions.EnableGraph o
  | FStartDate => VString <$> MemoryOptions.StartDate o
  | FEndDate => VString <$> MemoryOptions.EndDate o
  | FCustomCategories => VMaps <$> MemoryOptions.CustomCategories o
  | FCustomInstructions => VString <$> MemoryOptions.CustomInstructions o
  | FTimestamp => VInt <$> MemoryOptions.Timestamp o
  | FOutputFormat => VOutputFormat <$> MemoryOptions.OutputFormat o
  | FAsyncMode => VBool <$> MemoryOptions.AsyncMode o
  end.

(** The fields that [preparePayload] has a statement for. *)
Definition in_payload (f : MemoryField) : bool :=
  match f with
  | FPage | FPageSize | FIncludes | FExcludes | FStartDate | FEndDate
  | FTimestamp => false
  | _ => true
  end.

(** The fields that [prepareParams] has a statement for. *)
Definition in_params (f : MemoryField) : bool :=
  match f with
  | FUserID | FAgentID | FAppID | FRunID | FOrgName | FProjectName | FOrgID
  | FProjectID => true
  | _ => false
  end.

(** The fields of the embedded options that [addSearchOptionsToPayload] has
    a statement for. *)
Definition in_search (f : MemoryField) : bool :=
  match f with
  | FUserID | FAgentID | FAppID | FRunID | FMetadata | FFilters => true
  | _ => false
  end.

(** The value that a field of [SearchOptions] contributes to the body of a
    search, if any. *)
Definition search_field_value (o : SearchOptions.t) (f : SearchField) : option Value :=
  match f with
  | FBase f => if in_search f then field_value (SearchOptions.Base o) f else None
  | FLimit => VInt <$> SearchOptions.Limit o
  | FSearchEnableGraph => VBool <$> SearchOptions.EnableGraph o
  | FThreshold => VFloat <$> SearchOptions.Threshold o
  | FTopK => VInt <$> SearchOptions.TopK o
  | FOnlyMetadataBasedSearch => VBool <$> SearchOptions.OnlyMetadataBasedSearch o
  | FKeywordSearch => VBool <$> SearchOptions.KeywordSearch o
  | FFields => VStrings <$> SearchOptions.Fields o
  | FCategories => VStrings <$> SearchOptions.Categories o
  | FRerank => VBool <$> SearchOptions.Rerank o
  end.

(** The client has both identifiers, of the organization and of the
    project. *)
Definition has_ids (c : MemoryClient.t) : bool :=
  negb (is_nil (MemoryClient.organizationID c)) && negb (is_nil (MemoryClient.projectID c)).

(** The client has both names, of the organization and of the project. *)
Definition has_names (c : MemoryClient.t) : bool :=
  isSome (MemoryClient.organizationName c) && isSome (MemoryClient.projectName c).

(** The pairs by which the organization and project of the client appear in
    a query: the identifiers if it has both, else the names if it has
    both. *)
Definition organization_pairs (sprint : Value → string) (c : MemoryClient.t)
  : list (string * string) :=
  if has_ids c
  then [("org_id", QueryEscape (fmt_v sprint (MemoryClient.organizationID c)));
        ("project_id", QueryEscape (fmt_v sprint (MemoryClient.projectID c)))]
  else match MemoryClient.organizationName c, MemoryClient.projectName c with
       | Some organizationName, Some projectName =>
           [("org_name", QueryEscape organizationName);
            ("project_name", QueryEscape projectName)]
       | _, _ => []
       end.

(** ** Scenarios: concrete environments, clients and inputs *)

Module Scenario.

(** An environment in which every body can be encoded and every request
    constructed, the listing of entities decodes to [users], and the
    server answers as [server] says. *)
Definition env_of (server : list Call → Request → DoResult) (users : list User.t)
  : Env :=
  {| Sprint_other := λ _, "?";
     json_Marshal := λ _, Ok "{}";
     json_Unmarshal := λ s,
       if String.eqb s "<html>"
       then Err (LibError "invalid character '<' looking for beginning of value")
       else Ok (VMap {[ "status" := VString "ok";
                        "user_email" := VString "someone@example.com" ]});
     json_Unmarshal_Memories := λ _, Ok [];
     json_Unmarshal_Memory := λ _, Err (LibError "unexpected end of JSON input");
     json_Unmarshal_MessageResponse := λ _, Ok (MessageResponse.mk "ok");
     json_Unmarshal_History := λ _, Ok [];
     json_Unmarshal_AllUsers :=
       λ _, Ok (AllUsers.mk (Z.of_nat (length users)) users VNil VNil);
     http_NewRequest := λ _ _, None;
     http_Do := server |}.

Definition always (d : DoResult) : list Call → Request → DoResult := λ _ _, d.


(** A client with an established session and no organization. *)
Definition a_client : MemoryClient.t :=
  MemoryClient.mk "m0-key" "https://api.mem0.ai" None None VNil VNil
    {[ "Authorization" := "Token m0-key"; "Content-Type" := "application/json" ]}
    (60 * 1000000000) "someone@example.com".

(** A client configured with both forms of organization and project. *)
Definition both_forms_client : MemoryClient.t :=
  MemoryClient.mk "m0-key" "https://api.mem0.ai" (Some "acme") (Some "demo")
    (VString "org_1") (VInt 42)
    {[ "Authorization" := "Token m0-key"; "Content-Type" := "application/json" ]}
    (60 * 1000000000) "someone@example.com".

(** A client whose session is not yet established. *)
Definition fresh_client : MemoryClient.t :=
  MemoryClient.set_telemetryID "" a_client.

Definition world_of (c : MemoryClient.t) : World := mkWorld c [] [].

Definition unauthorized : DoResult := DoResponse 401 (Ok "denied").
Definition refused : DoResult := DoError (LibError "dial tcp: connection refused").
Definition not_json : DoResult := DoResponse 200 (Ok "<html>").
Definition accepted : DoResult := DoResponse 200 (Ok "{}").

Definition alice : User.t := User.mk "1" "alice" 0 0 3 "o" "user".
Definition bot : User.t := User.mk "2" "helper" 0 0 1 "o" "agent".

Definition options_with_key (apiKey : string) : ClientOptions.t :=
  ClientOptions.mk apiKey None None None VNil VNil.

Definition only_user (name : string) : DeleteUsersParams.t :=
  DeleteUsersParams.mk (Some name) None None None.

Definition user_and_agent : DeleteUsersParams.t :=
  DeleteUsersParams.mk (Some "alice") (Some "helper") None None.

Definition options_with_org (orgID : Value) : MemoryOptions.t :=
  MemoryOptions.set_OrgID orgID MemoryOptions.zero.

Definition v2_options : SearchOptions.t :=
  SearchOptions.set_Base
    (MemoryOptions.mk (Some APIVersionV2) None (Some "alice") None None None None
       None None None VNil VNil None (Some 2) (Some 10) None None None None None
       None None None None None)
    SearchOptions.zero.

Definition v1_options : SearchOptions.t :=
  SearchOptions.set_Base
    (MemoryOptions.mk None None (Some "alice") None None (Some "run 7") None
       None None None VNil VNil None (Some 2) None None None None None None
       None None None None None)
    SearchOptions.zero.

Definition some_options : MemoryOptions.t :=
  MemoryOptions.mk None None (Some "alice") None None (Some "run 7") None None
    (Some "acme") None (VInt 123) (VString "p-1") None (Some 2) (Some 10)
    None None None None None None None None None None.

(** A client with a session that was given the name of an organization
    and no project. *)
Definition half_configured_client : MemoryClient.t :=
  MemoryClient.mk "m0-key" "https://api.mem0.ai" (Some "acme") None VNil VNil
    {[ "Authorization" := "Token m0-key"; "Content-Type" := "application/json" ]}
    (60 * 1000000000) "someone@example.com".

(** An environment as [env_of], in which every answer of the server
    decodes to [answer]. *)
Definition env_answering (answer : Value) : Env :=
  {| Sprint_other := λ _, "?";
     json_Marshal := λ _, Ok "{}";
     json_Unmarshal := λ _, Ok answer;
     json_Unmarshal_Memories := λ _, Ok [];
     json_Unmarshal_Memory := λ _, Err (LibError "unexpected end of JSON input");
     json_Unmarshal_MessageResponse := λ _, Ok (MessageResponse.mk "ok");
     json_Unmarshal_History := λ _, Ok [];
     json_Unmarshal_AllUsers := λ _, Ok (AllUsers.mk 0 [] VNil VNil);
     http_NewRequest := λ _ _, None;
     http_Do := always accepted |}.

(** Options that carry a filter and name no user, agent, app or run. *)
Definition only_filters : MemoryOptions.t :=
  MemoryOptions.mk None None None None None None None
    (Some {[ "category" := VString "travel" ]})
    None None VNil VNil None None None None None None None None None None None
    None None.

(** An environment as [env_of], in which the answer of the server does not
    decode to a message. *)
Definition env_without_message : Env :=
  {| Sprint_other := λ _, "?";
     json_Marshal := λ _, Ok "[]";
     json_Unmarshal := λ _, Ok (VList []);
     json_Unmarshal_Memories := λ _, Ok [];
     json_Unmarshal_Memory := λ _, Err (LibError "unexpected end of JSON input");
     json_Unmarshal_MessageResponse :=
       λ _, Err (LibError "json: cannot unmarshal array into Go value of type client.MessageResponse");
     json_Unmarshal_History := λ _, Ok [];
     json_Unmarshal_AllUsers := λ _, Ok (AllUsers.mk 0 [] VNil VNil);
     http_NewRequest := λ _ _, None;
     http_Do := always (DoResponse 204 (Ok "[]")) |}.

(** A source of random numbers: a linear congruential generator. *)
Definition lcg_Intn (n : Z) (seed : Z) : Z * Z :=
  let seed := (seed * 1103515245 + 12345) mod 2147483648 in
  ((seed / 65536) mod n, seed).

End Scenario.

(** * Properties *)

Import Scenario.

Lemma next_exchange_always d users w :
  next_exchange (env_of (always d) users) w d.
Proof. repeat split; intros; simpl; eauto. Qed.

(** ** The request builder *)

Lemma put_opt_lookup_ne {A} key key' (f : A → Value) x (payload : gmap string Value) :
  key ≠ key' → put_opt key f x payload !! key' = payload !! key'.
Proof. intros Hne. destruct x; simpl; [by rewrite lookup_insert_ne | done]. Qed.

Lemma put_val_lookup_ne key key' x (payload : gmap string Value) :
  key ≠ key' → put_val key x payload !! key' = payload !! key'.
Proof.
  intros Hne. unfold put_val. destruct (is_nil x); [done | by rewrite lookup_insert_ne].
Qed.

Lemma put_opt_lookup_Some {A} key key' (f : A → Value) x (payload : gmap string Value) :
  is_Some (put_opt key f x payload !! key') →
  (key' = key ∧ isSome x = true) ∨ is_Some (payload !! key').
Proof.
  destruct x as [a|]; simpl; [|by right].
  destruct (decide (key = key')) as [->|Hne].
  - by left.
  - rewrite lookup_insert_ne by done. by right.
Qed.

Lemma put_val_lookup_Some key key' x (payload : gmap string Value) :
  is_Some (put_val key x payload !! key') →
  (key' = key ∧ is_nil x = false) ∨ is_Some (payload !! key').
Proof.
  unfold put_val. destruct (is_nil x) eqn:Hx; [by right|].
  destruct (decide (key = key')) as [->|Hne].
  - by left.
  - rewrite lookup_insert_ne by done. by right.
Qed.

Lemma Values_Add_lookup_ne key key' value (params : gmap string (list string)) :
  key ≠ key' → Values_Add key value params !! key' = params !! key'.
Proof. intros Hne. unfold Values_Add. by rewrite lookup_insert_ne. Qed.

Lemma Values_Add_lookup key value (params : gmap string (list string)) :
  Values_Add key value params !! key = Some (default [] (params !! key) ++ [value]).
Proof. unfold Values_Add. by rewrite lookup_insert_eq. Qed.

Lemma add_opt_lookup_ne {A} key key' (f : A → string) x (params : gmap string (list string)) :
  key ≠ key' → add_opt key f x params !! key' = params !! key'.
Proof. intros Hne. destruct x; simpl; [by apply Values_Add_lookup_ne | done]. Qed.

Lemma add_val_lookup_ne key key' f x (params : gmap string (list string)) :
  key ≠ key' → add_val key f x params !! key' = params !! key'.
Proof.
  intros Hne. unfold add_val. destruct (is_nil x); [done | by apply Values_Add_lookup_ne].
Qed.

Lemma add_opt_lookup_Some {A} key key' (f : A → string) x (params : gmap string (list string)) :
  is_Some (add_opt key f x params !! key') →
  (key' = key ∧ isSome x = true) ∨ is_Some (params !! key').
Proof.
  destruct x as [a|]; simpl; [|by right].
  destruct (decide (key = key')) as [->|Hne].
  - by left.
  - rewrite Values_Add_lookup_ne by done. by right.
Qed.

Lemma add_val_lookup_Some key key' f x (params : gmap string (list string)) :
  is_Some (add_val key f x params !! key') →
  (key' = key ∧ is_nil x = false) ∨ is_Some (params !! key').
Proof.
  unfold add_val. destruct (is_nil x) eqn:Hx; [by right|].
  destruct (decide (key = key')) as [->|Hne].
  - by left.
  - rewrite Values_Add_lookup_ne by done. by right.
Qed.

(** Looking a key up through the conditional assignments of the builders. *)
Ltac skip_other_keys :=
  repeat first
    [ rewrite put_opt_lookup_ne by discriminate
    | rewrite put_val_lookup_ne by discriminate
    | rewrite add_opt_lookup_ne by discriminate
    | rewrite add_val_lookup_ne by discriminate
    | rewrite lookup_insert_ne by discriminate ].

Lemma isSome_false {A} (x : option A) : isSome x = false → x = None.
Proof. by destruct x. Qed.

Lemma not_nil_false (x : Value) : negb (is_nil x) = false → x = VNil.
Proof. by destruct x. Qed.

Lemma put_val_nil key (payload : gmap string Value) :
  put_val key VNil payload = payload.
Proof. reflexivity. Qed.

Lemma add_val_nil key f (params : gmap string (list string)) :
  add_val key f VNil params = params.
Proof. reflexivity. Qed.

Lemma preparePayload_unset messages o f :
  is_set o f = false → preparePayload messages o !! wire_name f = None.
Proof.
  intros Hunset. unfold preparePayload.
  destruct f; simpl in Hunset;
    first [ apply isSome_false in Hunset | apply not_nil_false in Hunset ];
    simpl wire_name; try rewrite Hunset; skip_other_keys;
    simpl; rewrite ?put_val_nil; skip_other_keys; done.
Qed.

Lemma prepareParams_unset sprint o f :
  is_set o f = false →
  prepareParams sprint (OfMemoryOptions o) !! wire_name f = None.
Proof.
  intros Hunset. unfold prepareParams.
  destruct f; simpl in Hunset;
    first [ apply isSome_false in Hunset | apply not_nil_false in Hunset ];
    simpl wire_name; try rewrite Hunset; skip_other_keys;
    simpl; rewrite ?add_val_nil; skip_other_keys; done.
Qed.

Lemma prepareParams_search_unset sprint so sf :
  search_is_set so sf = false →
  prepareParams sprint (OfSearchOptions so) !! search_wire_name sf = None.
Proof.
  intros Hunset. unfold prepareParams.
  destruct sf as [f| | | | | | | | |]; [destruct f|..]; simpl in Hunset;
    try apply isSome_false in Hunset;
    simpl search_wire_name; try rewrite Hunset; skip_other_keys; done.
Qed.

Lemma preparePayload_keys messages o key :
  is_Some (preparePayload messages o !! key) →
  key = "messages" ∨ ∃ f, wire_name f = key ∧ is_set o f = true.
Proof.
  unfold preparePayload. intros H.
  repeat match type of H with
  | is_Some (put_opt _ _ _ _ !! _) =>
      apply put_opt_lookup_Some in H as [[-> Hset]|H]
  | is_Some (put_val _ _ _ !! _) =>
      apply put_val_lookup_Some in H as [[-> Hset]|H]
  end.
  19: { destruct (decide (key = "messages")) as [->|Hne]; [by left|].
        rewrite lookup_insert_ne in H by done. by destruct H. }
  all: right.
  - by exists FAsyncMode.
  - by exists FOutputFormat.
  - by exists FCustomInstructions.
  - by exists FCustomCategories.
  - by exists FEnableGraph.
  - by exists FInfer.
  - exists FProjectID. simpl. by rewrite Hset.
  - exists FOrgID. simpl. by rewrite Hset.
  - by exists FProjectName.
  - by exists FOrgName.
  - by exists FFilters.
  - by exists FMetadata.
  - by exists FRunID.
  - by exists FAppID.
  - by exists FAgentID.
  - by exists FUserID.
  - by exists FVersion.
  - by exists FAPIVersion.
Qed.

Lemma prepareParams_keys sprint o key :
  is_Some (prepareParams sprint (OfMemoryOptions o) !! key) →
  ∃ f, wire_name f = key ∧ is_set o f = true.
Proof.
  unfold prepareParams. intros H.
  repeat match type of H with
  | is_Some (add_opt _ _ _ _ !! _) =>
      apply add_opt_lookup_Some in H as [[-> Hset]|H]
  | is_Some (add_val _ _ _ _ !! _) =>
      apply add_val_lookup_Some in H as [[-> Hset]|H]
  end.
  9: { by destruct H. }
  - exists FProjectID. simpl. by rewrite Hset.
  - exists FOrgID. simpl. by rewrite Hset.
  - by exists FProjectName.
  - by exists FOrgName.
  - by exists FRunID.
  - by exists FAppID.
  - by exists FAgentID.
  - by exists FUserID.
Qed.

Lemma prepareParams_search_keys sprint so key :
  is_Some (prepareParams sprint (OfSearchOptions so) !! key) →
  key = "user_id" ∧ search_is_set so (FBase FUserID) = true.
Proof.
  unfold prepareParams. intros H.
  apply add_opt_lookup_Some in H as [[-> Hset]|H]; [done | by destruct H].
Qed.

(** C1. A field of the options that is left unset (nil) has no key in the
    payload of [preparePayload] nor in the parameters of [prepareParams], for
    [MemoryOptions] and for [SearchOptions]; and every key that the builders
    emit, apart from [messages], is the wire name of a field that is set. *)
Theorem unset_fields_are_omitted sprint messages o f so sf :
  is_set o f = false →
  search_is_set so sf = false →
  preparePayload messages o !! wire_name f = None
  ∧ prepareParams sprint (OfMemoryOptions o) !! wire_name f = None
  ∧ prepareParams sprint (OfSearchOptions so) !! search_wire_name sf = None
  ∧ (∀ key, is_Some (preparePayload messages o !! key) →
            key = "messages" ∨ ∃ f', wire_name f' = key ∧ is_set o f' = true)
  ∧ (∀ key, is_Some (prepareParams sprint (OfMemoryOptions o) !! key) →
            ∃ f', wire_name f' = key ∧ is_set o f' = true)
  ∧ (∀ key, is_Some (prepareParams sprint (OfSearchOptions so) !! key) →
            ∃ sf', search_wire_name sf' = key ∧ search_is_set so sf' = true).
Proof.
  intros Hf Hsf. repeat split.
  - by apply preparePayload_unset.
  - by apply prepareParams_unset.
  - by apply prepareParams_search_unset.
  - apply preparePayload_keys.
  - apply prepareParams_keys.
  - intros key H. apply prepareParams_search_keys in H as [-> H].
    by exists (FBase FUserID).
Qed.

(** The body of [Search] is built by [addSearchOptionsToPayload]: there too
    a field that is unset adds no key. The embedded EnableGraph is left out,
    its wire name being that of the field of [SearchOptions] that shadows
    it. *)
Lemma addSearchOptionsToPayload_unset payload so sf :
  search_is_set so sf = false →
  sf ≠ FBase FEnableGraph →
  addSearchOptionsToPayload payload so !! search_wire_name sf
  = payload !! search_wire_name sf.
Proof.
  intros Hunset Hsf. unfold addSearchOptionsToPayload.
  destruct sf as [f| | | | | | | | |]; [destruct f|..]; try done; simpl in Hunset;
    try apply isSome_false in Hunset;
    simpl search_wire_name; simpl wire_name; try rewrite Hunset;
    skip_other_keys; simpl; skip_other_keys; done.
Qed.

Lemma unset_fields_are_omitted_witness :
  is_set some_options FAgentID = false
  ∧ search_is_set SearchOptions.zero FLimit = false
  ∧ preparePayload [] some_options !! "agent_id" = None
  ∧ prepareParams (λ _, "?") (OfMemoryOptions some_options) !! "agent_id" = None
  ∧ prepareParams (λ _, "?") (OfSearchOptions SearchOptions.zero) !! "limit" = None.
Proof.
  split; [reflexivity|]. split; [reflexivity|].
  pose proof (unset_fields_are_omitted (λ _, "?") [] some_options FAgentID
                SearchOptions.zero FLimit eq_refl eq_refl) as (H1 & H2 & H3 & _).
  exact (conj H1 (conj H2 H3)).
Defined.

(** ** Running the operations *)

Lemma bind_run {A B} (m : M A) (f : A → M B) w :
  (m ≫= f) w = match m w with
               | (Ok a, w') => f a w'
               | (Err e, w') => (Err e, w')
               end.
Proof. reflexivity. Qed.

Lemma validateOrgProject_run w :
  ∃ out, validateOrgProject w = (Ok (), mkWorld (client w) (calls w) out).
Proof.
  unfold validateOrgProject. rewrite bind_run. simpl.
  rewrite bind_run. unfold when.
  destruct w as [c cs out]; simpl.
  repeat match goal with
         | |- context [if ?b then _ else _] => destruct b
         end; simpl; eauto.
Qed.

Lemma ensure_telemetry_established env w :
  MemoryClient.telemetryID (client w) ≠ "" → ensure_telemetry env w = (Ok (), w).
Proof.
  intros Htel. unfold ensure_telemetry. rewrite bind_run. simpl.
  apply String.eqb_neq in Htel. by rewrite Htel.
Qed.

(** The last two statements of an operation: the call and the decoding. *)
Lemma fetch_then_run {A} env method endpoint body (k : Value → Result A) w :
  single_call env (fetch env method endpoint body ≫= λ response, lift (k response))
              w (mkCall method endpoint body) k.
Proof.
  unfold single_call. rewrite bind_run. unfold fetch, lift. simpl.
  destruct (fetchWithErrorHandling env (client w) (calls w) method endpoint body);
    simpl; done.
Qed.

Ltac enter_operation w Htel :=
  rewrite bind_run, (ensure_telemetry_established _ _ Htel);
  try (rewrite bind_run;
       match goal with
       | |- context [validateOrgProject ?w0] =>
           let out := fresh "out" in
           destruct (validateOrgProject_run w0) as [out ->]
       end);
  try (rewrite bind_run; progress unfold get_client; cbv beta iota).

Ltac run_operation w Htel :=
  intros Htel; unfold single_call at 1; enter_operation w Htel;
  first [ apply (fetch_then_run _ _ _ _ _ (mkWorld (client w) (calls w) _))
        | apply (fetch_then_run _ _ _ _ (λ response, Ok (batch_result _ response))
                                (mkWorld (client w) (calls w) _))
        | apply fetch_then_run
        | apply (fetch_then_run _ _ _ _ (λ response, Ok (batch_result _ response))) ].

Lemma Add_run env messages options w :
  MemoryClient.telemetryID (client w) ≠ "" →
  single_call env (Add env messages options) w
    (mkCall "POST" "/v1/memories/" (VMap (Add_payload (client w) messages options)))
    (parseResponse env (json_Unmarshal_Memories env)).
Proof. unfold Add. run_operation w Htel. Qed.

Lemma Update_run env memoryID message w :
  MemoryClient.telemetryID (client w) ≠ "" →
  single_call env (Update env memoryID message) w
    (mkCall "PUT" ("/v1/memories/" +:+ memoryID +:+ "/")
            (VMap {[ "text" := VString message ]}))
    (parseResponse env (json_Unmarshal_Memories env)).
Proof. unfold Update. run_operation w Htel. Qed.

Lemma Get_run env memoryID w :
  MemoryClient.telemetryID (client w) ≠ "" →
  single_call env (Get env memoryID) w
    (mkCall "GET" ("/v1/memories/" +:+ memoryID +:+ "/") VNil)
    (parseResponse env (json_Unmarshal_Memory env)).
Proof. unfold Get. run_operation w Htel. Qed.

Lemma GetAll_run env options w :
  MemoryClient.telemetryID (client w) ≠ "" →
  single_call env (GetAll env options) w (GetAll_request env (client w) options)
    (parseResponse env (json_Unmarshal_Memories env)).
Proof.
  unfold GetAll. intros Htel; unfold single_call at 1; enter_operation w Htel.
  cbn [client calls]. destruct (GetAll_request env (client w) options) as [method endpoint body].
  apply (fetch_then_run _ _ _ _ _ (mkWorld (client w) (calls w) _)).
Qed.

Lemma Search_run env query options w :
  MemoryClient.telemetryID (client w) ≠ "" →
  single_call env (Search env query options) w
    (mkCall "POST" (Search_endpoint (first_or SearchOptions.zero options))
       (VMap (Search_payload (client w) query (first_or SearchOptions.zero options))))
    (parseResponse env (json_Unmarshal_Memories env)).
Proof. unfold Search. run_operation w Htel. Qed.

Lemma Delete_run env memoryID w :
  MemoryClient.telemetryID (client w) ≠ "" →
  single_call env (Delete env memoryID) w
    (mkCall "DELETE" ("/v1/memories/" +:+ memoryID +:+ "/") VNil)
    (parseResponse env (json_Unmarshal_MessageResponse env)).
Proof. unfold Delete. run_operation w Htel. Qed.

Lemma DeleteAll_run env options w :
  MemoryClient.telemetryID (client w) ≠ "" →
  single_call env (DeleteAll env options) w
    (mkCall "DELETE"
       ("/v1/memories/?" +:+
        Values_Encode (prepareParams (Sprint_other env)
          (OfMemoryOptions (setOrgProject (client w)
                              (first_or MemoryOptions.zero options)))))
       VNil)
    (parseResponse env (json_Unmarshal_MessageResponse env)).
Proof. unfold DeleteAll. run_operation w Htel. Qed.

Lemma BatchUpdate_run env memories w :
  MemoryClient.telemetryID (client w) ≠ "" →
  ∃ body, single_call env (BatchUpdate env memories) w
    (mkCall "PUT" "/v1/batch/" body)
    (λ response, Ok (batch_result "Batch update completed" response)).
Proof. unfold BatchUpdate. intros H. eexists. revert H. run_operation w Htel. Qed.

Lemma BatchDelete_run env memoryIDs w :
  MemoryClient.telemetryID (client w) ≠ "" →
  ∃ body, single_call env (BatchDelete env memoryIDs) w
    (mkCall "DELETE" "/v1/batch/" body)
    (λ response, Ok (batch_result "Batch delete completed" response)).
Proof. unfold BatchDelete. intros H. eexists. revert H. run_operation w Htel. Qed.

Lemma History_run env memoryID w :
  MemoryClient.telemetryID (client w) ≠ "" →
  single_call env (History env memoryID) w
    (mkCall "GET" ("/v1/memories/" +:+ memoryID +:+ "/history/") VNil)
    (parseResponse env (json_Unmarshal_History env)).
Proof. unfold History. run_operation w Htel. Qed.

Lemma Users_run env w :
  MemoryClient.telemetryID (client w) ≠ "" →
  single_call env (Users env) w
    (mkCall "GET" (Users_endpoint env (client w)) VNil)
    (parseResponse env (json_Unmarshal_AllUsers env)).
Proof. unfold Users. run_operation w Htel. Qed.

Lemma DeleteUser_run env data w :
  MemoryClient.telemetryID (client w) ≠ "" →
  ∃ endpoint, single_call env (DeleteUser env data) w
    (mkCall "DELETE" endpoint VNil)
    (parseResponse env (json_Unmarshal_MessageResponse env)).
Proof. unfold DeleteUser. intros H. eexists. revert H. run_operation w Htel. Qed.

Lemma single_call_error {A} env (m : M A) w call k e :
  single_call env m w call k →
  (∀ method endpoint body,
     fetchWithErrorHandling env (client w) (calls w) method endpoint body = Err e) →
  (m w).1 = Err e.
Proof. intros (-> & _) Hfail. by rewrite Hfail. Qed.

(** With the session established, an error of the transport is what every
    operation that makes one call returns. *)
Lemma operations_return_transport_error env w e :
  MemoryClient.telemetryID (client w) ≠ "" →
  (∀ method endpoint body,
     fetchWithErrorHandling env (client w) (calls w) method endpoint body = Err e) →
  operations_return env w e.
Proof.
  intros Htel Hfail. unfold operations_return. repeat split; intros.
  - eapply single_call_error; [by apply Add_run | done].
  - eapply single_call_error; [by apply Update_run | done].
  - eapply single_call_error; [by apply Get_run | done].
  - eapply single_call_error; [by apply GetAll_run | done].
  - eapply single_call_error; [by apply Search_run | done].
  - eapply single_call_error; [by apply Delete_run | done].
  - eapply single_call_error; [by apply DeleteAll_run | done].
  - destruct (BatchUpdate_run env memories w Htel) as (body & Hrun).
    eapply single_call_error; done.
  - destruct (BatchDelete_run env memoryIDs w Htel) as (body & Hrun).
    eapply single_call_error; done.
  - eapply single_call_error; [by apply History_run | done].
  - eapply single_call_error; [by apply Users_run | done].
  - destruct (DeleteUser_run env data w Htel) as (endpoint & Hrun).
    eapply single_call_error; done.
Qed.

(** Without a session, the ping comes first, and its error is returned
    wrapped. *)
Lemma Ping_error env w e :
  fetchWithErrorHandling env (client w) (calls w) "GET" "/v1/ping/" VNil = Err e →
  (Ping env w).1 = Err (WrapError "failed to ping server: " e)
  ∧ calls (Ping env w).2 = calls w ++ [mkCall "GET" "/v1/ping/" VNil].
Proof.
  intros Hfail. unfold Ping. rewrite bind_run. unfold on_error, fetch.
  by rewrite Hfail.
Qed.

Lemma Ping_calls env w :
  calls (Ping env w).2 = calls w ++ [mkCall "GET" "/v1/ping/" VNil].
Proof.
  unfold Ping. rewrite bind_run. unfold on_error, fetch.
  destruct (fetchWithErrorHandling _ _ _ _ _ _) as [response|e]; [|done].
  destruct (as_map response) as [responseMap|]; [|done].
  destruct (negb _); [done|].
  rewrite !bind_run. unfold get_client, when, modify_client.
  destruct w as [c cs out]. cbn [client calls stdout].
  destruct (isSome (responseMap !! "org_id") && _),
           (as_string (index responseMap "user_email"));
    unfold mbind, M_bind, mret, M_ret; cbn;
    by destruct (isSome (responseMap !! "project_id") && _).
Qed.

Lemma ensure_telemetry_error env w e :
  MemoryClient.telemetryID (client w) = "" →
  fetchWithErrorHandling env (client w) (calls w) "GET" "/v1/ping/" VNil = Err e →
  ∃ w', ensure_telemetry env w = (Err (WrapError "failed to ping server: " e), w').
Proof.
  intros Htel Hfail. unfold ensure_telemetry. rewrite bind_run. simpl.
  rewrite Htel. simpl. destruct (Ping_error env w e Hfail) as [H1 H2].
  destruct (Ping env w) as [r w']. simpl in H1. subst r. eauto.
Qed.

Lemma operations_return_ping_error env w e :
  MemoryClient.telemetryID (client w) = "" →
  fetchWithErrorHandling env (client w) (calls w) "GET" "/v1/ping/" VNil = Err e →
  operations_return env w (WrapError "failed to ping server: " e)
  ∧ (∀ params, (DeleteUsers env params w).1
               = Err (WrapError "failed to ping server: " e)).
Proof.
  intros Htel Hfail.
  destruct (ensure_telemetry_error env w e Htel Hfail) as [w' Hens].
  unfold operations_return, Add, Update, Get, GetAll, Search, Delete, DeleteAll,
    BatchUpdate, BatchDelete, History, Users, DeleteUser, DeleteUsers.
  repeat split; intros; rewrite bind_run, Hens; done.
Qed.

(** An operation that establishes the session by its ping goes on as if
    run from the world after the ping. *)
Lemma established_refl env w :
  MemoryClient.telemetryID (client w) ≠ "" → established_by env w w.
Proof. intros Htel. split; [by apply ensure_telemetry_established | done]. Qed.

Lemma after_session {A} env (rest : M A) w w0 :
  established_by env w w0 →
  (ensure_telemetry env ;; rest) w = (ensure_telemetry env ;; rest) w0.
Proof.
  intros [Hens Htel]. rewrite (bind_run _ _ w), (bind_run _ _ w0), Hens.
  by rewrite ensure_telemetry_established.
Qed.

Lemma operations_after_session env w w0 e :
  established_by env w w0 → operations_return env w0 e → operations_return env w e.
Proof.
  intros Hest (HAdd & HUpdate & HGet & HGetAll & HSearch & HDelete & HDeleteAll
               & HBatchUpdate & HBatchDelete & HHistory & HUsers & HDeleteUser).
  assert (∀ A (rest : M A),
            ((ensure_telemetry env ;; rest) w).1 = ((ensure_telemetry env ;; rest) w0).1)
    as Hafter by (intros; by rewrite (after_session env rest w w0 Hest)).
  unfold operations_return. repeat apply conj; intros.
  - etrans; [apply Hafter | apply HAdd].
  - etrans; [apply Hafter | apply HUpdate].
  - etrans; [apply Hafter | apply HGet].
  - etrans; [apply Hafter | apply HGetAll].
  - etrans; [apply Hafter | apply HSearch].
  - etrans; [apply Hafter | apply HDelete].
  - etrans; [apply Hafter | apply HDeleteAll].
  - etrans; [apply Hafter | apply HBatchUpdate].
  - etrans; [apply Hafter | apply HBatchDelete].
  - etrans; [apply Hafter | apply HHistory].
  - etrans; [apply Hafter | apply HUsers].
  - etrans; [apply Hafter | apply HDeleteUser].
Qed.

Lemma DeleteUsers_after_session env params w w0 :
  established_by env w w0 → DeleteUsers env params w = DeleteUsers env params w0.
Proof. intros Hest. unfold DeleteUsers. by apply after_session. Qed.

Lemma GetAll_after_session env options w w0 :
  established_by env w w0 → GetAll env options w = GetAll env options w0.
Proof. intros Hest. unfold GetAll. by apply after_session. Qed.

Lemma count_DELETE_app l1 l2 : count_DELETE (l1 ++ l2) = (count_DELETE l1 + count_DELETE l2)%nat.
Proof. unfold count_DELETE. by rewrite List.filter_app, length_app. Qed.

(** The ping that establishes a session is the only call it adds, and it is
    a GET. *)
Lemma established_by_calls env w w0 :
  established_by env w w0 →
  (calls w0 = calls w ∨ calls w0 = calls w ++ [mkCall "GET" "/v1/ping/" VNil])
  ∧ count_DELETE (calls w0) = count_DELETE (calls w).
Proof.
  intros [Hens _]. unfold ensure_telemetry in Hens. rewrite bind_run in Hens.
  unfold get_client, when in Hens. cbv beta iota in Hens.
  destruct (String.eqb _ _).
  - pose proof (Ping_calls env w) as Hcalls. rewrite Hens in Hcalls.
    cbn [snd] in Hcalls. rewrite Hcalls, count_DELETE_app.
    split; [by right|]. unfold count_DELETE. simpl. lia.
  - injection Hens as <-. split; [by left | done].
Qed.

(** ** The transport *)

Lemma fetch_non_2xx env w status respBody method endpoint body :
  next_exchange env w (DoResponse status (Ok respBody)) →
  status < 200 ∨ 300 ≤ status →
  fetchWithErrorHandling env (client w) (calls w) method endpoint body
  = Err (NewAPIError respBody status respBody).
Proof.
  intros (Hmarshal & Hnew & Hdo) Hstatus. unfold fetchWithErrorHandling.
  destruct (Hmarshal body) as [jsonBody ->].
  assert ((status <? 200) || (300 <=? status) = true) as Hout.
  { apply orb_true_iff. destruct Hstatus; [left | right]; lia. }
  destruct (is_nil body); rewrite Hnew, Hdo, Hout; done.
Qed.

Lemma fetch_transport_failure env w err method endpoint body :
  next_exchange env w (DoError err) →
  fetchWithErrorHandling env (client w) (calls w) method endpoint body
  = Err (WrapError "request failed: " err).
Proof.
  intros (Hmarshal & Hnew & Hdo). unfold fetchWithErrorHandling.
  destruct (Hmarshal body) as [jsonBody ->].
  destruct (is_nil body); rewrite Hnew, Hdo; done.
Qed.

Lemma fetch_malformed_json env w status respBody err method endpoint body :
  next_exchange env w (DoResponse status (Ok respBody)) →
  200 ≤ status < 300 →
  json_Unmarshal env respBody = Err err →
  fetchWithErrorHandling env (client w) (calls w) method endpoint body
  = Err (WrapError "failed to parse response JSON: " err).
Proof.
  intros (Hmarshal & Hnew & Hdo) Hstatus Hjson. unfold fetchWithErrorHandling.
  destruct (Hmarshal body) as [jsonBody ->].
  assert ((status <? 200) || (300 <=? status) = false) as Hin.
  { apply orb_false_iff. lia. }
  destruct (is_nil body); rewrite Hnew, Hdo, Hin, Hjson; done.
Qed.

(** ** The deletion of entities *)

Lemma delete_each_run env c cs out entities :
  let w := mkWorld c cs out in
  deletions_succeed env c cs entities →
  delete_each env (delete_options c) entities w
  = (Ok (), mkWorld c (cs ++ map (delete_call env c) entities) out).
Proof.
  revert cs. induction entities as [|entity rest IH]; intros cs w Hok.
  - simpl. by rewrite app_nil_r.
  - destruct Hok as [[v Hv] Hrest]. simpl. rewrite bind_run.
    unfold on_error, fetch. simpl. rewrite Hv.
    etrans; [exact (IH _ Hrest)|]. by rewrite <- app_assoc.
Qed.

Lemma delete_each_abort env c cs out done entity rest err :
  let w := mkWorld c cs out in
  deletions_succeed env c cs done →
  fetchWithErrorHandling env c (cs ++ map (delete_call env c) done) "DELETE"
    (delete_endpoint env (delete_options c) entity) VNil = Err err →
  delete_each env (delete_options c) (done ++ entity :: rest) w
  = (Err (NewAPIError ("Failed to delete " +:+ index_s entity "type" +:+ " "
                         +:+ index_s entity "name" +:+ ": " +:+ Error err) 0 ""),
     mkWorld c (cs ++ map (delete_call env c) (done ++ [entity])) out).
Proof.
  revert cs. induction done as [|first done IH]; intros cs w Hok Herr.
  - simpl in *. rewrite app_nil_r in Herr. rewrite bind_run.
    unfold on_error, fetch. simpl. by rewrite Herr.
  - destruct Hok as [[v Hv] Hrest]. simpl. rewrite bind_run.
    unfold on_error, fetch. simpl. rewrite Hv.
    change (cs ++ map (delete_call env c) (first :: done))
      with (cs ++ [delete_call env c first] ++ map (delete_call env c) done) in Herr.
    rewrite app_assoc in Herr.
    etrans; [exact (IH _ Hrest Herr)|]. by rewrite <- app_assoc.
Qed.

(** [DeleteUsers] once the session is established, by what it targets. *)
Lemma DeleteUsers_selected_run env params entity w :
  MemoryClient.telemetryID (client w) ≠ "" →
  selected_entity (first_or DeleteUsersParams.zero params) = Some entity →
  ∃ out,
    DeleteUsers env params w
    = match delete_each env (delete_options (client w)) [entity]
              (mkWorld (client w) (calls w) out) with
      | (Ok _, w') => (Ok (MessageResponse.mk "Entity deleted successfully."), w')
      | (Err e, w') => (Err e, w')
      end.
Proof.
  intros Htel Hsel. unfold DeleteUsers.
  rewrite bind_run, (ensure_telemetry_established _ _ Htel).
  rewrite bind_run. destruct (validateOrgProject_run w) as [out ->].
  exists out.
  rewrite Hsel. rewrite bind_run. simpl.
  assert (isSome (DeleteUsersParams.UserID (first_or DeleteUsersParams.zero params))
          || isSome (DeleteUsersParams.AgentID (first_or DeleteUsersParams.zero params))
          || isSome (DeleteUsersParams.AppID (first_or DeleteUsersParams.zero params))
          || isSome (DeleteUsersParams.RunID (first_or DeleteUsersParams.zero params))
          = true) as ->.
  { unfold selected_entity in Hsel.
    destruct (first_or DeleteUsersParams.zero params) as [[] [] [] []];
      simpl in *; done. }
  rewrite bind_run. unfold get_client. cbv beta iota. rewrite bind_run.
  unfold delete_options. cbn [client].
  by destruct ((on_error _ _ ≫= _) _) as [[[]|e] w'].
Qed.

Lemma DeleteUsers_all_run env entities response w :
  MemoryClient.telemetryID (client w) ≠ "" →
  fetchWithErrorHandling env (client w) (calls w) "GET"
    (Users_endpoint env (client w)) VNil = Ok response →
  parseResponse env (json_Unmarshal_AllUsers env) response = Ok entities →
  ∃ out,
    DeleteUsers env [] w
    = if (length (AllUsers.Results entities) =? 0)%nat
      then (Err (ErrorString "no entities to delete"),
            mkWorld (client w)
                    (calls w ++ [mkCall "GET" (Users_endpoint env (client w)) VNil])
                    out)
      else
        match delete_each env (delete_options (client w))
                (entities_of (AllUsers.Results entities))
                (mkWorld (client w)
                   (calls w ++ [mkCall "GET" (Users_endpoint env (client w)) VNil])
                   out) with
        | (Ok _, w') =>
            (Ok (MessageResponse.mk "All users, agents, apps and runs deleted."), w')
        | (Err e, w') => (Err e, w')
        end.
Proof.
  intros Htel Hfetch Hparse. unfold DeleteUsers.
  rewrite bind_run, (ensure_telemetry_established _ _ Htel).
  rewrite bind_run. destruct (validateOrgProject_run w) as [out ->].
  cbn [first_or selected_entity DeleteUsersParams.zero DeleteUsersParams.UserID
       DeleteUsersParams.AgentID DeleteUsersParams.AppID DeleteUsersParams.RunID].
  rewrite !bind_run. unfold Users.
  rewrite bind_run, ensure_telemetry_established by done.
  rewrite bind_run. destruct (validateOrgProject_run (mkWorld (client w) (calls w) out))
    as [out' ->].
  exists out'. rewrite bind_run. unfold get_client. cbv beta iota.
  rewrite bind_run. unfold fetch, lift. cbn [client calls stdout].
  rewrite Hfetch, Hparse. cbv beta iota.
  unfold mret at 1, M_ret at 1. cbv beta iota.
  fold (entities_of (AllUsers.Results entities)).
  unfold entities_of at 1. rewrite length_map.
  destruct (length (AllUsers.Results entities) =? 0)%nat; [done|].
  rewrite !bind_run. cbn [client]. unfold delete_options.
  by destruct (delete_each _ _ _ _) as [[[]|e] w'].
Qed.

Lemma DeleteUsers_listing_error env e w :
  MemoryClient.telemetryID (client w) ≠ "" →
  fetchWithErrorHandling env (client w) (calls w) "GET"
    (Users_endpoint env (client w)) VNil = Err e →
  (DeleteUsers env [] w).1 = Err e.
Proof.
  intros Htel Hfetch. unfold DeleteUsers.
  rewrite bind_run, (ensure_telemetry_established _ _ Htel).
  rewrite bind_run. destruct (validateOrgProject_run w) as [out ->].
  cbn [first_or selected_entity DeleteUsersParams.zero DeleteUsersParams.UserID
       DeleteUsersParams.AgentID DeleteUsersParams.AppID DeleteUsersParams.RunID].
  rewrite !bind_run. unfold Users.
  rewrite bind_run, ensure_telemetry_established by done.
  rewrite bind_run. destruct (validateOrgProject_run (mkWorld (client w) (calls w) out))
    as [out' ->].
  rewrite bind_run. unfold get_client. cbv beta iota.
  rewrite bind_run. unfold fetch, lift. cbn [client calls stdout].
  by rewrite Hfetch.
Qed.

Lemma append_assoc (s1 s2 s3 : string) : (s1 +:+ s2) +:+ s3 = s1 +:+ s2 +:+ s3.
Proof.
  induction s1 as [|a s1 IH]; [done|].
  unfold String.append; fold String.append. by rewrite IH.
Qed.

Lemma append_empty_r (s : string) : s +:+ "" = s.
Proof.
  induction s as [|a s IH]; [done|].
  unfold String.append; fold String.append. by rewrite IH.
Qed.

Lemma entity_of_type type name : index_s (entity_of type name) "type" = type.
Proof. unfold index_s, entity_of. by rewrite lookup_insert_eq. Qed.

Lemma entity_of_name type name : index_s (entity_of type name) "name" = name.
Proof.
  unfold index_s, entity_of.
  rewrite lookup_insert_ne by discriminate. by rewrite lookup_singleton_eq.
Qed.

(** However the deletion of the one selected entity ends, it is the only
    call. *)
Lemma DeleteUsers_selected_calls env params entity w :
  MemoryClient.telemetryID (client w) ≠ "" →
  selected_entity (first_or DeleteUsersParams.zero params) = Some entity →
  calls (DeleteUsers env params w).2 = calls w ++ [delete_call env (client w) entity]
  ∧ (DeleteUsers env params w).1
    = match fetchWithErrorHandling env (client w) (calls w) "DELETE"
              (delete_endpoint env (delete_options (client w)) entity) VNil with
      | Ok _ => Ok (MessageResponse.mk "Entity deleted successfully.")
      | Err err =>
          Err (NewAPIError ("Failed to delete " +:+ index_s entity "type" +:+ " "
                              +:+ index_s entity "name" +:+ ": " +:+ Error err) 0 "")
      end.
Proof.
  intros Htel Hsel.
  destruct (DeleteUsers_selected_run env params entity w Htel Hsel) as [out ->].
  destruct (fetchWithErrorHandling _ _ _ _ _ _) as [v|err] eqn:Hfetch.
  - rewrite delete_each_run; [done|]. simpl. eauto.
  - rewrite (delete_each_abort env _ _ _ [] entity [] err); [done..|].
    simpl. by rewrite app_nil_r.
Qed.

(** ** Errors of the transport and of the server *)

(** What the operations return when the transport fails with [e] on the
    request that follows the session check. *)
Lemma errors_after_session env w w0 e :
  established_by env w w0 →
  (∀ method endpoint body,
     fetchWithErrorHandling env (client w0) (calls w0) method endpoint body = Err e) →
  operations_return env w e
  ∧ (DeleteUsers env [] w).1 = Err e
  ∧ ∀ params entity,
      selected_entity (first_or DeleteUsersParams.zero params) = Some entity →
      (DeleteUsers env params w).1
      = Err (NewAPIError ("Failed to delete " +:+ index_s entity "type" +:+ " "
                            +:+ index_s entity "name" +:+ ": " +:+ Error e) 0 "").
Proof.
  intros Hest Hfetch. pose proof Hest as [_ Htel]. split; [|split].
  - apply (operations_after_session env w w0); [done|].
    by apply operations_return_transport_error.
  - rewrite (DeleteUsers_after_session env _ w w0 Hest).
    by apply DeleteUsers_listing_error.
  - intros params entity Hsel.
    rewrite (DeleteUsers_after_session env _ w w0 Hest).
    destruct (DeleteUsers_selected_calls env params entity w0 Htel Hsel) as [_ ->].
    by rewrite Hfetch.
Qed.

(** C5, as the code has it. A response whose status is outside 2xx makes
    [fetchWithErrorHandling] fail with an API error that carries the status
    and, as message and as body, the raw response body. When it answers the
    request of an operation, the operation returns that error as it is,
    [DeleteUsers] too when it answers the listing of the entities; but the
    failed deletion of an entity is reported by [DeleteUsers] as an API error
    of status 0 and empty body whose message names the entity. When it
    answers the ping of an operation that has no session yet, the API error
    is returned wrapped. *)
Theorem non_2xx_response_is_api_error env w w0 status respBody :
  status < 200 ∨ 300 ≤ status →
  let d := DoResponse status (Ok respBody) in
  let e := NewAPIError respBody status respBody in
  (next_exchange env w0 d →
   ∀ method endpoint body,
     fetchWithErrorHandling env (client w0) (calls w0) method endpoint body = Err e)
  ∧ (established_by env w w0 → next_exchange env w0 d →
     operations_return env w e
     ∧ (DeleteUsers env [] w).1 = Err e
     ∧ ∀ params entity,
         selected_entity (first_or DeleteUsersParams.zero params) = Some entity →
         (DeleteUsers env params w).1
         = Err (NewAPIError ("Failed to delete " +:+ index_s entity "type" +:+ " "
                               +:+ index_s entity "name" +:+ ": " +:+ Error e) 0 ""))
  ∧ (MemoryClient.telemetryID (client w) = "" → next_exchange env w d →
     operations_return env w (WrapError "failed to ping server: " e)
     ∧ ∀ params, (DeleteUsers env params w).1
                 = Err (WrapError "failed to ping server: " e)).
Proof.
  intros Hstatus d e. split; [|split].
  - intros Hnext method endpoint body. by apply fetch_non_2xx.
  - intros Hest Hnext. apply (errors_after_session env w w0); [done|].
    intros. by apply fetch_non_2xx.
  - intros Htel Hnext. apply operations_return_ping_error; [done|].
    by apply fetch_non_2xx.
Qed.

(** C5 fails for the deletion of an entity: the server answers 401 with the
    body "denied", and [DeleteUsers] returns an API error of status 0 whose
    message is not the body and whose body is empty. *)
Lemma DeleteUsers_hides_the_status :
  (DeleteUsers (env_of (always unauthorized) []) [only_user "alice"]
               (world_of a_client)).1
  = Err (APIErr (APIError.mk
           "Failed to delete user alice: API request failed (status 401): denied"
           0 "")).
Proof. vm_compute. reflexivity. Qed.

Lemma non_2xx_response_is_api_error_witness :
  (401 < 200 ∨ 300 ≤ 401)
  ∧ established_by (env_of (always unauthorized) []) (world_of a_client)
                   (world_of a_client)
  ∧ next_exchange (env_of (always unauthorized) []) (world_of a_client) unauthorized
  ∧ (Get (env_of (always unauthorized) []) "m1" (world_of a_client)).1
    = Err (NewAPIError "denied" 401 "denied")
  ∧ MemoryClient.telemetryID (client (world_of fresh_client)) = ""
  ∧ (Get (env_of (always unauthorized) []) "m1" (world_of fresh_client)).1
    = Err (WrapError "failed to ping server: " (NewAPIError "denied" 401 "denied")).
Proof.
  assert (401 < 200 ∨ 300 ≤ 401) as Hstatus by (right; lia).
  assert (established_by (env_of (always unauthorized) []) (world_of a_client)
                         (world_of a_client)) as Hest
    by (apply established_refl; discriminate).
  split; [exact Hstatus|]. split; [exact Hest|].
  split; [apply next_exchange_always|].
  destruct (non_2xx_response_is_api_error
              (env_of (always unauthorized) []) (world_of a_client)
              (world_of a_client) 401 "denied" Hstatus)
    as (_ & Hestablished & _).
  destruct (Hestablished Hest (next_exchange_always _ _ _)) as [Hops _].
  destruct Hops as (_ & _ & HGet & _).
  split; [apply HGet|]. split; [reflexivity|].
  destruct (non_2xx_response_is_api_error
              (env_of (always unauthorized) []) (world_of fresh_client)
              (world_of fresh_client) 401 "denied" Hstatus)
    as (_ & _ & Hfresh).
  destruct (Hfresh eq_refl (next_exchange_always _ _ _)) as [Hops' _].
  destruct Hops' as (_ & _ & HGet' & _). apply HGet'.
Defined.

(** C6, as the code has it. When no HTTP response arrives (DNS failure,
    refused connection, cancelled context) or the body of a 2xx response is
    not JSON, [fetchWithErrorHandling] fails with a plain wrapped error
    ("request failed: ..." or "failed to parse response JSON: ..."), which is
    not an API error and has no status code; the operation whose request it
    was returns it as it is, and an operation whose ping it was returns it
    wrapped once more. A caller tells it from a non-2xx response by the type
    of the error. Only the failed deletion of an entity is reported by
    [DeleteUsers] as an API error of status 0. *)
Theorem transport_failure_is_wrapped_error env w w0 d e :
  transport_failure env d e →
  is_APIError e = false
  ∧ (next_exchange env w0 d →
     ∀ method endpoint body,
       fetchWithErrorHandling env (client w0) (calls w0) method endpoint body = Err e)
  ∧ (established_by env w w0 → next_exchange env w0 d →
     operations_return env w e
     ∧ (DeleteUsers env [] w).1 = Err e
     ∧ ∀ params entity,
         selected_entity (first_or DeleteUsersParams.zero params) = Some entity →
         (DeleteUsers env params w).1
         = Err (NewAPIError ("Failed to delete " +:+ index_s entity "type" +:+ " "
                               +:+ index_s entity "name" +:+ ": " +:+ Error e) 0 ""))
  ∧ (MemoryClient.telemetryID (client w) = "" → next_exchange env w d →
     operations_return env w (WrapError "failed to ping server: " e)
     ∧ ∀ params, (DeleteUsers env params w).1
                 = Err (WrapError "failed to ping server: " e)).
Proof.
  intros Hfail.
  assert (∀ w', next_exchange env w' d →
          ∀ method endpoint body,
            fetchWithErrorHandling env (client w') (calls w') method endpoint body
            = Err e) as Hfetch.
  { intros w' Hnext method endpoint body. destruct Hfail.
    - by apply fetch_transport_failure.
    - by eapply fetch_malformed_json. }
  split; [|split; [|split]].
  - by destruct Hfail.
  - apply Hfetch.
  - intros Hest Hnext. apply (errors_after_session env w w0); [done|].
    by apply Hfetch.
  - intros Htel Hnext. apply operations_return_ping_error; [done|]. by apply Hfetch.
Qed.

(** C6 fails for every operation that returns the error of the transport
    as it is: the connection is refused, and [Get] returns a wrapped error
    that is not an API error; so it does for a body that is not JSON. *)
Lemma Get_returns_a_plain_error :
  (Get (env_of (always refused) []) "m1" (world_of a_client)).1
  = Err (WrapError "request failed: " (LibError "dial tcp: connection refused"))
  ∧ is_APIError (WrapError "request failed: "
                           (LibError "dial tcp: connection refused")) = false
  ∧ (Get (env_of (always not_json) []) "m1" (world_of a_client)).1
    = Err (WrapError "failed to parse response JSON: "
             (LibError "invalid character '<' looking for beginning of value")).
Proof. vm_compute. done. Qed.

Lemma transport_failure_is_wrapped_error_witness :
  transport_failure (env_of (always refused) []) refused
    (WrapError "request failed: " (LibError "dial tcp: connection refused"))
  ∧ established_by (env_of (always refused) []) (world_of a_client) (world_of a_client)
  ∧ next_exchange (env_of (always refused) []) (world_of a_client) refused
  ∧ (Get (env_of (always refused) []) "m1" (world_of a_client)).1
    = Err (WrapError "request failed: " (LibError "dial tcp: connection refused"))
  ∧ transport_failure (env_of (always not_json) []) not_json
      (WrapError "failed to parse response JSON: "
         (LibError "invalid character '<' looking for beginning of value"))
  ∧ (Get (env_of (always not_json) []) "m1" (world_of a_client)).1
    = Err (WrapError "failed to parse response JSON: "
             (LibError "invalid character '<' looking for beginning of value")).
Proof.
  assert (∀ d, established_by (env_of (always d) []) (world_of a_client)
                              (world_of a_client)) as Hest
    by (intros; apply established_refl; discriminate).
  assert (transport_failure (env_of (always not_json) []) not_json
            (WrapError "failed to parse response JSON: "
               (LibError "invalid character '<' looking for beginning of value")))
    as Hjson by (apply malformed_json; [lia | reflexivity]).
  split; [constructor|]. split; [apply Hest|].
  split; [apply next_exchange_always|].
  destruct (transport_failure_is_wrapped_error
              (env_of (always refused) []) (world_of a_client) (world_of a_client)
              refused _ (no_response _ _))
    as (_ & _ & Hestablished & _).
  destruct (Hestablished (Hest _) (next_exchange_always _ _ _)) as [Hops _].
  destruct Hops as (_ & _ & HGet & _).
  split; [apply HGet|]. split; [exact Hjson|].
  destruct (transport_failure_is_wrapped_error
              (env_of (always not_json) []) (world_of a_client) (world_of a_client)
              not_json _ Hjson)
    as (_ & _ & Hestablished' & _).
  destruct (Hestablished' (Hest _) (next_exchange_always _ _ _)) as [Hops' _].
  destruct Hops' as (_ & _ & HGet' & _). apply HGet'.
Defined.

(** ** DeleteUsers *)



Lemma established_by_ping users :
  established_by (env_of (always accepted) users) (world_of fresh_client)
    (mkWorld a_client [mkCall "GET" "/v1/ping/" VNil] []).
Proof. split; [by vm_compute | discriminate]. Qed.


(** C8, as the code has it. With the session established, no filter and an
    empty listing of entities, [DeleteUsers] fails with the plain error "no
    entities to delete", which is neither a validation error nor an API
    error; the listing is the last call it has made, no DELETE follows. *)
Theorem DeleteUsers_nothing_to_delete env w w0 response entities :
  established_by env w w0 →
  fetchWithErrorHandling env (client w0) (calls w0) "GET"
    (Users_endpoint env (client w0)) VNil = Ok response →
  parseResponse env (json_Unmarshal_AllUsers env) response = Ok entities →
  AllUsers.Results entities = [] →
  (DeleteUsers env [] w).1 = Err (ErrorString "no entities to delete")
  ∧ is_ValidationError (ErrorString "no entities to delete") = false
  ∧ is_APIError (ErrorString "no entities to delete") = false
  ∧ calls (DeleteUsers env [] w).2
    = calls w0 ++ [mkCall "GET" (Users_endpoint env (client w0)) VNil]
  ∧ count_DELETE (calls (DeleteUsers env [] w).2) = count_DELETE (calls w).
Proof.
  intros Hest Hfetch Hparse Hnone. pose proof Hest as [_ Htel].
  destruct (established_by_calls env w w0 Hest) as [_ Hcount].
  rewrite !(DeleteUsers_after_session env _ w w0 Hest).
  destruct (DeleteUsers_all_run env entities response w0 Htel Hfetch Hparse)
    as [out ->].
  rewrite Hnone. cbn [length Nat.eqb fst snd calls].
  do 4 (split; [done|]). rewrite count_DELETE_app, Hcount.
  unfold count_DELETE. simpl. lia.
Qed.

(** C8 fails: with nothing to delete, the error of [DeleteUsers] is a plain
    error, not a validation error. *)
Lemma DeleteUsers_plain_error_when_empty :
  (DeleteUsers (env_of (always accepted) []) [] (world_of a_client)).1
  = Err (ErrorString "no entities to delete")
  ∧ is_ValidationError (ErrorString "no entities to delete") = false.
Proof. vm_compute. done. Qed.

Lemma DeleteUsers_nothing_to_delete_witness :
  established_by (env_of (always accepted) []) (world_of a_client) (world_of a_client)
  ∧ (DeleteUsers (env_of (always accepted) []) [] (world_of a_client)).1
    = Err (ErrorString "no entities to delete")
  ∧ calls (DeleteUsers (env_of (always accepted) []) [] (world_of a_client)).2
    = [mkCall "GET" "/v1/entities/?" VNil].
Proof.
  assert (established_by (env_of (always accepted) []) (world_of a_client)
                         (world_of a_client)) as Hest
    by (apply established_refl; discriminate).
  split; [exact Hest|].
  destruct (DeleteUsers_nothing_to_delete
              (env_of (always accepted) []) (world_of a_client) (world_of a_client)
              (VMap {[ "status" := VString "ok";
                       "user_email" := VString "someone@example.com" ]})
              (AllUsers.mk 0 [] VNil VNil) Hest)
    as (Hresult & _ & _ & Hcalls & _).
  { reflexivity. } { reflexivity. } { reflexivity. }
  split; [exact Hresult|]. rewrite Hcalls. reflexivity.
Defined.

Lemma selected_entity_first_set p :
  selected_entity p
  = (λ tn : string * string, entity_of tn.1 tn.2) <$> first_set (by_priority p).
Proof. by destruct p as [[] [] [] []]. Qed.




(** ** The API key *)

Lemma DecodeRune_width b p : (1 ≤ (DecodeRune (b :: p)).2 ≤ 4)%nat.
Proof.
  unfold DecodeRune.
  repeat match goal with
         | |- context [if ?c then _ else _] => destruct c
         | |- context [match ?l with [] => _ | _ :: _ => _ end] => destruct l
         end; simpl; lia.
Qed.

Lemma runes_fuel_chunks fuel s rc :
  rc ∈ runes_fuel fuel s → rc.2 ≠ "".
Proof.
  revert s. induction fuel as [|fuel IH]; intros s Hin; simpl in Hin.
  - by apply elem_of_nil in Hin.
  - destruct s as [|a s']; [by apply elem_of_nil in Hin|].
    destruct (DecodeRune (bytes_of (String a s'))) as [r width] eqn:Hdec.
    apply elem_of_cons in Hin as [->|Hin]; [|by eapply IH].
    pose proof (DecodeRune_width (Z.of_nat (nat_of_ascii a))
                  (bytes_of s')) as Hwidth.
    change (Z.of_nat (nat_of_ascii a) :: bytes_of s') with (bytes_of (String a s'))
      in Hwidth.
    rewrite Hdec in Hwidth. simpl in Hwidth.
    destruct width as [|n]; [lia|]. done.
Qed.

Lemma drop_while_nil {A} (f : A → bool) l :
  drop_while f l = [] ↔ forallb f l = true.
Proof.
  induction l as [|x l IH]; simpl; [done|].
  destruct (f x); simpl; [done|]. split; discriminate.
Qed.

Lemma drop_while_head {A} (f : A → bool) l x l' :
  drop_while f l = x :: l' → f x = false.
Proof.
  induction l as [|y l IH]; simpl; [done|].
  destruct (f y) eqn:Hy; [done|]. by intros [= -> ->].
Qed.

Lemma drop_while_elem_of {A} (f : A → bool) l x :
  x ∈ drop_while f l → x ∈ l.
Proof.
  induction l as [|y l IH]; simpl; [done|].
  destruct (f y); [|done]. intros Hin. apply elem_of_cons. right. by apply IH.
Qed.

Lemma forallb_rev {A} (f : A → bool) l : forallb f (rev l) = forallb f l.
Proof.
  induction l as [|x l IH]; simpl; [done|].
  rewrite forallb_app, IH. simpl. rewrite andb_true_r. apply andb_comm.
Qed.

Lemma elem_of_rev_1 {A} (l : list A) x : x ∈ rev l → x ∈ l.
Proof. rewrite !list_elem_of_In. apply in_rev. Qed.

Lemma concat_chunks_empty (l : list (Z * string)) :
  (∀ rc, rc ∈ l → rc.2 ≠ "") →
  String.concat "" (map snd l) = "" → l = [].
Proof.
  destruct l as [|[r chunk] l]; [done|]. intros Hchunks Hconcat. exfalso.
  apply (Hchunks (r, chunk)); [by left|]. simpl in *.
  destruct l as [|rc l]; [done|].
  destruct chunk; [done|]. discriminate.
Qed.

(** [TrimSpace] leaves nothing exactly when every rune is white space. *)
Lemma TrimSpace_empty s : TrimSpace s = "" ↔ whitespace_only s = true.
Proof.
  unfold TrimSpace, whitespace_only.
  set (is_space := λ rc : Z * string, IsSpace rc.1).
  split.
  - intros Hempty. apply concat_chunks_empty in Hempty.
    + apply (f_equal (@rev _)) in Hempty. rewrite rev_involutive in Hempty.
      simpl in Hempty. apply drop_while_nil in Hempty.
      rewrite forallb_rev in Hempty.
      destruct (drop_while is_space (runes s)) as [|x l'] eqn:Hdrop.
      * by apply drop_while_nil.
      * apply drop_while_head in Hdrop. simpl in Hempty.
        rewrite Hdrop in Hempty. discriminate.
    + intros rc Hin. apply elem_of_rev_1 in Hin. apply drop_while_elem_of in Hin.
      apply elem_of_rev_1 in Hin. apply drop_while_elem_of in Hin.
      by eapply runes_fuel_chunks.
  - intros Hall. apply drop_while_nil in Hall. by rewrite Hall.
Qed.

Lemma validateAPIKey_spec apiKey :
  (apiKey = "" ∨ whitespace_only apiKey = true →
   ∃ message, validateAPIKey apiKey = Some (NewValidationError "apiKey" message))
  ∧ (¬ (apiKey = "" ∨ whitespace_only apiKey = true) → validateAPIKey apiKey = None).
Proof.
  unfold validateAPIKey. split.
  - intros Hblank. destruct (String.eqb_spec apiKey ""); [eauto|].
    destruct Hblank as [?|Hspace]; [done|].
    apply TrimSpace_empty in Hspace. rewrite Hspace. simpl. eauto.
  - intros Hkey. destruct (String.eqb_spec apiKey ""); [tauto|].
    destruct (String.eqb_spec (TrimSpace apiKey) "") as [Hempty|]; [|done].
    apply TrimSpace_empty in Hempty. tauto.
Qed.

(** C4. When the API key is empty or consists of white space only,
    [NewMemoryClient] returns a validation error for the field "apiKey" and
    no client, and it has made no call and printed nothing by then; for any
    other key the validation passes and a client is returned. *)
Theorem NewMemoryClient_validates_the_key env options calls0 stdout0 :
  let apiKey := ClientOptions.APIKey options in
  (apiKey = "" ∨ whitespace_only apiKey = true →
   ∃ message,
     NewMemoryClient env options calls0 stdout0
     = (Err (ValidationErr (ValidationError.mk "apiKey" message)), calls0, stdout0))
  ∧ (¬ (apiKey = "" ∨ whitespace_only apiKey = true) →
     validateAPIKey apiKey = None
     ∧ ∃ c calls1 stdout1,
         NewMemoryClient env options calls0 stdout0 = (Ok c, calls1, stdout1)).
Proof.
  intros apiKey. destruct (validateAPIKey_spec apiKey) as [Hblank Hkey]. split.
  - intros H. destruct (Hblank H) as [message Hv]. exists message.
    unfold NewMemoryClient. fold apiKey. by rewrite Hv.
  - intros H. specialize (Hkey H). split; [done|].
    unfold NewMemoryClient. fold apiKey. rewrite Hkey.
    destruct (initializeClient _ _) as [r w]. eauto.
Qed.

Lemma NewMemoryClient_validates_the_key_witness :
  whitespace_only "   " = true
  ∧ (∃ message,
       NewMemoryClient (env_of (always accepted) []) (options_with_key "   ") [] []
       = (Err (ValidationErr (ValidationError.mk "apiKey" message)), [], []))
  ∧ ¬ ("m0-key" = "" ∨ whitespace_only "m0-key" = true)
  ∧ ∃ c calls1 stdout1,
      NewMemoryClient (env_of (always accepted) []) (options_with_key "m0-key") [] []
      = (Ok c, calls1, stdout1).
Proof.
  assert (whitespace_only "   " = true) as Hblank by (by vm_compute).
  assert (¬ ("m0-key" = "" ∨ whitespace_only "m0-key" = true)) as Hkey.
  { intros [H|H]; [discriminate|]. by vm_compute in H. }
  split; [exact Hblank|].
  destruct (NewMemoryClient_validates_the_key (env_of (always accepted) [])
              (options_with_key "   ") [] []) as [Hfail _].
  split; [exact (Hfail (or_intror Hblank))|].
  split; [exact Hkey|].
  destruct (NewMemoryClient_validates_the_key (env_of (always accepted) [])
              (options_with_key "m0-key") [] []) as [_ Hpass].
  exact (proj2 (Hpass Hkey)).
Defined.

(** ** Query parameters read back *)

Lemma add_opt_lookup_eq {A} key (f : A → string) x (params : gmap string (list string)) :
  params !! key = None →
  add_opt key f x params !! key = (λ a, [f a]) <$> x.
Proof.
  intros Hnone. destruct x as [a|]; simpl; [|done].
  by rewrite Values_Add_lookup, Hnone.
Qed.

Lemma add_val_lookup_eq key f x (params : gmap string (list string)) :
  params !! key = None →
  add_val key f x params !! key = if is_nil x then None else Some [f x].
Proof.
  intros Hnone. unfold add_val. destruct (is_nil x); [done|].
  by rewrite Values_Add_lookup, Hnone.
Qed.

Ltac read_param :=
  unfold prepareParams; skip_other_keys;
  first [ rewrite add_opt_lookup_eq | rewrite add_val_lookup_eq ];
  [ try reflexivity | skip_other_keys; done ].

Lemma prepareParams_lookup sprint o :
  let params := prepareParams sprint (OfMemoryOptions o) in
  params !! "user_id" = (λ v, [v]) <$> MemoryOptions.UserID o
  ∧ params !! "agent_id" = (λ v, [v]) <$> MemoryOptions.AgentID o
  ∧ params !! "app_id" = (λ v, [v]) <$> MemoryOptions.AppID o
  ∧ params !! "run_id" = (λ v, [v]) <$> MemoryOptions.RunID o
  ∧ params !! "org_name" = (λ v, [v]) <$> MemoryOptions.OrgName o
  ∧ params !! "project_name" = (λ v, [v]) <$> MemoryOptions.ProjectName o
  ∧ params !! "org_id"
    = (if is_nil (MemoryOptions.OrgID o) then None
       else Some [fmt_v sprint (MemoryOptions.OrgID o)])
  ∧ params !! "project_id"
    = (if is_nil (MemoryOptions.ProjectID o) then None
       else Some [fmt_v sprint (MemoryOptions.ProjectID o)]).
Proof. intros params. subst params. repeat split; read_param. Qed.

Lemma Values_Get_opt key x (params : gmap string (list string)) :
  params !! key = (λ v, [v]) <$> x → Values_Get key params = default "" x.
Proof. intros H. unfold Values_Get. rewrite H. by destruct x. Qed.

Lemma Values_Get_val key f x (params : gmap string (list string)) :
  params !! key = (if is_nil x then None else Some [f x]) →
  Values_Get key params = if is_nil x then "" else f x.
Proof. intros H. unfold Values_Get. rewrite H. by destruct (is_nil x). Qed.

(** C9, as the code has it. Of the parameters that [prepareParams] builds
    from a [MemoryOptions], the six string fields read back as the identical
    string (and an unset field as no value); [org_id] and [project_id] read
    back as the text that [%v] gives: a string as itself and a number as its
    decimal digits, so that the reading does not tell the number from the
    string. *)
Theorem prepareParams_reads_back sprint o :
  let params := prepareParams sprint (OfMemoryOptions o) in
  (params !! "user_id" = (λ v, [v]) <$> MemoryOptions.UserID o
   ∧ params !! "agent_id" = (λ v, [v]) <$> MemoryOptions.AgentID o
   ∧ params !! "app_id" = (λ v, [v]) <$> MemoryOptions.AppID o
   ∧ params !! "run_id" = (λ v, [v]) <$> MemoryOptions.RunID o
   ∧ params !! "org_name" = (λ v, [v]) <$> MemoryOptions.OrgName o
   ∧ params !! "project_name" = (λ v, [v]) <$> MemoryOptions.ProjectName o)
  ∧ (Values_Get "user_id" params = default "" (MemoryOptions.UserID o)
     ∧ Values_Get "agent_id" params = default "" (MemoryOptions.AgentID o)
     ∧ Values_Get "app_id" params = default "" (MemoryOptions.AppID o)
     ∧ Values_Get "run_id" params = default "" (MemoryOptions.RunID o)
     ∧ Values_Get "org_name" params = default "" (MemoryOptions.OrgName o)
     ∧ Values_Get "project_name" params = default "" (MemoryOptions.ProjectName o))
  ∧ (Values_Get "org_id" params
     = (if is_nil (MemoryOptions.OrgID o) then ""
        else fmt_v sprint (MemoryOptions.OrgID o))
     ∧ Values_Get "project_id" params
       = (if is_nil (MemoryOptions.ProjectID o) then ""
          else fmt_v sprint (MemoryOptions.ProjectID o)))
  ∧ (∀ s, fmt_v sprint (VString s) = s)
  ∧ (∀ n, fmt_v sprint (VInt n) = fmt_d n).
Proof.
  intros params.
  destruct (prepareParams_lookup sprint o)
    as (Huser & Hagent & Happ & Hrun & Horg & Hproject & Horgid & Hprojectid).
  fold params in Huser, Hagent, Happ, Hrun, Horg, Hproject, Horgid, Hprojectid.
  split; [by repeat split|].
  split.
  { repeat split; by apply Values_Get_opt. }
  split.
  { split; by apply Values_Get_val. }
  split; intros; reflexivity.
Qed.

(** C9 fails for the identifiers: the number 123 and the string "123" give
    the same parameters, and what is read back is the string. *)
Lemma org_id_number_reads_back_as_string :
  prepareParams (λ _, "?") (OfMemoryOptions (options_with_org (VInt 123)))
  = prepareParams (λ _, "?") (OfMemoryOptions (options_with_org (VString "123")))
  ∧ Values_Get "org_id"
      (prepareParams (λ _, "?") (OfMemoryOptions (options_with_org (VInt 123))))
    = "123"
  ∧ VInt 123 ≠ VString "123".
Proof. split; [by vm_compute|]. split; [by vm_compute|]. discriminate. Qed.

(** ** Organization and project *)





(** The ping leaves a configured organization and project as they are. *)
Lemma Ping_run env w :
  let w' := (Ping env w).2 in
  calls w' = calls w ++ [mkCall "GET" "/v1/ping/" VNil]
  ∧ MemoryClient.organizationName (client w') = MemoryClient.organizationName (client w)
  ∧ MemoryClient.projectName (client w') = MemoryClient.projectName (client w)
  ∧ (is_nil (MemoryClient.organizationID (client w)) = false →
     MemoryClient.organizationID (client w') = MemoryClient.organizationID (client w))
  ∧ (is_nil (MemoryClient.projectID (client w)) = false →
     MemoryClient.projectID (client w') = MemoryClient.projectID (client w)).
Proof.
  unfold Ping. rewrite bind_run. unfold on_error, fetch.
  destruct (fetchWithErrorHandling _ _ _ _ _ _) as [response|e]; [|done].
  destruct (as_map response) as [responseMap|]; [|done].
  destruct (negb _); [done|].
  rewrite !bind_run. unfold get_client, when, modify_client. cbn [client calls stdout].
  destruct w as [c cs out]. cbn [client calls stdout].
  destruct (is_nil (MemoryClient.organizationID c)) eqn:Horg,
           (is_nil (MemoryClient.projectID c)) eqn:Hproject,
           (isSome (responseMap !! "org_id")),
           (isSome (responseMap !! "project_id")),
           (as_string (index responseMap "user_email"));
    unfold mbind, M_bind, mret, M_ret; cbn; rewrite ?Horg, ?Hproject; cbn;
    repeat split; done.
Qed.


Lemma ensure_telemetry_fresh env w :
  MemoryClient.telemetryID (client w) = "" → ensure_telemetry env w = Ping env w.
Proof.
  intros Htel. unfold ensure_telemetry. rewrite bind_run. simpl. by rewrite Htel.
Qed.




(** The precedence is that of the client's configuration: options that
    carry both forms themselves, with a client that has no organization, go
    out with all four keys. *)
Lemma options_with_both_forms_keep_the_names :
  preparePayload [] (MemoryOptions.set_ProjectName (Some "demo") some_options)
    !! "org_name" = Some (VString "acme")
  ∧ preparePayload [] (MemoryOptions.set_ProjectName (Some "demo") some_options)
      !! "project_name" = Some (VString "demo")
  ∧ preparePayload [] (MemoryOptions.set_ProjectName (Some "demo") some_options)
      !! "org_id" = Some (VInt 123)
  ∧ preparePayload [] (MemoryOptions.set_ProjectName (Some "demo") some_options)
      !! "project_id" = Some (VString "p-1").
Proof. repeat split; vm_compute; reflexivity. Qed.


(** ** Query strings *)

Lemma contains_app sep (a b : string) :
  contains sep (a +:+ b) = contains sep a || contains sep b.
Proof.
  induction a as [|c a IH]; [done|].
  unfold String.append; fold String.append. simpl. rewrite IH.
  by rewrite orb_assoc.
Qed.

Lemma split_on_nonempty sep s : split_on sep s ≠ [].
Proof.
  destruct s as [|c s]; simpl; [done|].
  destruct (Ascii.eqb c sep); [done|]. by destruct (split_on sep s).
Qed.

Lemma split_on_app sep (a b : string) :
  split_on sep (a +:+ String sep b) = split_on sep a ++ split_on sep b.
Proof.
  induction a as [|c a IH].
  - change ("" +:+ String sep b) with (String sep b). simpl.
    by rewrite Ascii.eqb_refl.
  - unfold String.append; fold String.append. simpl.
    destruct (Ascii.eqb c sep); [by rewrite IH|].
    rewrite IH. pose proof (split_on_nonempty sep a).
    by destruct (split_on sep a).
Qed.

Lemma split_on_no_sep sep s : contains sep s = false → split_on sep s = [s].
Proof.
  induction s as [|c s IH]; simpl; [done|].
  intros [Hc Hs]%orb_false_iff. rewrite Hc. by rewrite IH.
Qed.

Lemma Cut_found sep (k v : string) :
  contains sep k = false → Cut sep (k +:+ String sep v) = (k, v, true).
Proof.
  induction k as [|c k IH].
  - intros _. change ("" +:+ String sep v) with (String sep v). simpl.
    by rewrite Ascii.eqb_refl.
  - simpl. intros [Hc Hk]%orb_false_iff.
    unfold String.append; fold String.append. simpl. rewrite Hc.
    by rewrite (IH Hk).
Qed.

Lemma concat_cons sep x y (l : list string) :
  String.concat sep (x :: y :: l) = x +:+ sep +:+ String.concat sep (y :: l).
Proof. reflexivity. Qed.

Lemma concat_app sep (l1 l2 : list string) :
  l1 ≠ [] → l2 ≠ [] →
  String.concat sep (l1 ++ l2)
  = String.concat sep l1 +:+ sep +:+ String.concat sep l2.
Proof.
  intros H1 H2. induction l1 as [|x l1 IH]; [done|].
  destruct l1 as [|y l1].
  - destruct l2 as [|z l2]; [done|]. reflexivity.
  - change ((x :: y :: l1) ++ l2) with (x :: y :: (l1 ++ l2)).
    rewrite !concat_cons.
    change (y :: l1 ++ l2) with ((y :: l1) ++ l2). rewrite IH by done.
    by rewrite !append_assoc.
Qed.

(** A piece without [&] whose key has no [=] is read back as it was
    joined. *)
Lemma join_pair_safe kv :
  safe_pair kv →
  contains "&" (join_pair kv) = false
  ∧ join_pair kv ≠ ""
  ∧ Cut "=" (join_pair kv) = (kv.1, kv.2, true).
Proof.
  intros (Hk & Hk' & Hv). unfold join_pair. repeat split.
  - rewrite !contains_app, Hk, Hv. reflexivity.
  - destruct kv as [[|c k] v]; simpl; discriminate.
  - change ("=" +:+ kv.2) with (String "=" kv.2). by apply Cut_found.
Qed.

Lemma split_on_joined (pairs : list (string * string)) :
  Forall safe_pair pairs → pairs ≠ [] →
  split_on "&" (String.concat "&" (map join_pair pairs)) = map join_pair pairs.
Proof.
  induction pairs as [|kv pairs IH]; [done|]. intros Hsafe _.
  apply Forall_cons in Hsafe as [Hkv Hsafe].
  destruct (join_pair_safe kv Hkv) as (Hamp & _ & _).
  destruct pairs as [|kv' pairs].
  - simpl. by apply split_on_no_sep.
  - change (map join_pair (kv :: kv' :: pairs))
      with (join_pair kv :: join_pair kv' :: map join_pair pairs).
    rewrite concat_cons.
    change ("&" +:+ ?s) with (String "&" s).
    rewrite split_on_app, split_on_no_sep by done.
    change (map join_pair (kv' :: pairs))
      with (join_pair kv' :: map join_pair pairs) in IH.
    by rewrite IH.
Qed.

Lemma read_joined (pairs : list (string * string)) :
  Forall safe_pair pairs →
  map read_pair (filter (λ pair, pair ≠ "") (map join_pair pairs)) = pairs.
Proof.
  induction pairs as [|kv pairs IH]; [done|]. intros Hsafe.
  apply Forall_cons in Hsafe as [Hkv Hsafe].
  destruct (join_pair_safe kv Hkv) as (_ & Hne & Hcut).
  simpl. rewrite filter_cons_True by done. simpl.
  unfold read_pair at 1. rewrite Hcut. destruct kv. simpl. by rewrite IH.
Qed.

(** The request target made of a path and the joined pairs is read back as
    these pairs. *)
Lemma query_pairs_joined (path : string) (pairs : list (string * string)) :
  contains "?" path = false →
  Forall safe_pair pairs →
  query_pairs (target_of path pairs) = pairs
  ∧ path_of (target_of path pairs) = path.
Proof.
  intros Hpath Hsafe. unfold query_pairs, path_of, target_of.
  destruct (decide (pairs = [])) as [->|Hne].
  - assert (Cut "?" path = (path, "", false)) as ->; [|done].
    clear Hsafe. induction path as [|c path IH]; [done|].
    simpl in *. apply orb_false_iff in Hpath as [Hc Hrest].
    rewrite Hc. by rewrite (IH Hrest).
  - change ("?" +:+ ?s) with (String "?" s). rewrite Cut_found by done.
    rewrite split_on_joined by done.
    split; [|done]. by apply read_joined.
Qed.

Lemma QueryEscape_cons c rest :
  QueryEscape (String c rest) = QueryEscape (String c "") +:+ QueryEscape rest.
Proof. simpl. by destruct (Ascii.eqb c " "), (shouldEscape c). Qed.

Lemma QueryEscape_char c :
  contains "&" (QueryEscape (String c "")) = false
  ∧ contains "=" (QueryEscape (String c "")) = false.
Proof. destruct c as [[] [] [] [] [] [] [] []]; by vm_compute. Qed.

Lemma QueryEscape_safe s :
  contains "&" (QueryEscape s) = false ∧ contains "=" (QueryEscape s) = false.
Proof.
  induction s as [|c s [IH1 IH2]]; [done|].
  destruct (QueryEscape_char c) as [H1 H2].
  rewrite QueryEscape_cons, !contains_app, H1, H2, IH1, IH2. done.
Qed.

Lemma string_of_uint_digits d :
  contains "&" (NilEmpty.string_of_uint d) = false.
Proof. induction d; simpl; done. Qed.

Lemma fmt_d_safe n : contains "&" (fmt_d n) = false.
Proof.
  unfold fmt_d, NilZero.string_of_int, NilZero.string_of_uint.
  destruct (Z.to_int n) as [d|d]; destruct d; simpl;
    rewrite ?string_of_uint_digits; done.
Qed.

Lemma pagination_pairs_safe o : Forall safe_pair (pagination_pairs o).
Proof.
  unfold pagination_pairs.
  destruct (MemoryOptions.Page o), (MemoryOptions.PageSize o); try constructor.
  - repeat split; simpl; try done. apply fmt_d_safe.
  - constructor; [|constructor]. repeat split; simpl; try done. apply fmt_d_safe.
Qed.

Lemma Encode_pairs_safe v : Forall safe_pair (Encode_pairs v).
Proof.
  unfold Encode_pairs. generalize (sorted_keys v). intros keys.
  induction keys as [|k keys IH]; simpl; [constructor|].
  apply Forall_app. split; [|done].
  generalize (default [] (v !! k)). intros values.
  induction values as [|x values IHv]; simpl; constructor; [|done].
  destruct (QueryEscape_safe k), (QueryEscape_safe x). by repeat split.
Qed.

Lemma Encode_pieces_pairs v : Encode_pieces v = map join_pair (Encode_pairs v).
Proof.
  unfold Encode_pieces, Encode_pairs. generalize (sorted_keys v). intros keys.
  induction keys as [|k keys IH]; simpl; [done|].
  rewrite map_app, IH. f_equal.
  generalize (default [] (v !! k)). intros values.
  induction values as [|x values IHv]; simpl; [done|]. by rewrite IHv.
Qed.

Lemma concat_joined_empty (pairs : list (string * string)) :
  String.concat "&" (map join_pair pairs) = "" ↔ pairs = [].
Proof.
  split; [|by intros ->].
  destruct pairs as [|[k v] pairs]; [done|]. intros H. exfalso. revert H.
  destruct pairs; simpl; unfold join_pair; simpl; destruct k; discriminate.
Qed.

(** The keys of the encoded parameters are the escaped keys of the map. *)
Lemma Encode_pairs_keys (v : gmap string (list string)) kv :
  In kv (Encode_pairs v) → ∃ k, is_Some (v !! k) ∧ kv.1 = QueryEscape k.
Proof.
  unfold Encode_pairs. intros (k & Hk & Hin)%in_flat_map.
  apply in_map_iff in Hin as (x & <- & _). exists k. split; [|done].
  unfold sorted_keys in Hk. apply list_elem_of_In in Hk.
  rewrite merge_sort_Permutation in Hk. apply list_elem_of_In in Hk.
  apply in_map_iff in Hk as ([k' xs] & <- & Hin).
  apply list_elem_of_In, elem_of_map_to_list in Hin. by exists xs.
Qed.

Lemma prepareParams_known_keys sprint o key :
  is_Some (prepareParams sprint (OfMemoryOptions o) !! key) →
  In key ["user_id"; "agent_id"; "app_id"; "run_id"; "org_name"; "project_name";
          "org_id"; "project_id"].
Proof.
  unfold prepareParams. intros H.
  repeat match type of H with
  | is_Some (add_opt _ _ _ _ !! _) =>
      apply add_opt_lookup_Some in H as [[-> _]|H]
  | is_Some (add_val _ _ _ _ !! _) =>
      apply add_val_lookup_Some in H as [[-> _]|H]
  end.
  9: { by destruct H. }
  all: simpl; tauto.
Qed.

(** No key of the encoded parameters is [page] or [page_size]. *)
Lemma Encode_pairs_no_pagination sprint o key :
  key = "page" ∨ key = "page_size" →
  existsb (λ kv : string * string, String.eqb kv.1 key)
          (Encode_pairs (prepareParams sprint (OfMemoryOptions o))) = false.
Proof.
  intros Hkey. apply not_true_is_false. intros Hex.
  apply existsb_exists in Hex as (kv & Hin & Heq).
  apply Encode_pairs_keys in Hin as (k & Hk & Hesc).
  apply prepareParams_known_keys in Hk. rewrite Hesc in Heq.
  simpl in Hk.
  destruct Hkey as [-> | ->];
    repeat (destruct Hk as [<-|Hk]; [by vm_compute in Heq|]); done.
Qed.

Lemma has_param_pagination o key :
  key = "page" ∨ key = "page_size" →
  existsb (λ kv : string * string, String.eqb kv.1 key) (pagination_pairs o)
  = isSome (MemoryOptions.Page o) && isSome (MemoryOptions.PageSize o).
Proof.
  unfold pagination_pairs.
  intros [-> | ->]; by destruct (MemoryOptions.Page o), (MemoryOptions.PageSize o).
Qed.

(** ** GetAll *)

Lemma setOrgProject_keeps c o :
  MemoryOptions.APIVersion (setOrgProject c o) = MemoryOptions.APIVersion o
  ∧ MemoryOptions.Page (setOrgProject c o) = MemoryOptions.Page o
  ∧ MemoryOptions.PageSize (setOrgProject c o) = MemoryOptions.PageSize o.
Proof. unfold setOrgProject. by repeat destruct (_ && _). Qed.

(** The request of [GetAll], with its target as a path and pairs. *)
Lemma GetAll_request_shape env c options :
  let base := SearchOptions.Base (first_or SearchOptions.zero options) in
  let merged := setOrgProject c base in
  GetAll_request env c options
  = if is_v2 base
    then mkCall "POST" (target_of "/v2/memories/" (pagination_pairs base))
                (VMap (put_val "project_id" (MemoryOptions.ProjectID merged)
                         (put_val "org_id" (MemoryOptions.OrgID merged) ∅)))
    else mkCall "GET"
                (target_of "/v1/memories/"
                   (Encode_pairs (prepareParams (Sprint_other env)
                                    (OfMemoryOptions merged))
                    ++ pagination_pairs base))
                VNil.
Proof.
  intros base merged. unfold GetAll_request. fold base.
  cbn [SearchOptions.Base SearchOptions.set_Base]. fold merged.
  destruct (setOrgProject_keeps c base) as (Hversion & Hpage & Hsize).
  fold merged in Hversion, Hpage, Hsize. rewrite Hpage, Hsize.
  assert (is_v2 merged = is_v2 base) as -> by (unfold is_v2; by rewrite Hversion).
  unfold pagination_pairs.
  destruct (is_v2 base).
  - by destruct (MemoryOptions.Page base), (MemoryOptions.PageSize base).
  - unfold Values_Encode. rewrite Encode_pieces_pairs.
    set (pairs := Encode_pairs _).
    destruct (String.eqb_spec (String.concat "&" (map join_pair pairs)) "")
      as [Hempty|Hsome].
    + rewrite Hempty. apply concat_joined_empty in Hempty. rewrite Hempty.
      by destruct (MemoryOptions.Page base), (MemoryOptions.PageSize base).
    + assert (pairs ≠ []) as Hpairs by (by intros ->).
      destruct (MemoryOptions.Page base) as [page|],
               (MemoryOptions.PageSize base) as [pageSize|];
        unfold target_of.
      * rewrite decide_False by (by destruct pairs).
        rewrite map_app, concat_app by (done || by destruct pairs).
        reflexivity.
      * rewrite app_nil_r. by rewrite decide_False.
      * rewrite app_nil_r. by rewrite decide_False.
      * rewrite app_nil_r. by rewrite decide_False.
Qed.

Lemma put_val_org_body (org project : Value) :
  let body : gmap string Value := put_val "project_id" project (put_val "org_id" org ∅) in
  body !! "org_id" = (if is_nil org then None else Some org)
  ∧ body !! "project_id" = (if is_nil project then None else Some project)
  ∧ ∀ key, is_Some (body !! key) → key = "org_id" ∨ key = "project_id".
Proof.
  intros body. subst body. repeat split.
  - rewrite put_val_lookup_ne by discriminate. unfold put_val.
    destruct (is_nil org); [done|]. by rewrite lookup_insert_eq.
  - unfold put_val at 1. destruct (is_nil project).
    + by rewrite put_val_lookup_ne by discriminate.
    + by rewrite lookup_insert_eq.
  - intros key H.
    apply put_val_lookup_Some in H as [[-> _]|H]; [by right|].
    apply put_val_lookup_Some in H as [[-> _]|H]; [by left|].
    by destruct H.
Qed.

Lemma has_param_GetAll env c options key :
  key = "page" ∨ key = "page_size" →
  let base := SearchOptions.Base (first_or SearchOptions.zero options) in
  has_param key (call_endpoint (GetAll_request env c options))
  = isSome (MemoryOptions.Page base) && isSome (MemoryOptions.PageSize base).
Proof.
  intros Hkey base. rewrite GetAll_request_shape. fold base. unfold has_param.
  destruct (is_v2 base); cbn [call_endpoint].
  - destruct (query_pairs_joined "/v2/memories/" (pagination_pairs base)) as [-> _];
      [done | apply pagination_pairs_safe|].
    by apply has_param_pagination.
  - match goal with
    | |- context [target_of "/v1/memories/" ?pairs] =>
        destruct (query_pairs_joined "/v1/memories/" pairs) as [-> _]
    end; [done | | ].
    + apply Forall_app. split; [apply Encode_pairs_safe | apply pagination_pairs_safe].
    + rewrite existsb_app, Encode_pairs_no_pagination by done.
      by apply has_param_pagination.
Qed.

(** C3. With APIVersion v2, [GetAll] issues a POST to /v2/memories/ whose
    body has the organization and project ids of the merged options and no
    other key; with v1 or no APIVersion it issues a GET to /v1/memories/
    without a body, whose query is the encoded parameters of the merged
    options. In both, the query of the request has the parameters [page]
    and [page_size], after the others, exactly when both Page and PageSize
    are set, and none of the two otherwise. Once the session is established,
    before the call or by its ping, this request is the one call that
    [GetAll] makes. *)
Theorem GetAll_routes_by_version env c options :
  let base := SearchOptions.Base (first_or SearchOptions.zero options) in
  let merged := setOrgProject c base in
  let request := GetAll_request env c options in
  let both := isSome (MemoryOptions.Page base) && isSome (MemoryOptions.PageSize base) in
  (MemoryOptions.APIVersion base = Some APIVersionV2 →
   call_method request = "POST"
   ∧ path_of (call_endpoint request) = "/v2/memories/"
   ∧ query_pairs (call_endpoint request) = pagination_pairs base
   ∧ ∃ body : gmap string Value,
       call_body request = VMap body
       ∧ body !! "org_id"
         = (if is_nil (MemoryOptions.OrgID merged) then None
            else Some (MemoryOptions.OrgID merged))
       ∧ body !! "project_id"
         = (if is_nil (MemoryOptions.ProjectID merged) then None
            else Some (MemoryOptions.ProjectID merged))
       ∧ ∀ key, is_Some (body !! key) → key = "org_id" ∨ key = "project_id")
  ∧ (MemoryOptions.APIVersion base = None
     ∨ MemoryOptions.APIVersion base = Some APIVersionV1 →
     call_method request = "GET"
     ∧ path_of (call_endpoint request) = "/v1/memories/"
     ∧ call_body request = VNil
     ∧ query_pairs (call_endpoint request)
       = Encode_pairs (prepareParams (Sprint_other env) (OfMemoryOptions merged))
           ++ pagination_pairs base)
  ∧ has_param "page" (call_endpoint request) = both
  ∧ has_param "page_size" (call_endpoint request) = both
  ∧ (pagination_pairs base
     = if both
       then [("page", fmt_d (default 0 (MemoryOptions.Page base)));
             ("page_size", fmt_d (default 0 (MemoryOptions.PageSize base)))]
       else [])
  ∧ (∀ w w0, established_by env w w0 → client w0 = c →
             calls (GetAll env options w).2 = calls w0 ++ [request]).
Proof.
  intros base merged request both. subst request.
  repeat apply conj.
  - intros Hv2. rewrite GetAll_request_shape. fold base merged.
    unfold is_v2. rewrite Hv2. cbn [String.eqb APIVersionV2 Ascii.eqb Bool.eqb].
    cbn [call_method call_endpoint call_body].
    destruct (query_pairs_joined "/v2/memories/" (pagination_pairs base)) as [-> ->];
      [done | apply pagination_pairs_safe|].
    do 3 (split; [done|]). eexists. split; [done|]. apply put_val_org_body.
  - intros Hv1. rewrite GetAll_request_shape. fold base merged.
    assert (is_v2 base = false) as ->
      by (unfold is_v2; by destruct Hv1 as [-> | ->]).
    cbn [call_method call_endpoint call_body].
    match goal with
    | |- context [target_of "/v1/memories/" ?pairs] =>
        destruct (query_pairs_joined "/v1/memories/" pairs) as [-> ->]
    end; [done | | done].
    apply Forall_app. split; [apply Encode_pairs_safe | apply pagination_pairs_safe].
  - apply has_param_GetAll. by left.
  - apply has_param_GetAll. by right.
  - subst both. unfold pagination_pairs.
    by destruct (MemoryOptions.Page base), (MemoryOptions.PageSize base).
  - intros w w0 Hest <-. rewrite (GetAll_after_session env options w w0 Hest).
    destruct Hest as [_ Htel].
    by destruct (GetAll_run env options w0 Htel) as (_ & -> & _).
Qed.

Lemma GetAll_routes_by_version_witness :
  MemoryOptions.APIVersion (SearchOptions.Base v2_options) = Some APIVersionV2
  ∧ call_method (GetAll_request (env_of (always accepted) []) both_forms_client
                                [v2_options]) = "POST"
  ∧ call_endpoint (GetAll_request (env_of (always accepted) []) both_forms_client
                                  [v2_options])
    = "/v2/memories/?page=2&page_size=10"
  ∧ query_pairs (call_endpoint (GetAll_request (env_of (always accepted) [])
                                               both_forms_client [v2_options]))
    = [("page", "2"); ("page_size", "10")]
  ∧ MemoryOptions.APIVersion (SearchOptions.Base v1_options) = None
  ∧ call_method (GetAll_request (env_of (always accepted) []) both_forms_client
                                [v1_options]) = "GET"
  ∧ call_endpoint (GetAll_request (env_of (always accepted) []) both_forms_client
                                  [v1_options])
    = "/v1/memories/?org_id=org_1&project_id=42&run_id=run+7&user_id=alice"
  ∧ has_param "page" (call_endpoint (GetAll_request (env_of (always accepted) [])
                                                    both_forms_client [v1_options]))
    = false
  ∧ map (λ call, (call_method call, call_endpoint call))
        (calls (GetAll (env_of (always accepted) []) [v2_options]
                       (world_of fresh_client)).2)
    = [("GET", "/v1/ping/"); ("POST", "/v2/memories/?page=2&page_size=10")].
Proof.
  destruct (GetAll_routes_by_version (env_of (always accepted) []) both_forms_client
              [v2_options]) as (Hv2 & _).
  destruct (Hv2 eq_refl) as (Hmethod & _ & Hquery & _).
  destruct (GetAll_routes_by_version (env_of (always accepted) []) both_forms_client
              [v1_options]) as (_ & Hv1 & Hpage & _).
  destruct (Hv1 (or_introl eq_refl)) as (Hmethod1 & _).
  split; [reflexivity|]. split; [exact Hmethod|]. split; [by vm_compute|].
  split; [exact Hquery|]. split; [reflexivity|]. split; [exact Hmethod1|].
  split; [by vm_compute|]. split; [exact Hpage|].
  destruct (GetAll_routes_by_version (env_of (always accepted) []) a_client
              [v2_options]) as (_ & _ & _ & _ & _ & Hcalls).
  rewrite (Hcalls (world_of fresh_client) _ (established_by_ping []) eq_refl).
  vm_compute. reflexivity.
Defined.

(** ** What the operations preserve *)

Lemma Ping_failure env w e :
  (Ping env w).1 = Err e →
  (Ping env w).2 = mkWorld (client w) (calls w ++ [ping_call]) (stdout w).
Proof.
  unfold Ping. rewrite bind_run. unfold on_error, fetch.
  destruct (fetchWithErrorHandling _ _ _ _ _ _) as [response|e']; [|done].
  destruct (as_map response) as [responseMap|]; [|done].
  destruct (negb _); [done|].
  rewrite !bind_run. unfold get_client, when, modify_client. cbn [client calls stdout].
  destruct w as [c cs out]. cbn [client calls stdout].
  destruct (isSome (responseMap !! "org_id") && _),
           (as_string (index responseMap "user_email"));
    unfold mbind, M_bind, mret, M_ret; cbn;
    by destruct (isSome (responseMap !! "project_id") && _).
Qed.

Lemma Ping_keeps env w :
  let c := client w in
  let c' := client (Ping env w).2 in
  MemoryClient.apiKey c' = MemoryClient.apiKey c
  ∧ MemoryClient.host c' = MemoryClient.host c
  ∧ MemoryClient.headers c' = MemoryClient.headers c
  ∧ MemoryClient.httpClient_Timeout c' = MemoryClient.httpClient_Timeout c
  ∧ stdout (Ping env w).2 = stdout w.
Proof.
  unfold Ping. rewrite bind_run. unfold on_error, fetch.
  destruct (fetchWithErrorHandling _ _ _ _ _ _) as [response|e']; [|done].
  destruct (as_map response) as [responseMap|]; [|done].
  destruct (negb _); [done|].
  rewrite !bind_run. unfold get_client, when, modify_client. cbn [client calls stdout].
  destruct w as [c cs out]. cbn [client calls stdout].
  destruct (isSome (responseMap !! "org_id") && _),
           (as_string (index responseMap "user_email"));
    unfold mbind, M_bind, mret, M_ret; cbn;
    by destruct (isSome (responseMap !! "project_id") && _).
Qed.

Lemma validateOrgProject_warnings w :
  validateOrgProject w
  = (Ok (), mkWorld (client w) (calls w) (stdout w ++ warnings (client w))).
Proof.
  unfold validateOrgProject, warnings. rewrite bind_run. simpl.
  rewrite bind_run. unfold when, Println.
  destruct w as [c cs out]; simpl.
  destruct (MemoryClient.organizationName c), (MemoryClient.projectName c),
           (is_nil (MemoryClient.organizationID c)), (is_nil (MemoryClient.projectID c));
    simpl; rewrite <- ?app_assoc, ?app_nil_r; done.
Qed.

(** A relation between worlds that every step of an operation respects is
    respected by the operations. *)
Section Preservation.

Variable env : Env.
Variable R : World → World → Prop.

Hypothesis R_refl : ∀ w, R w w.
Hypothesis R_trans : ∀ w1 w2 w3, R w1 w2 → R w2 w3 → R w1 w3.
Hypothesis R_calls : ∀ c cs out more, R (mkWorld c cs out) (mkWorld c (cs ++ more) out).
Hypothesis R_stdout : ∀ c cs out more, R (mkWorld c cs out) (mkWorld c cs (out ++ more)).
Hypothesis R_Ping : ∀ w, MemoryClient.telemetryID (client w) = "" → R w (Ping env w).2.

Lemma preserved_bind {A B} (m : M A) (f : A → M B) :
  (∀ w, R w (m w).2) → (∀ a w, R w (f a w).2) → ∀ w, R w ((m ≫= f) w).2.
Proof.
  intros Hm Hf w. rewrite bind_run. specialize (Hm w).
  destruct (m w) as [[a|e] w']; [|done].
  eapply R_trans; [exact Hm | apply Hf].
Qed.

Lemma preserved_fetch method endpoint body w :
  R w (fetch env method endpoint body w).2.
Proof. destruct w. apply R_calls. Qed.

Lemma preserved_on_error {A} (f : error → error) (m : M A) :
  (∀ w, R w (m w).2) → ∀ w, R w (on_error f m w).2.
Proof. intros Hm w. unfold on_error. specialize (Hm w). by destruct (m w) as [[]]. Qed.

Lemma preserved_validateOrgProject w : R w (validateOrgProject w).2.
Proof. rewrite validateOrgProject_warnings. destruct w. apply R_stdout. Qed.

Lemma preserved_ensure_telemetry w : R w (ensure_telemetry env w).2.
Proof.
  destruct (decide (MemoryClient.telemetryID (client w) = "")) as [Htel|Htel].
  - rewrite ensure_telemetry_fresh by done. by apply R_Ping.
  - rewrite ensure_telemetry_established by done. apply R_refl.
Qed.

Lemma preserved_delete_each requestOptions toDelete w :
  R w (delete_each env requestOptions toDelete w).2.
Proof.
  revert w. induction toDelete as [|entity rest IH]; intros w.
  - apply R_refl.
  - simpl. apply preserved_bind; [|intros; apply IH].
    apply preserved_on_error. apply preserved_fetch.
Qed.

Ltac preserve :=
  repeat first
    [ apply preserved_ensure_telemetry
    | apply preserved_validateOrgProject
    | apply preserved_fetch
    | apply preserved_delete_each
    | apply R_refl
    | apply preserved_bind; [intros ?|intros ? ?]
    | progress (unfold get_client, lift, fail, mret, M_ret; cbn [fst snd]) ].

Lemma preserved_by_every_operation :
  every_operation env (λ A m, ∀ w, R w (m w).2).
Proof.
  unfold every_operation. repeat apply conj; intros.
  - unfold Add. preserve.
  - unfold Update. preserve.
  - unfold Get. preserve.
  - unfold GetAll. preserve.
  - unfold Search. preserve.
  - unfold Delete. preserve.
  - unfold DeleteAll. preserve.
  - unfold BatchUpdate. preserve.
  - unfold BatchDelete. preserve.
  - unfold History. preserve.
  - unfold Users. preserve.
  - unfold DeleteUser. preserve.
  - unfold DeleteUsers. preserve.
    + destruct (selected_entity _); preserve.
    + destruct (_ =? _)%nat; preserve.
Qed.

End Preservation.

Lemma evolves_refl w : evolves w w.
Proof. unfold evolves. repeat split; done. Qed.

Lemma evolves_trans w1 w2 w3 : evolves w1 w2 → evolves w2 w3 → evolves w1 w3.
Proof.
  unfold evolves.
  intros (A1 & A2 & A3 & A4 & A5 & A6 & A7 & A8 & A9 & A10 & A11)
         (B1 & B2 & B3 & B4 & B5 & B6 & B7 & B8 & B9 & B10 & B11).
  repeat split.
  - congruence.
  - congruence.
  - congruence.
  - congruence.
  - congruence.
  - congruence.
  - intros H. rewrite B7; [by apply A7|]. by rewrite A7.
  - intros H. rewrite B8; [by apply A8|]. by rewrite A8.
  - intros H. rewrite B9; [by apply A9|]. by rewrite A9.
  - by etrans.
  - by etrans.
Qed.

Lemma evolves_Ping env w :
  MemoryClient.telemetryID (client w) = "" → evolves w (Ping env w).2.
Proof.
  intros Htel.
  destruct (Ping_run env w) as (Hcalls & Hname & Hpname & Hid & Hpid).
  destruct (Ping_keeps env w) as (H1 & H2 & H3 & H4 & H5).
  unfold evolves. rewrite Hcalls, H5. repeat split; try done. by apply prefix_app_r.
Qed.

(** X1. Whatever it is given and however it ends, no operation changes the
    API key, the host, the headers, the timeout or the names of the
    organization and project of the client, none replaces an identifier of
    the organization or project that the client has, and none changes
    anything of a client whose session is established; the calls made and
    the lines printed before are still there, in order, followed by those of
    the operation. *)
Theorem operations_keep_the_configuration env :
  every_operation env (λ A m, ∀ w, evolves w (m w).2).
Proof.
  apply preserved_by_every_operation.
  - apply evolves_refl.
  - apply evolves_trans.
  - intros. unfold evolves. simpl. repeat split; try done. by apply prefix_app_r.
  - intros. unfold evolves. simpl. repeat split; try done. by apply prefix_app_r.
  - apply evolves_Ping.
Qed.

(** ** The ping *)

Lemma Ping_answer env w responseMap :
  fetchWithErrorHandling env (client w) (calls w) "GET" "/v1/ping/" VNil
  = Ok (VMap responseMap) →
  responseMap !! "status" = Some (VString "ok") →
  (Ping env w).1 = Ok ()
  ∧ MemoryClient.telemetryID (client (Ping env w).2)
    = match responseMap !! "user_email" with
      | Some (VString userEmail) => userEmail
      | _ => MemoryClient.telemetryID (client w)
      end
  ∧ calls (Ping env w).2 = calls w ++ [ping_call].
Proof.
  intros Hfetch Hstatus.
  pose proof (eq_refl (Ping env w)) as Hr. unfold Ping at 2 in Hr.
  rewrite bind_run in Hr. unfold on_error, fetch in Hr. rewrite Hfetch in Hr.
  cbn [as_map] in Hr. unfold index in Hr. rewrite Hstatus in Hr.
  cbn [default from_option id as_string] in Hr.
  change (String.eqb "ok" "ok") with true in Hr. cbn [negb] in Hr.
  rewrite !bind_run in Hr. unfold get_client, when, modify_client in Hr.
  destruct w as [c cs out]. cbn [client calls stdout] in *.
  destruct (responseMap !! "org_id") as [orgID|],
           (responseMap !! "project_id") as [projectID|],
           (responseMap !! "user_email") as [[]|],
           (is_nil (MemoryClient.organizationID c)) eqn:Horg,
           (is_nil (MemoryClient.projectID c)) eqn:Hproject;
    unfold mbind, M_bind, mret, M_ret in Hr; cbn in Hr; rewrite ?Horg, ?Hproject in Hr;
    cbn in Hr; rewrite ?Horg, ?Hproject in Hr; cbn in Hr; rewrite Hr; cbn;
    repeat split; try done;
    first [ by destruct (MemoryClient.projectID c)
          | by destruct (MemoryClient.organizationID c) ].
Qed.

(** X2. [Ping], answered with an object whose status is "ok", succeeds and
    takes from the answer the session (user_email, if it is a string) and
    the identifiers of the organization and project that the client does
    not have; an identifier that the client was given is never replaced.
    Nothing else of the client changes. *)
Theorem Ping_adopts_the_answer env w responseMap :
  fetchWithErrorHandling env (client w) (calls w) "GET" "/v1/ping/" VNil
  = Ok (VMap responseMap) →
  responseMap !! "status" = Some (VString "ok") →
  let c := client w in
  let c' := client (Ping env w).2 in
  (Ping env w).1 = Ok ()
  ∧ MemoryClient.telemetryID c'
    = match responseMap !! "user_email" with
      | Some (VString userEmail) => userEmail
      | _ => MemoryClient.telemetryID c
      end
  ∧ MemoryClient.organizationID c'
    = (if is_nil (MemoryClient.organizationID c)
       then default VNil (responseMap !! "org_id")
       else MemoryClient.organizationID c)
  ∧ MemoryClient.projectID c'
    = (if is_nil (MemoryClient.projectID c)
       then default VNil (responseMap !! "project_id")
       else MemoryClient.projectID c)
  ∧ MemoryClient.apiKey c' = MemoryClient.apiKey c
  ∧ MemoryClient.host c' = MemoryClient.host c
  ∧ MemoryClient.headers c' = MemoryClient.headers c
  ∧ MemoryClient.httpClient_Timeout c' = MemoryClient.httpClient_Timeout c
  ∧ MemoryClient.organizationName c' = MemoryClient.organizationName c
  ∧ MemoryClient.projectName c' = MemoryClient.projectName c
  ∧ calls (Ping env w).2 = calls w ++ [ping_call]
  ∧ stdout (Ping env w).2 = stdout w.
Proof.
  intros Hfetch Hstatus c c'. subst c c'.
  pose proof (eq_refl (Ping env w)) as Hr. unfold Ping at 2 in Hr.
  rewrite bind_run in Hr. unfold on_error, fetch in Hr. rewrite Hfetch in Hr.
  cbn [as_map] in Hr. unfold index in Hr. rewrite Hstatus in Hr.
  cbn [default from_option id as_string] in Hr.
  change (String.eqb "ok" "ok") with true in Hr. cbn [negb] in Hr.
  rewrite !bind_run in Hr. unfold get_client, when, modify_client in Hr.
  destruct w as [c cs out]. cbn [client calls stdout] in *.
  destruct (responseMap !! "org_id") as [orgID|],
           (responseMap !! "project_id") as [projectID|],
           (responseMap !! "user_email") as [[]|],
           (is_nil (MemoryClient.organizationID c)) eqn:Horg,
           (is_nil (MemoryClient.projectID c)) eqn:Hproject;
    unfold mbind, M_bind, mret, M_ret in Hr; cbn in Hr; rewrite ?Horg, ?Hproject in Hr;
    cbn in Hr; rewrite ?Horg, ?Hproject in Hr; cbn in Hr; rewrite Hr; cbn;
    repeat split; try done;
    first [ by destruct (MemoryClient.projectID c)
          | by destruct (MemoryClient.organizationID c) ].
Qed.


Lemma Ping_adopts_the_answer_witness :
  let env := env_of (always accepted) [] in
  let w := world_of fresh_client in
  (Ping env w).1 = Ok ()
  ∧ MemoryClient.telemetryID (client (Ping env w).2) = "someone@example.com".
Proof.
  intros env w.
  destruct (Ping_adopts_the_answer env w
              {[ "status" := VString "ok";
                 "user_email" := VString "someone@example.com" ]})
    as (H1 & H2 & _).
  { reflexivity. } { reflexivity. }
  split; [exact H1|]. rewrite H2. reflexivity.
Defined.

(** X3. [Ping] fails with an API error of status code 0 when the answer is
    not an object, or is an object whose status is not the string "ok"; in
    the latter case the message is the answer's own, if it has a non-empty
    one, and "API Key is invalid" otherwise. The client is left as it was. *)
Theorem Ping_rejects_other_answers env w response :
  fetchWithErrorHandling env (client w) (calls w) "GET" "/v1/ping/" VNil = Ok response →
  let w' := mkWorld (client w) (calls w ++ [ping_call]) (stdout w) in
  (as_map response = None →
   Ping env w = (Err (NewAPIError "Invalid response format from ping endpoint" 0 ""), w'))
  ∧ (∀ responseMap,
       response = VMap responseMap →
       responseMap !! "status" ≠ Some (VString "ok") →
       Ping env w
       = (Err (NewAPIError
                 match responseMap !! "message" with
                 | Some (VString message) =>
                     if String.eqb message "" then "API Key is invalid" else message
                 | _ => "API Key is invalid"
                 end 0 ""), w')).
Proof.
  intros Hfetch w'. subst w'. split.
  - intros Hmap. unfold Ping. rewrite bind_run. unfold on_error, fetch.
    rewrite Hfetch. by rewrite Hmap.
  - intros responseMap -> Hstatus. unfold Ping. rewrite bind_run.
    unfold on_error, fetch. rewrite Hfetch. cbn [as_map]. unfold index.
    assert (match as_string (default VNil (responseMap !! "status")) with
            | Some status => String.eqb status "ok"
            | None => false
            end = false) as ->.
    { destruct (responseMap !! "status") as [[]|]; try done. simpl.
      destruct (String.eqb_spec s "ok") as [->|]; done. }
    cbn [negb]. unfold fail. do 3 f_equal.
    by destruct (responseMap !! "message") as [[]|].
Qed.

Lemma Ping_rejects_other_answers_witness :
  let env := env_answering (VMap {[ "status" := VString "error";
                                                   "message" := VString "Invalid token" ]}) in
  (Ping env (world_of fresh_client)).1 = Err (NewAPIError "Invalid token" 0 "").
Proof.
  intros env.
  destruct (Ping_rejects_other_answers env (world_of fresh_client)
              (VMap {[ "status" := VString "error"; "message" := VString "Invalid token" ]}))
    as [_ H].
  { reflexivity. }
  rewrite (H _ eq_refl); [reflexivity|]. by vm_compute.
Defined.

(** X4. An operation run without a session pings first, and when that ping
    fails, for whatever reason, the operation ends there: it returns the
    error of the ping and has made the ping and no other call, and the
    client is as before. *)
Theorem failed_ping_stops_every_operation env w e :
  MemoryClient.telemetryID (client w) = "" →
  (Ping env w).1 = Err e →
  let w' := mkWorld (client w) (calls w ++ [ping_call]) (stdout w) in
  every_operation env (λ A m, m w = (Err e, w')).
Proof.
  intros Htel Hping w'.
  assert (ensure_telemetry env w = (Err e, w')) as Hens.
  { rewrite ensure_telemetry_fresh by done.
    pose proof (Ping_failure env w e Hping) as Hw.
    destruct (Ping env w) as [r w1]. simpl in *. by subst. }
  unfold every_operation, Add, Update, Get, GetAll, Search, Delete, DeleteAll,
    BatchUpdate, BatchDelete, History, Users, DeleteUser, DeleteUsers.
  repeat apply conj; intros; rewrite bind_run, Hens; done.
Qed.

Lemma failed_ping_stops_every_operation_witness :
  let env := env_of (always unauthorized) [] in
  Get env "m1" (world_of fresh_client)
  = (Err (WrapError "failed to ping server: " (NewAPIError "denied" 401 "denied")),
     mkWorld fresh_client [ping_call] []).
Proof.
  intros env.
  destruct (failed_ping_stops_every_operation env (world_of fresh_client)
              (WrapError "failed to ping server: " (NewAPIError "denied" 401 "denied")))
    as (_ & _ & HGet & _).
  { reflexivity. } { reflexivity. }
  exact (HGet "m1").
Defined.

(** X5. The session is the user_email of the ping's answer. When the server
    answers every request with an object whose status is "ok" and that has
    no user_email, or an empty one, the session is never established:
    after every operation the client still has none, so each operation
    starts with a ping of its own, as [Get] shows. *)
Theorem no_user_email_no_session env w responseMap :
  (∀ c history method endpoint body,
     fetchWithErrorHandling env c history method endpoint body = Ok (VMap responseMap)) →
  responseMap !! "status" = Some (VString "ok") →
  default "" (as_string (index responseMap "user_email")) = "" →
  MemoryClient.telemetryID (client w) = "" →
  every_operation env (λ A m, MemoryClient.telemetryID (client (m w).2) = "")
  ∧ ∀ memoryID,
      calls (Get env memoryID w).2
      = calls w ++ [ping_call; mkCall "GET" ("/v1/memories/" +:+ memoryID +:+ "/") VNil].
Proof.
  intros Hfetch Hstatus Hemail Htel.
  assert (∀ w, MemoryClient.telemetryID (client w) = "" →
               (Ping env w).1 = Ok ()
               ∧ MemoryClient.telemetryID (client (Ping env w).2) = ""
               ∧ calls (Ping env w).2 = calls w ++ [ping_call]) as HPing.
  { intros w1 Htel1.
    destruct (Ping_answer env w1 responseMap (Hfetch _ _ _ _ _) Hstatus)
      as (H1 & H2 & H3).
    split; [done|]. split; [|done]. rewrite H2. unfold index in Hemail.
    destruct (responseMap !! "user_email") as [[]|]; simpl in Hemail; done. }
  split.
  - pose proof (preserved_by_every_operation env
                  (λ w w', MemoryClient.telemetryID (client w) = "" →
                           MemoryClient.telemetryID (client w') = "")) as H.
    cbv beta in H.
    assert (every_operation env
              (λ A m, ∀ w, MemoryClient.telemetryID (client w) = "" →
                           MemoryClient.telemetryID (client (m w).2) = "")) as Hall.
    { apply H; try done.
      - intros w1 w2 w3 H12 H23 H1. auto.
      - intros w1 Htel1. intros _. by destruct (HPing w1 Htel1) as (_ & ? & _). }
    unfold every_operation in *.
    destruct Hall as (H1 & H2 & H3 & H4 & H5 & H6 & H7 & H8 & H9 & H10 & H11 & H12 & H13).
    repeat apply conj; intros; auto.
  - intros memoryID. unfold Get. rewrite bind_run, ensure_telemetry_fresh by done.
    destruct (HPing w Htel) as (Hok & _ & Hcalls).
    destruct (Ping env w) as [r w1]. simpl in Hok, Hcalls. subst r.
    rewrite bind_run. unfold fetch, lift. rewrite Hfetch. simpl.
    by rewrite Hcalls, <- app_assoc.
Qed.

Lemma no_user_email_no_session_witness :
  let env := env_answering (VMap {[ "status" := VString "ok" ]}) in
  map (λ call, (call_method call, call_endpoint call))
      (calls (Get env "m1" (world_of fresh_client)).2)
  = [("GET", "/v1/ping/"); ("GET", "/v1/memories/m1/")].
Proof.
  intros env.
  destruct (no_user_email_no_session env (world_of fresh_client)
              {[ "status" := VString "ok" ]}) as [_ H].
  { intros c history method endpoint body. unfold fetchWithErrorHandling.
    by destruct (is_nil body). }
  { reflexivity. } { reflexivity. } { reflexivity. }
  rewrite H. reflexivity.
Defined.

(** ** The construction of the client *)

(** X6. With a key that passes the validation, [NewMemoryClient] always
    returns a client, whether or not the server can be reached: the client
    has the key, the host given or else https://api.mem0.ai, the headers
    Authorization: Token <key> and Content-Type: application/json, a timeout
    of 60 seconds and the names it was given; exactly one call is made, the
    ping. When the ping fails, its error is printed, not returned, and the
    client is left without a session and with the identifiers it was
    given. *)
Theorem NewMemoryClient_returns_a_configured_client env options calls0 stdout0 :
  validateAPIKey (ClientOptions.APIKey options) = None →
  let c0 :=
    MemoryClient.mk (ClientOptions.APIKey options)
      (default "https://api.mem0.ai" (ClientOptions.Host options))
      (ClientOptions.OrganizationName options) (ClientOptions.ProjectName options)
      (ClientOptions.OrganizationID options) (ClientOptions.ProjectID options)
      {[ "Authorization" := "Token " +:+ ClientOptions.APIKey options;
         "Content-Type" := "application/json" ]}
      (60 * 1000000000) "" in
  ∃ c stdout1,
    NewMemoryClient env options calls0 stdout0 = (Ok c, calls0 ++ [ping_call], stdout1)
    ∧ MemoryClient.apiKey c = MemoryClient.apiKey c0
    ∧ MemoryClient.host c = MemoryClient.host c0
    ∧ MemoryClient.headers c = MemoryClient.headers c0
    ∧ MemoryClient.httpClient_Timeout c = MemoryClient.httpClient_Timeout c0
    ∧ MemoryClient.organizationName c = MemoryClient.organizationName c0
    ∧ MemoryClient.projectName c = MemoryClient.projectName c0
    ∧ (is_nil (ClientOptions.OrganizationID options) = false →
       MemoryClient.organizationID c = ClientOptions.OrganizationID options)
    ∧ (is_nil (ClientOptions.ProjectID options) = false →
       MemoryClient.projectID c = ClientOptions.ProjectID options)
    ∧ (∀ e, (Ping env (mkWorld c0 calls0 stdout0)).1 = Err e →
            c = c0
            ∧ stdout1 = stdout0 ++ ["Failed to initialize client: " +:+ Error e])
    ∧ ((Ping env (mkWorld c0 calls0 stdout0)).1 = Ok () →
       stdout1 = stdout0 ++ warnings c).
Proof.
  intros Hvalid c0. unfold NewMemoryClient. rewrite Hvalid.
  assert (match ClientOptions.Host options with
          | Some h => h
          | None => "https://api.mem0.ai"
          end = default "https://api.mem0.ai" (ClientOptions.Host options)) as ->
    by (by destruct (ClientOptions.Host options)).
  fold c0. unfold initializeClient. rewrite bind_run.
  pose proof (evolves_Ping env (mkWorld c0 calls0 stdout0) eq_refl)
    as (H1 & H2 & H3 & H4 & H5 & H6 & H7 & H8 & _).
  pose proof (Ping_calls env (mkWorld c0 calls0 stdout0)) as Hcalls.
  pose proof (Ping_keeps env (mkWorld c0 calls0 stdout0)) as (_ & _ & _ & _ & Hout).
  pose proof (Ping_failure env (mkWorld c0 calls0 stdout0)) as Hfail.
  destruct (Ping env (mkWorld c0 calls0 stdout0)) as [[[]|e] w1];
    cbn [fst snd client calls stdout] in *.
  - rewrite validateOrgProject_warnings. cbn [client calls stdout].
    eexists _, _. split; [by rewrite Hcalls|].
    repeat split; try done. by rewrite Hout.
  - specialize (Hfail e eq_refl). subst w1. cbn [client calls stdout].
    eexists _, _. split; [reflexivity|]. repeat split; try done.
    by injection H as ->.
Qed.

Lemma NewMemoryClient_returns_a_configured_client_witness :
  let env := env_of (always refused) [] in
  ∃ c,
    NewMemoryClient env (options_with_key "m0-key") [] []
    = (Ok c, [ping_call],
       ["Failed to initialize client: failed to ping server: request failed: dial tcp: connection refused"])
    ∧ MemoryClient.host c = "https://api.mem0.ai"
    ∧ MemoryClient.telemetryID c = "".
Proof.
  intros env.
  destruct (NewMemoryClient_returns_a_configured_client env (options_with_key "m0-key") [] [])
    as (c & stdout1 & Hnew & _ & Hhost & _ & _ & _ & _ & _ & _ & Hfail & _).
  { by vm_compute. }
  destruct (Hfail (WrapError "failed to ping server: "
                     (WrapError "request failed: "
                        (LibError "dial tcp: connection refused"))) eq_refl)
    as [Hc Hs].
  exists c. split; [by rewrite Hnew, Hs|]. split; [done|]. by rewrite Hc.
Defined.

(** ** The warnings about the organization and the project *)

Lemma delete_each_stdout env requestOptions toDelete w :
  stdout (delete_each env requestOptions toDelete w).2 = stdout w.
Proof.
  revert w. induction toDelete as [|entity rest IH]; intros w; [done|].
  simpl. rewrite bind_run. unfold on_error, fetch.
  destruct (fetchWithErrorHandling _ _ _ _ _ _); [|done].
  by rewrite IH.
Qed.

Lemma Users_stdout env w :
  MemoryClient.telemetryID (client w) ≠ "" →
  stdout (Users env w).2 = stdout w ++ warnings (client w)
  ∧ client (Users env w).2 = client w.
Proof.
  intros Htel. unfold Users.
  rewrite bind_run, ensure_telemetry_established by done.
  rewrite bind_run, validateOrgProject_warnings.
  rewrite bind_run. unfold get_client. cbv beta iota.
  rewrite bind_run. unfold fetch, lift. cbn [client calls stdout].
  by destruct (fetchWithErrorHandling _ _ _ _ _ _).
Qed.

Ltac from_session env w w0 Hest :=
  match goal with
  | |- context [?op w] =>
      assert (op w = op w0) as ->
        by (first [ unfold Add | unfold Update | unfold Get | unfold GetAll
                  | unfold Search | unfold Delete | unfold DeleteAll
                  | unfold BatchUpdate | unfold BatchDelete | unfold History
                  | unfold Users | unfold DeleteUser | unfold DeleteUsers ];
            by apply after_session)
  end.

Ltac run_printing Htel :=
  rewrite bind_run, ensure_telemetry_established by exact Htel;
  try (rewrite bind_run, validateOrgProject_warnings);
  try (rewrite bind_run; progress unfold get_client; cbv beta iota);
  rewrite bind_run; unfold fetch, lift, mret, M_ret; cbn [client calls stdout];
  by destruct (fetchWithErrorHandling _ _ _ _ _ _).

(** X7. [validateOrgProject] prints a warning when exactly one of the names
    of the organization and project is set, and another when exactly one
    of their identifiers is; it is run, and the warnings are printed again,
    on every call of [Add], [Update], [GetAll], [Search], [DeleteAll] and
    [Users], and twice on a call of [DeleteUsers] that names no entity,
    which lists the entities through [Users]. [Get], [Delete], [History],
    [BatchUpdate], [BatchDelete] and [DeleteUser] never print. A client
    whose pairs are complete, or absent, is never warned. *)
Theorem operations_repeat_the_warnings env w w0 :
  established_by env w w0 →
  let c := client w0 in
  (∀ messages options, stdout (Add env messages options w).2 = stdout w0 ++ warnings c)
  ∧ (∀ memoryID message, stdout (Update env memoryID message w).2 = stdout w0 ++ warnings c)
  ∧ (∀ options, stdout (GetAll env options w).2 = stdout w0 ++ warnings c)
  ∧ (∀ query options, stdout (Search env query options w).2 = stdout w0 ++ warnings c)
  ∧ (∀ options, stdout (DeleteAll env options w).2 = stdout w0 ++ warnings c)
  ∧ stdout (Users env w).2 = stdout w0 ++ warnings c
  ∧ (∀ params,
       stdout (DeleteUsers env params w).2
       = stdout w0 ++ warnings c
           ++ (if isSome (selected_entity (first_or DeleteUsersParams.zero params))
               then [] else warnings c))
  ∧ (∀ memoryID, stdout (Get env memoryID w).2 = stdout w0)
  ∧ (∀ memoryID, stdout (Delete env memoryID w).2 = stdout w0)
  ∧ (∀ memoryID, stdout (History env memoryID w).2 = stdout w0)
  ∧ (∀ memories, stdout (BatchUpdate env memories w).2 = stdout w0)
  ∧ (∀ memoryIDs, stdout (BatchDelete env memoryIDs w).2 = stdout w0)
  ∧ (∀ data, stdout (DeleteUser env data w).2 = stdout w0)
  ∧ (isSome (MemoryClient.organizationName c) = isSome (MemoryClient.projectName c) →
     is_nil (MemoryClient.organizationID c) = is_nil (MemoryClient.projectID c) →
     warnings c = []).
Proof.
  intros Hest c. pose proof Hest as [_ Htel]. subst c.
  repeat apply conj; intros.
  - from_session env w w0 Hest. unfold Add. run_printing Htel.
  - from_session env w w0 Hest. unfold Update. run_printing Htel.
  - from_session env w w0 Hest. unfold GetAll. run_printing Htel.
  - from_session env w w0 Hest. unfold Search. run_printing Htel.
  - from_session env w w0 Hest. unfold DeleteAll. run_printing Htel.
  - from_session env w w0 Hest. by apply Users_stdout.
  - from_session env w w0 Hest. unfold DeleteUsers.
    rewrite bind_run, ensure_telemetry_established by exact Htel.
    rewrite bind_run, validateOrgProject_warnings.
    rewrite bind_run.
    destruct (selected_entity _) as [entity|]; cbn [isSome].
    + unfold mret at 1, M_ret at 1. cbv beta iota. cbn [length Nat.eqb].
      rewrite !bind_run. unfold get_client. cbv beta iota. rewrite bind_run.
      match goal with
      | |- context [delete_each env ?ro ?l ?w1] =>
          pose proof (delete_each_stdout env ro l w1) as Hout;
          destruct (delete_each env ro l w1) as [[[]|e] w2]
      end; unfold mret, M_ret; cbn [snd stdout] in *; by rewrite Hout, app_nil_r.
    + match goal with
      | |- context [(Users env ≫= ?k) ?w1] =>
          rewrite (bind_run (Users env) k w1);
          destruct (Users_stdout env w1 Htel) as [Hout Hc];
          destruct (Users env w1) as [[entities|e] w2]
      end; cbn [snd client stdout] in *; [|by rewrite Hout, app_assoc].
      unfold mret at 1, M_ret at 1. cbv beta iota.
      destruct (_ =? _)%nat; [unfold fail; cbn; by rewrite Hout, app_assoc|].
      rewrite !bind_run. unfold get_client. cbv beta iota. rewrite bind_run.
      match goal with
      | |- context [delete_each env ?ro ?l ?w1] =>
          pose proof (delete_each_stdout env ro l w1) as Hout';
          destruct (delete_each env ro l w1) as [[[]|e] w3]
      end; unfold mret, M_ret; cbn [snd stdout] in *; by rewrite Hout', Hout, app_assoc.
  - from_session env w w0 Hest. unfold Get. run_printing Htel.
  - from_session env w w0 Hest. unfold Delete. run_printing Htel.
  - from_session env w w0 Hest. unfold History. run_printing Htel.
  - from_session env w w0 Hest. unfold BatchUpdate. run_printing Htel.
  - from_session env w w0 Hest. unfold BatchDelete. run_printing Htel.
  - from_session env w w0 Hest. unfold DeleteUser. run_printing Htel.
  - unfold warnings. rewrite H, H0. by rewrite !xorb_nilpotent.
Qed.

Lemma operations_repeat_the_warnings_witness :
  let env := env_of (always accepted) [alice] in
  let w := world_of half_configured_client in
  established_by env w w
  ∧ length (stdout (DeleteUsers env [] w).2) = 2%nat
  ∧ length (stdout (DeleteUsers env [only_user "alice"] w).2) = 1%nat
  ∧ stdout (Get env "m1" w).2 = [].
Proof.
  intros env w.
  assert (established_by env w w) as Hest by (apply established_refl; discriminate).
  split; [exact Hest|].
  destruct (operations_repeat_the_warnings env w w Hest)
    as (_ & _ & _ & _ & _ & _ & HDeleteUsers & HGet & _).
  rewrite !HDeleteUsers, HGet. repeat split.
Defined.

(** ** What the builders copy *)

Lemma put_opt_lookup_eq {A} key (f : A → Value) x (payload : gmap string Value) :
  put_opt key f x payload !! key = match x with
                                   | Some a => Some (f a)
                                   | None => payload !! key
                                   end.
Proof. destruct x; simpl; [by rewrite lookup_insert_eq | done]. Qed.

Lemma put_val_lookup_eq key x (payload : gmap string Value) :
  put_val key x payload !! key = if is_nil x then payload !! key else Some x.
Proof. unfold put_val. destruct (is_nil x); [done | by rewrite lookup_insert_eq]. Qed.

Ltac read_key :=
  skip_other_keys;
  first [ rewrite put_opt_lookup_eq | rewrite put_val_lookup_eq | idtac ];
  skip_other_keys.

Lemma preparePayload_lookup messages o :
  preparePayload messages o !! "messages" = Some (VMessages messages)
  ∧ (∀ f, preparePayload messages o !! wire_name f
          = if in_payload f then field_value o f else None).
Proof.
  split.
  - unfold preparePayload. skip_other_keys. apply lookup_insert_eq.
  - intros f. unfold preparePayload.
    destruct f; cbn [wire_name in_payload field_value]; read_key;
      first [ by destruct (is_nil _)
            | match goal with
              | |- match ?x with _ => _ end = _ => by destruct x
              end
            | done ].
Qed.

(** X8. The payload of [preparePayload] has the messages under [messages]
    and, under the wire name of each field that is set, the value of the
    field, for the eighteen fields that the function copies. The seven
    other fields of the options (page, page_size, includes, excludes,
    start_date, end_date, timestamp) never reach the payload, set or
    not. *)
Theorem preparePayload_copies_the_fields messages o :
  preparePayload messages o !! "messages" = Some (VMessages messages)
  ∧ (∀ f, preparePayload messages o !! wire_name f
          = if in_payload f then field_value o f else None)
  ∧ (∀ f, in_payload f = false
          ↔ f ∈ [FPage; FPageSize; FIncludes; FExcludes; FStartDate; FEndDate;
                 FTimestamp]).
Proof.
  destruct (preparePayload_lookup messages o) as [Hmessages Hfields].
  split; [exact Hmessages|]. split; [exact Hfields|].
  intros f. rewrite !elem_of_cons, elem_of_nil.
  destruct f; simpl;
    (split; [intros ?; try done; repeat first [by left | right]
            | intros H; try done; exfalso; intuition discriminate]).
Qed.

(** ** The requests of [Add] and [Search] *)

(** The options after the organization and project of the client were
    merged in: the identifiers of the client, if it has both, replace
    those of the options and remove the names; else its names, if it has
    both, replace those of the options; all other fields are kept. *)
Lemma setOrgProject_fields c o f :
  field_value (setOrgProject c o) f
  = match f with
    | FOrgID => if has_ids c then Some (MemoryClient.organizationID c)
                else field_value o FOrgID
    | FProjectID => if has_ids c then Some (MemoryClient.projectID c)
                    else field_value o FProjectID
    | FOrgName => if has_ids c then None
                  else if has_names c then VString <$> MemoryClient.organizationName c
                  else field_value o FOrgName
    | FProjectName => if has_ids c then None
                      else if has_names c then VString <$> MemoryClient.projectName c
                      else field_value o FProjectName
    | _ => field_value o f
    end.
Proof.
  unfold setOrgProject, has_ids, has_names.
  destruct (is_nil (MemoryClient.organizationID c)) eqn:Horg,
           (is_nil (MemoryClient.projectID c)) eqn:Hproject,
           (MemoryClient.organizationName c), (MemoryClient.projectName c);
    destruct f; simpl; rewrite ?Horg, ?Hproject; done.
Qed.

Lemma field_value_set_Version o v f :
  f ≠ FVersion →
  field_value (MemoryOptions.set_Version v o) f = field_value o f.
Proof. by destruct f. Qed.

(** X9. Once the session is established, [Add] makes one call, a POST to
    /v1/memories/ whatever the API version of the options, whose body is
    the payload built from the first options of the call (further options
    are not looked at). The payload has the messages; its [version] is the
    API version of the options when that is set, and the version of the
    options otherwise; the organization and project are those of the
    client when it has a complete pair (the identifiers then exclude the
    names), else those of the options; every other field is copied from
    the options as [preparePayload] does. *)
Theorem Add_posts_the_payload env w w0 messages options :
  established_by env w w0 →
  let c := client w0 in
  let o := first_or MemoryOptions.zero options in
  let payload := Add_payload c messages options in
  calls (Add env messages options w).2
  = calls w0 ++ [mkCall "POST" "/v1/memories/" (VMap payload)]
  ∧ payload !! "messages" = Some (VMessages messages)
  ∧ payload !! "version"
    = VAPIVersion <$> match MemoryOptions.APIVersion o with
                      | Some version => Some version
                      | None => MemoryOptions.Version o
                      end
  ∧ payload !! "org_id"
    = (if has_ids c then Some (MemoryClient.organizationID c) else field_value o FOrgID)
  ∧ payload !! "project_id"
    = (if has_ids c then Some (MemoryClient.projectID c) else field_value o FProjectID)
  ∧ payload !! "org_name"
    = (if has_ids c then None
       else if has_names c then VString <$> MemoryClient.organizationName c
       else field_value o FOrgName)
  ∧ payload !! "project_name"
    = (if has_ids c then None
       else if has_names c then VString <$> MemoryClient.projectName c
       else field_value o FProjectName)
  ∧ (∀ f, f ∉ [FVersion; FOrgName; FProjectName; FOrgID; FProjectID] →
          payload !! wire_name f = if in_payload f then field_value o f else None)
  ∧ (∀ first rest, Add_payload c messages (first :: rest) = Add_payload c messages [first]).
Proof.
  intros Hest c o payload. pose proof Hest as [_ Htel].
  assert (Add env messages options w = Add env messages options w0) as ->
    by (unfold Add; by apply after_session).
  destruct (Add_run env messages options w0 Htel) as (_ & Hcalls & _).
  split; [exact Hcalls|].
  subst payload. unfold Add_payload. fold o.
  set (merged := setOrgProject c o).
  assert (MemoryOptions.APIVersion merged = MemoryOptions.APIVersion o) as Hversion
    by (by destruct (setOrgProject_keeps c o) as [? _]).
  assert (MemoryOptions.Version merged = MemoryOptions.Version o) as Hversion'.
  { subst merged. unfold setOrgProject. by repeat destruct (_ && _). }
  set (final := match MemoryOptions.APIVersion merged with
                | Some version => MemoryOptions.set_Version (Some version) merged
                | None => merged
                end).
  assert (∀ f, f ≠ FVersion → field_value final f = field_value merged f) as Hfinal.
  { intros f Hf. subst final. destruct (MemoryOptions.APIVersion merged); [|done].
    by apply field_value_set_Version. }
  destruct (preparePayload_lookup messages final) as (Hmessages & Hfields).
  split; [exact Hmessages|].
  split.
  { etrans; [exact (Hfields FVersion)|]. cbn [in_payload field_value]. subst final.
    rewrite Hversion. destruct (MemoryOptions.APIVersion o); [done|].
    by rewrite Hversion'. }
  split.
  { etrans; [exact (Hfields FOrgID)|]. cbn [in_payload]. rewrite Hfinal by done. apply (setOrgProject_fields c o FOrgID). }
  split.
  { etrans; [exact (Hfields FProjectID)|]. cbn [in_payload]. rewrite Hfinal by done.
    apply (setOrgProject_fields c o FProjectID). }
  split.
  { etrans; [exact (Hfields FOrgName)|]. cbn [in_payload]. rewrite Hfinal by done.
    apply (setOrgProject_fields c o FOrgName). }
  split.
  { etrans; [exact (Hfields FProjectName)|]. cbn [in_payload]. rewrite Hfinal by done.
    apply (setOrgProject_fields c o FProjectName). }
  split; [|done].
  intros f Hf. rewrite !elem_of_cons, elem_of_nil in Hf.
  rewrite Hfields. destruct (in_payload f); [|done].
  rewrite Hfinal by tauto. subst merged. rewrite setOrgProject_fields.
  destruct f; try done; tauto.
Qed.

Lemma Add_posts_the_payload_witness :
  let env := env_of (always accepted) [] in
  let w := world_of a_client in
  established_by env w w
  ∧ ∃ payload : gmap string Value,
      calls (Add env [mkMessage "user" (VString "hi")] [some_options] w).2
      = [mkCall "POST" "/v1/memories/" (VMap payload)]
      ∧ payload !! "user_id" = Some (VString "alice")
      ∧ payload !! "org_id" = Some (VInt 123)
      ∧ payload !! "page" = None.
Proof.
  intros env w.
  assert (established_by env w w) as Hest by (apply established_refl; discriminate).
  split; [exact Hest|].
  destruct (Add_posts_the_payload env w w [mkMessage "user" (VString "hi")]
              [some_options] Hest)
    as (Hcalls & _ & _ & Horg & _ & _ & _ & Hfields & _).
  eexists. split; [exact Hcalls|].
  split; [|split].
  - apply (Hfields FUserID). rewrite !elem_of_cons, elem_of_nil.
    intuition discriminate.
  - exact Horg.
  - apply (Hfields FPage). rewrite !elem_of_cons, elem_of_nil.
    intuition discriminate.
Defined.

Lemma addSearchOptionsToPayload_lookup payload opts sf :
  sf ≠ FBase FEnableGraph →
  addSearchOptionsToPayload payload opts !! search_wire_name sf
  = match search_field_value opts sf with
    | Some v => Some v
    | None => payload !! search_wire_name sf
    end.
Proof.
  intros Hsf. unfold addSearchOptionsToPayload.
  destruct sf as [f| | | | | | | | |]; [destruct f|..]; try done;
    cbn [search_wire_name wire_name search_field_value in_search field_value];
    read_key;
    first [ match goal with
            | |- match ?x with _ => _ end = _ => by destruct x
            end
          | done ].
Qed.

Ltac base_lookup :=
  repeat first
    [ rewrite lookup_delete_ne by done
    | rewrite lookup_delete_eq
    | rewrite lookup_insert_ne by done
    | rewrite lookup_insert_eq
    | rewrite lookup_singleton_ne by done
    | rewrite lookup_singleton_eq ].

Lemma Search_payload_organization c query opts :
  let payload := Search_payload c query opts in
  payload !! "query" = Some (VString query)
  ∧ payload !! "org_id"
    = (if has_ids c then Some (MemoryClient.organizationID c) else None)
  ∧ payload !! "project_id"
    = (if has_ids c then Some (MemoryClient.projectID c) else None)
  ∧ payload !! "org_name"
    = (if has_ids c then None
       else if has_names c then VString <$> MemoryClient.organizationName c
       else None)
  ∧ payload !! "project_name"
    = (if has_ids c then None
       else if has_names c then VString <$> MemoryClient.projectName c
       else None).
Proof.
  intros payload. subst payload. unfold Search_payload, addSearchOptionsToPayload.
  unfold has_ids, has_names.
  repeat split; skip_other_keys;
    destruct (MemoryClient.organizationName c), (MemoryClient.projectName c),
             (negb (is_nil (MemoryClient.organizationID c))
              && negb (is_nil (MemoryClient.projectID c)));
    cbn [isSome andb fmap option_fmap option_map]; base_lookup; done.
Qed.

(** X10. Once the session is established, [Search] makes one call, a POST
    to /v2/memories/search/ when the API version of the first options is
    "v2" and to /v1/memories/search/ in every other case. Its body has the
    query, the organization and project of the client alone (those of the
    options are not sent), and the value of each field that
    [addSearchOptionsToPayload] copies and that is set; no other field of
    the options reaches the body. *)
Theorem Search_posts_the_query env w w0 query options :
  established_by env w w0 →
  let c := client w0 in
  let opts := first_or SearchOptions.zero options in
  let payload := Search_payload c query opts in
  calls (Search env query options w).2
  = calls w0
      ++ [mkCall "POST"
                 (if is_v2 (SearchOptions.Base opts)
                  then "/v2/memories/search/" else "/v1/memories/search/")
                 (VMap payload)]
  ∧ payload !! "query" = Some (VString query)
  ∧ payload !! "org_id"
    = (if has_ids c then Some (MemoryClient.organizationID c) else None)
  ∧ payload !! "project_id"
    = (if has_ids c then Some (MemoryClient.projectID c) else None)
  ∧ payload !! "org_name"
    = (if has_ids c then None
       else if has_names c then VString <$> MemoryClient.organizationName c
       else None)
  ∧ payload !! "project_name"
    = (if has_ids c then None
       else if has_names c then VString <$> MemoryClient.projectName c
       else None)
  ∧ (∀ sf, sf ∉ [FBase FOrgName; FBase FProjectName; FBase FOrgID; FBase FProjectID;
                 FBase FEnableGraph] →
           payload !! search_wire_name sf = search_field_value opts sf).
Proof.
  intros Hest c opts payload. pose proof Hest as [_ Htel].
  assert (Search env query options w = Search env query options w0) as ->
    by (unfold Search; by apply after_session).
  destruct (Search_run env query options w0 Htel) as (_ & Hcalls & _).
  split; [exact Hcalls|].
  destruct (Search_payload_organization c query opts) as (H1 & H2 & H3 & H4 & H5).
  do 5 (split; [done|]).
  intros sf Hsf. rewrite !elem_of_cons, elem_of_nil in Hsf.
  subst payload. unfold Search_payload.
  rewrite addSearchOptionsToPayload_lookup by tauto.
  destruct (search_field_value opts sf) as [v|]; [done|].
  destruct sf as [f| | | | | | | | |]; [destruct f|..];
    try (exfalso; tauto);
    cbn [search_wire_name wire_name];
    destruct (MemoryClient.organizationName c), (MemoryClient.projectName c),
             (negb (is_nil (MemoryClient.organizationID c))
              && negb (is_nil (MemoryClient.projectID c)));
    base_lookup; done.
Qed.

Lemma Search_posts_the_query_witness :
  let env := env_of (always accepted) [] in
  let w := world_of both_forms_client in
  established_by env w w
  ∧ ∃ payload : gmap string Value,
      calls (Search env "likes" [v2_options] w).2
      = [mkCall "POST" "/v2/memories/search/" (VMap payload)]
      ∧ payload !! "query" = Some (VString "likes")
      ∧ payload !! "org_id" = Some (VString "org_1")
      ∧ payload !! "org_name" = None
      ∧ payload !! "user_id" = Some (VString "alice")
      ∧ payload !! "api_version" = None.
Proof.
  intros env w.
  assert (established_by env w w) as Hest by (apply established_refl; discriminate).
  split; [exact Hest|].
  destruct (Search_posts_the_query env w w "likes" [v2_options] Hest)
    as (Hcalls & Hquery & Horg & _ & Hname & _ & Hfields).
  eexists. split; [exact Hcalls|].
  split; [exact Hquery|]. split; [exact Horg|]. split; [exact Hname|].
  split.
  - apply (Hfields (FBase FUserID)). rewrite !elem_of_cons, elem_of_nil.
    intuition discriminate.
  - apply (Hfields (FBase FAPIVersion)). rewrite !elem_of_cons, elem_of_nil.
    intuition discriminate.
Defined.

(** ** The organization in the query *)

Lemma Encode_pairs_organization sprint c :
  Encode_pairs (prepareParams sprint (OfMemoryOptions (setOrgProject c MemoryOptions.zero)))
  = organization_pairs sprint c.
Proof.
  unfold organization_pairs, has_ids, setOrgProject, prepareParams.
  destruct (MemoryClient.organizationName c) as [organizationName|],
           (MemoryClient.projectName c) as [projectName|],
           (is_nil (MemoryClient.organizationID c)) eqn:Horg,
           (is_nil (MemoryClient.projectID c)) eqn:Hproject;
    cbn [isSome andb negb MemoryOptions.set_OrgName MemoryOptions.set_ProjectName
         MemoryOptions.set_OrgID MemoryOptions.set_ProjectID
         MemoryOptions.UserID MemoryOptions.AgentID MemoryOptions.AppID
         MemoryOptions.RunID MemoryOptions.OrgName MemoryOptions.ProjectName
         MemoryOptions.OrgID MemoryOptions.ProjectID MemoryOptions.zero
         add_opt];
    unfold add_val; rewrite ?Horg, ?Hproject; cbn [is_nil]; reflexivity.
Qed.


(** A target whose query is marked by [?] even when it is empty. *)
Lemma query_pairs_marked (path : string) (pairs : list (string * string)) :
  contains "?" path = false →
  Forall safe_pair pairs →
  let target := path +:+ "?" +:+ String.concat "&" (map join_pair pairs) in
  query_pairs target = pairs ∧ path_of target = path.
Proof.
  intros Hpath Hsafe target. subst target. unfold query_pairs, path_of.
  change ("?" +:+ ?s) with (String "?" s). rewrite Cut_found by done.
  split; [|done].
  destruct (decide (pairs = [])) as [->|Hne]; [done|].
  rewrite split_on_joined by done. by apply read_joined.
Qed.

Lemma delete_endpoint_organization env c type name :
  delete_endpoint env (delete_options c) (entity_of type name)
  = target_of ("/v2/entities/" +:+ type +:+ "/" +:+ name +:+ "/")
              (organization_pairs (Sprint_other env) c).
Proof.
  unfold delete_endpoint, delete_options, Values_Encode.
  rewrite Encode_pieces_pairs, Encode_pairs_organization.
  rewrite entity_of_type, entity_of_name.
  set (pairs := organization_pairs _ _). unfold target_of.
  destruct (decide (pairs = [])) as [->|Hne]; [done|].
  destruct (String.eqb_spec (String.concat "&" (map join_pair pairs)) "") as [Hempty|_].
  - by apply concat_joined_empty in Hempty.
  - cbn [negb]. by rewrite !append_assoc.
Qed.

(** X11. [Users] lists the entities at /v1/entities/ and [DeleteUsers]
    deletes an entity at /v2/entities/<type>/<name>/; the query of both
    holds the organization and project of the client and nothing else: its
    two identifiers if it has both, else its two names if it has both, else
    nothing. The values are escaped, and the query of the listing is
    marked by [?] even when it is empty; the type and the name of the
    entity are put in the path as they are. *)
Theorem entities_are_addressed_within_the_organization env c :
  let pairs := organization_pairs (Sprint_other env) c in
  Users_endpoint env c = "/v1/entities/?" +:+ String.concat "&" (map join_pair pairs)
  ∧ path_of (Users_endpoint env c) = "/v1/entities/"
  ∧ query_pairs (Users_endpoint env c) = pairs
  ∧ (∀ type name,
       delete_endpoint env (delete_options c) (entity_of type name)
       = target_of ("/v2/entities/" +:+ type +:+ "/" +:+ name +:+ "/") pairs)
  ∧ (∀ w w0, established_by env w w0 → client w0 = c →
             calls (Users env w).2
             = calls w0 ++ [mkCall "GET" (Users_endpoint env c) VNil]).
Proof.
  intros pairs.
  assert (Forall safe_pair pairs) as Hsafe.
  { subst pairs. rewrite <- Encode_pairs_organization. apply Encode_pairs_safe. }
  assert (Users_endpoint env c
          = "/v1/entities/?" +:+ String.concat "&" (map join_pair pairs)) as HUsers.
  { unfold Users_endpoint, Values_Encode. rewrite Encode_pieces_pairs.
    by rewrite Encode_pairs_organization. }
  split; [exact HUsers|].
  destruct (query_pairs_marked "/v1/entities/" pairs eq_refl Hsafe) as [Hquery Hpath].
  split; [by rewrite HUsers|]. split; [by rewrite HUsers|].
  split; [apply delete_endpoint_organization|].
  intros w w0 Hest <-. pose proof Hest as [_ Htel].
    assert (Users env w = Users env w0) as ->
      by (unfold Users; by apply after_session).
    by destruct (Users_run env w0 Htel) as (_ & -> & _).
Qed.

(** X12. Once the session is established, [DeleteAll] makes one call, a
    DELETE of /v1/memories/ whose query, always marked by [?], is the
    encoding of the parameters of the first options merged with the
    organization of the client, pair by pair. Only the eight fields that
    [prepareParams] copies count: a filter, metadata or any other field of
    the options is not sent, and when none of the eight is set the call is
    a DELETE of /v1/memories/? without any parameter. *)
Theorem DeleteAll_deletes_by_the_parameters env w w0 options :
  established_by env w w0 →
  let merged := setOrgProject (client w0) (first_or MemoryOptions.zero options) in
  let params := prepareParams (Sprint_other env) (OfMemoryOptions merged) in
  let endpoint := "/v1/memories/?" +:+ Values_Encode params in
  calls (DeleteAll env options w).2 = calls w0 ++ [mkCall "DELETE" endpoint VNil]
  ∧ path_of endpoint = "/v1/memories/"
  ∧ query_pairs endpoint = Encode_pairs params
  ∧ (∀ f, in_params f = false → params !! wire_name f = None)
  ∧ ((∀ f, in_params f = true → is_set merged f = false) →
     endpoint = "/v1/memories/?").
Proof.
  intros Hest merged params endpoint. pose proof Hest as [_ Htel].
  assert (DeleteAll env options w = DeleteAll env options w0) as ->
    by (unfold DeleteAll; by apply after_session).
  destruct (DeleteAll_run env options w0 Htel) as (_ & Hcalls & _).
  split; [exact Hcalls|].
  assert (endpoint = "/v1/memories/?"
                       +:+ String.concat "&" (map join_pair (Encode_pairs params)))
    as Hendpoint.
  { subst endpoint. unfold Values_Encode. by rewrite Encode_pieces_pairs. }
  destruct (query_pairs_marked "/v1/memories/" (Encode_pairs params) eq_refl
              (Encode_pairs_safe params)) as [Hquery Hpath].
  split; [by rewrite Hendpoint|]. split; [by rewrite Hendpoint|].
  split.
  - intros f Hf. apply eq_None_not_Some. intros Hsome.
    apply prepareParams_known_keys in Hsome. simpl in Hsome.
    destruct f; try discriminate Hf; simpl in Hsome; intuition discriminate.
  - intros Hunset. subst endpoint params. unfold prepareParams.
    rewrite (isSome_false _ (Hunset FUserID eq_refl)),
            (isSome_false _ (Hunset FAgentID eq_refl)),
            (isSome_false _ (Hunset FAppID eq_refl)),
            (isSome_false _ (Hunset FRunID eq_refl)),
            (isSome_false _ (Hunset FOrgName eq_refl)),
            (isSome_false _ (Hunset FProjectName eq_refl)),
            (not_nil_false _ (Hunset FOrgID eq_refl)),
            (not_nil_false _ (Hunset FProjectID eq_refl)).
    reflexivity.
Qed.

Lemma DeleteAll_deletes_by_the_parameters_witness :
  let env := env_of (always accepted) [] in
  let w := world_of a_client in
  established_by env w w
  ∧ calls (DeleteAll env [only_filters] w).2 = [mkCall "DELETE" "/v1/memories/?" VNil]
  ∧ map (λ call, call_endpoint call)
        (calls (DeleteAll env [MemoryOptions.set_OrgID (VString "a&b=c") only_filters] w).2)
    = ["/v1/memories/?org_id=a%26b%3Dc"].
Proof.
  intros env w.
  assert (established_by env w w) as Hest by (apply established_refl; discriminate).
  split; [exact Hest|].
  destruct (DeleteAll_deletes_by_the_parameters env w w [only_filters] Hest)
    as (Hcalls & _ & _ & _ & Hnone).
  destruct (DeleteAll_deletes_by_the_parameters env w w
              [MemoryOptions.set_OrgID (VString "a&b=c") only_filters] Hest)
    as (Hcalls' & _).
  split.
  - rewrite Hcalls, Hnone; [reflexivity|]. by intros [].
  - rewrite Hcalls'. vm_compute. reflexivity.
Defined.

(** ** Answers in the 2xx range *)

Lemma fetch_2xx env w status respBody result method endpoint body :
  next_exchange env w (DoResponse status (Ok respBody)) →
  200 ≤ status < 300 →
  json_Unmarshal env respBody = Ok result →
  fetchWithErrorHandling env (client w) (calls w) method endpoint body = Ok result.
Proof.
  intros (Hmarshal & Hnew & Hdo) Hstatus Hjson. unfold fetchWithErrorHandling.
  destruct (Hmarshal body) as [jsonBody ->].
  assert ((status <? 200) || (300 <=? status) = false) as Hin.
  { apply orb_false_iff. lia. }
  destruct (is_nil body); rewrite Hnew, Hdo, Hin, Hjson; done.
Qed.

Lemma single_call_answer {A} env (m : M A) w call k result :
  single_call env m w call k →
  (∀ method endpoint body,
     fetchWithErrorHandling env (client w) (calls w) method endpoint body = Ok result) →
  (m w).1 = k result.
Proof. intros (-> & _) Hfetch. by rewrite Hfetch. Qed.

(** X13. Every status from 200 to 299 counts as success, and nothing but
    the body of the answer is looked at: once the session is established,
    an answer in that range whose body is JSON makes the transport return
    the decoded value, and each operation that makes one call returns
    what [parseResponse] makes of that value for its own result type; the
    two batch operations take their result from the value itself and do
    not fail. *)
Theorem a_2xx_answer_is_decoded env w w0 status respBody result :
  established_by env w w0 →
  next_exchange env w0 (DoResponse status (Ok respBody)) →
  200 ≤ status < 300 →
  json_Unmarshal env respBody = Ok result →
  (∀ method endpoint body,
     fetchWithErrorHandling env (client w0) (calls w0) method endpoint body = Ok result)
  ∧ (∀ messages options,
       (Add env messages options w).1
       = parseResponse env (json_Unmarshal_Memories env) result)
  ∧ (∀ memoryID message,
       (Update env memoryID message w).1
       = parseResponse env (json_Unmarshal_Memories env) result)
  ∧ (∀ memoryID,
       (Get env memoryID w).1 = parseResponse env (json_Unmarshal_Memory env) result)
  ∧ (∀ options,
       (GetAll env options w).1 = parseResponse env (json_Unmarshal_Memories env) result)
  ∧ (∀ query options,
       (Search env query options w).1
       = parseResponse env (json_Unmarshal_Memories env) result)
  ∧ (∀ memoryID,
       (Delete env memoryID w).1
       = parseResponse env (json_Unmarshal_MessageResponse env) result)
  ∧ (∀ options,
       (DeleteAll env options w).1
       = parseResponse env (json_Unmarshal_MessageResponse env) result)
  ∧ (∀ memoryID,
       (History env memoryID w).1 = parseResponse env (json_Unmarshal_History env) result)
  ∧ (Users env w).1 = parseResponse env (json_Unmarshal_AllUsers env) result
  ∧ (∀ data,
       (DeleteUser env data w).1
       = parseResponse env (json_Unmarshal_MessageResponse env) result)
  ∧ (∀ memories,
       (BatchUpdate env memories w).1 = Ok (batch_result "Batch update completed" result))
  ∧ (∀ memoryIDs,
       (BatchDelete env memoryIDs w).1 = Ok (batch_result "Batch delete completed" result)).
Proof.
  intros Hest Hnext Hstatus Hjson. pose proof Hest as [_ Htel].
  assert (∀ method endpoint body,
            fetchWithErrorHandling env (client w0) (calls w0) method endpoint body
            = Ok result) as Hfetch
    by (intros; by eapply fetch_2xx).
  split; [exact Hfetch|].
  repeat apply conj; intros; from_session env w w0 Hest.
  - eapply single_call_answer; [by apply Add_run | done].
  - eapply single_call_answer; [by apply Update_run | done].
  - eapply single_call_answer; [by apply Get_run | done].
  - eapply single_call_answer; [by apply GetAll_run | done].
  - eapply single_call_answer; [by apply Search_run | done].
  - eapply single_call_answer; [by apply Delete_run | done].
  - eapply single_call_answer; [by apply DeleteAll_run | done].
  - eapply single_call_answer; [by apply History_run | done].
  - eapply single_call_answer; [by apply Users_run | done].
  - destruct (DeleteUser_run env data w0 Htel) as (endpoint & Hrun).
    eapply single_call_answer; done.
  - destruct (BatchUpdate_run env memories w0 Htel) as (body & Hrun).
    by rewrite (single_call_answer _ _ _ _ _ result Hrun).
  - destruct (BatchDelete_run env memoryIDs w0 Htel) as (body & Hrun).
    by rewrite (single_call_answer _ _ _ _ _ result Hrun).
Qed.

Lemma a_2xx_answer_is_decoded_witness :
  let env := env_of (always (DoResponse 204 (Ok "{}"))) [alice] in
  let w := world_of a_client in
  established_by env w w
  ∧ (Delete env "m1" w).1 = Ok (MessageResponse.mk "ok")
  ∧ (BatchDelete env ["m1"; "m2"] w).1 = Ok "Batch delete completed".
Proof.
  intros env w.
  assert (established_by env w w) as Hest by (apply established_refl; discriminate).
  split; [exact Hest|].
  destruct (a_2xx_answer_is_decoded env w w 204 "{}"
              (VMap {[ "status" := VString "ok";
                       "user_email" := VString "someone@example.com" ]}) Hest)
    as (_ & _ & _ & _ & _ & _ & HDelete & _ & _ & _ & _ & _ & HBatch).
  { apply next_exchange_always. } { lia. } { reflexivity. }
  rewrite HDelete, HBatch. split; reflexivity.
Defined.

(** X14. [Delete], [DeleteAll] and [DeleteUser] decode the answer of the
    server to a message object after the call was made. When the server
    accepts the request (2xx, a JSON body) and the body is not such an
    object, each of them returns a plain error "failed to unmarshal
    response: ...", which is not an API error, although the deletion was
    sent and accepted. *)
Theorem accepted_deletion_reported_as_failed env w w0 result jsonBytes err :
  established_by env w w0 →
  (∀ method endpoint body,
     fetchWithErrorHandling env (client w0) (calls w0) method endpoint body = Ok result) →
  json_Marshal env result = Ok jsonBytes →
  json_Unmarshal_MessageResponse env jsonBytes = Err err →
  let e := WrapError "failed to unmarshal response: " err in
  is_APIError e = false
  ∧ (∀ memoryID,
       (Delete env memoryID w).1 = Err e
       ∧ calls (Delete env memoryID w).2
         = calls w0 ++ [mkCall "DELETE" ("/v1/memories/" +:+ memoryID +:+ "/") VNil])
  ∧ (∀ options,
       (DeleteAll env options w).1 = Err e
       ∧ count_DELETE (calls (DeleteAll env options w).2)
         = (count_DELETE (calls w0) + 1)%nat)
  ∧ (∀ data,
       (DeleteUser env data w).1 = Err e
       ∧ count_DELETE (calls (DeleteUser env data w).2)
         = (count_DELETE (calls w0) + 1)%nat).
Proof.
  intros Hest Hfetch Hmarshal Hunmarshal e. pose proof Hest as [_ Htel].
  assert (parseResponse env (json_Unmarshal_MessageResponse env) result = Err e) as Hparse.
  { unfold parseResponse. by rewrite Hmarshal, Hunmarshal. }
  split; [done|].
  repeat apply conj; intros; from_session env w w0 Hest; split.
  - rewrite <- Hparse. eapply single_call_answer; [by apply Delete_run | done].
  - by destruct (Delete_run env memoryID w0 Htel) as (_ & -> & _).
  - rewrite <- Hparse. eapply single_call_answer; [by apply DeleteAll_run | done].
  - destruct (DeleteAll_run env options w0 Htel) as (_ & -> & _).
    by rewrite count_DELETE_app.
  - rewrite <- Hparse. destruct (DeleteUser_run env data w0 Htel) as (endpoint & Hrun).
    eapply single_call_answer; done.
  - destruct (DeleteUser_run env data w0 Htel) as (endpoint & _ & -> & _).
    by rewrite count_DELETE_app.
Qed.

Lemma accepted_deletion_reported_as_failed_witness :
  let w := world_of a_client in
  established_by env_without_message w w
  ∧ (Delete env_without_message "m1" w)
    = (Err (WrapError "failed to unmarshal response: "
              (LibError "json: cannot unmarshal array into Go value of type client.MessageResponse")),
       mkWorld a_client [mkCall "DELETE" "/v1/memories/m1/" VNil] []).
Proof.
  intros w.
  assert (established_by env_without_message w w) as Hest
    by (apply established_refl; discriminate).
  split; [exact Hest|].
  destruct (accepted_deletion_reported_as_failed env_without_message w w (VList []) "[]"
              (LibError "json: cannot unmarshal array into Go value of type client.MessageResponse")
              Hest)
    as (_ & HDelete & _).
  { intros method endpoint body. unfold fetchWithErrorHandling. by destruct (is_nil body). }
  { reflexivity. } { reflexivity. }
  destruct (HDelete "m1") as [Hresult Hcalls].
  destruct (Delete env_without_message "m1" w) as [r [c cs out]] eqn:Hrun.
  simpl in Hresult, Hcalls. subst r cs.
  assert (c = a_client ∧ out = []) as [-> ->]; [|reflexivity].
  vm_compute in Hrun. by injection Hrun as <- <-.
Defined.

(** ** The operations on one memory, the batches and the entities *)

(** X15. Once the session is established, [Get], [Update] and [Delete] each
    make one call to the endpoint of the memory, /v1/memories/<id>/, with
    the methods GET, PUT and DELETE, and [History] one GET of
    /v1/memories/<id>/history/. The identifier is put in the path as it
    is given, without a check: an empty one addresses /v1/memories//. The
    body of [Update] has the text and nothing else; the others have no
    body. Each returns the error of the transport, or else what
    [parseResponse] makes of the answer. *)
Theorem memory_operations_address_the_memory env w w0 memoryID :
  established_by env w w0 →
  let answer method endpoint body :=
    fetchWithErrorHandling env (client w0) (calls w0) method endpoint body in
  let target := "/v1/memories/" +:+ memoryID +:+ "/" in
  (calls (Get env memoryID w).2 = calls w0 ++ [mkCall "GET" target VNil]
   ∧ (Get env memoryID w).1
     = and_then (answer "GET" target VNil) (parseResponse env (json_Unmarshal_Memory env)))
  ∧ (∀ message,
       let body := VMap {[ "text" := VString message ]} in
       calls (Update env memoryID message w).2 = calls w0 ++ [mkCall "PUT" target body]
       ∧ (Update env memoryID message w).1
         = and_then (answer "PUT" target body)
                    (parseResponse env (json_Unmarshal_Memories env)))
  ∧ (calls (Delete env memoryID w).2 = calls w0 ++ [mkCall "DELETE" target VNil]
     ∧ (Delete env memoryID w).1
       = and_then (answer "DELETE" target VNil)
                  (parseResponse env (json_Unmarshal_MessageResponse env)))
  ∧ (let history := "/v1/memories/" +:+ memoryID +:+ "/history/" in
     calls (History env memoryID w).2 = calls w0 ++ [mkCall "GET" history VNil]
     ∧ (History env memoryID w).1
       = and_then (answer "GET" history VNil)
                  (parseResponse env (json_Unmarshal_History env))).
Proof.
  intros Hest answer target. pose proof Hest as [_ Htel]. subst answer target.
  split; [|split; [|split]].
  - from_session env w w0 Hest.
    by destruct (Get_run env memoryID w0 Htel) as (-> & -> & _).
  - intros message body. subst body. from_session env w w0 Hest.
    by destruct (Update_run env memoryID message w0 Htel) as (-> & -> & _).
  - from_session env w w0 Hest.
    by destruct (Delete_run env memoryID w0 Htel) as (-> & -> & _).
  - intros history. subst history. from_session env w w0 Hest.
    by destruct (History_run env memoryID w0 Htel) as (-> & -> & _).
Qed.

Lemma memory_operations_address_the_memory_witness :
  let env := env_of (always accepted) [] in
  let w := world_of fresh_client in
  let w0 := (Ping env w).2 in
  established_by env w w0
  ∧ map (λ call, (call_method call, call_endpoint call))
        (calls (History env "m1" w).2)
    = [("GET", "/v1/ping/"); ("GET", "/v1/memories/m1/history/")]
  ∧ map (λ call, (call_method call, call_endpoint call))
        (calls (Delete env "" w).2)
    = [("GET", "/v1/ping/"); ("DELETE", "/v1/memories//")].
Proof.
  intros env w w0.
  assert (established_by env w w0) as Hest by (by split).
  split; [exact Hest|].
  destruct (memory_operations_address_the_memory env w w0 "m1" Hest)
    as (_ & _ & _ & [HHistory _]).
  destruct (memory_operations_address_the_memory env w w0 "" Hest)
    as (_ & _ & [HDelete _] & _).
  split; [by rewrite HHistory | by rewrite HDelete].
Defined.

Lemma BatchUpdate_call env memories w :
  MemoryClient.telemetryID (client w) ≠ "" →
  single_call env (BatchUpdate env memories) w
    (mkCall "PUT" "/v1/batch/"
       (VMap {[ "memories" :=
                  VMaps (map (λ memory,
                                {[ "memory_id" := VString (MemoryUpdateBody.MemoryID memory);
                                   "text" := VString (MemoryUpdateBody.Text memory) ]})
                             memories) ]}))
    (λ response, Ok (batch_result "Batch update completed" response)).
Proof. unfold BatchUpdate. run_operation w Htel. Qed.

Lemma BatchDelete_call env memoryIDs w :
  MemoryClient.telemetryID (client w) ≠ "" →
  single_call env (BatchDelete env memoryIDs) w
    (mkCall "DELETE" "/v1/batch/"
       (VMap {[ "memories" :=
                  VMaps (map (λ memoryID, {[ "memory_id" := VString memoryID ]})
                             memoryIDs) ]}))
    (λ response, Ok (batch_result "Batch delete completed" response)).
Proof. unfold BatchDelete. run_operation w Htel. Qed.

Lemma batch_result_cases fallback response :
  batch_result fallback response
  = match response with
    | VString result => result
    | VMap responseMap =>
        match responseMap !! "message" with
        | Some (VString message) => message
        | _ => fallback
        end
    | _ => fallback
    end.
Proof.
  unfold batch_result, index. destruct response; try done.
  simpl. by destruct (m !! "message") as [[]|].
Qed.

(** X16. Once the session is established, [BatchUpdate] and [BatchDelete]
    each make one call to /v1/batch/, a PUT and a DELETE, whose body
    lists under [memories] one object for each memory given, in the order
    given (none for an empty list, which is sent all the same). When the
    call succeeds neither fails: the result is the answer itself if it is
    a string, else its [message] if it is an object that has one as a
    string, else a fixed text. *)
Theorem batch_operations_send_every_memory env w w0 :
  established_by env w w0 →
  let answer method body :=
    fetchWithErrorHandling env (client w0) (calls w0) method "/v1/batch/" body in
  let result_of fallback (answered : Result Value) : Result string :=
    match answered with
    | Ok (VString result) => Ok result
    | Ok (VMap responseMap) =>
        Ok match responseMap !! "message" with
           | Some (VString message) => message
           | _ => fallback
           end
    | Ok _ => Ok fallback
    | Err e => Err e
    end in
  (∀ memories, ∃ bodies : list (gmap string Value),
     length bodies = length memories
     ∧ (∀ i memory,
          memories !! i = Some memory →
          bodies !! i
          = Some {[ "memory_id" := VString (MemoryUpdateBody.MemoryID memory);
                    "text" := VString (MemoryUpdateBody.Text memory) ]})
     ∧ calls (BatchUpdate env memories w).2
       = calls w0 ++ [mkCall "PUT" "/v1/batch/" (VMap {[ "memories" := VMaps bodies ]})]
     ∧ (BatchUpdate env memories w).1
       = result_of "Batch update completed"
                   (answer "PUT" (VMap {[ "memories" := VMaps bodies ]})))
  ∧ (∀ memoryIDs, ∃ bodies : list (gmap string Value),
       length bodies = length memoryIDs
       ∧ (∀ i memoryID,
            memoryIDs !! i = Some memoryID →
            bodies !! i = Some {[ "memory_id" := VString memoryID ]})
       ∧ calls (BatchDelete env memoryIDs w).2
         = calls w0 ++ [mkCall "DELETE" "/v1/batch/" (VMap {[ "memories" := VMaps bodies ]})]
       ∧ (BatchDelete env memoryIDs w).1
         = result_of "Batch delete completed"
                     (answer "DELETE" (VMap {[ "memories" := VMaps bodies ]}))).
Proof.
  intros Hest answer result_of. pose proof Hest as [_ Htel]. subst answer result_of.
  split.
  - intros memories. eexists. split; [apply length_map|].
    split; [intros i memory Hi; by rewrite list_lookup_fmap, Hi|].
    from_session env w w0 Hest.
    destruct (BatchUpdate_call env memories w0 Htel) as (-> & -> & _).
    split; [done|]. cbn [call_method call_endpoint call_body].
    destruct (fetchWithErrorHandling _ _ _ _ _ _) as [response|e]; [|done].
    simpl. rewrite batch_result_cases. by destruct response.
  - intros memoryIDs. eexists. split; [apply length_map|].
    split; [intros i memoryID Hi; by rewrite list_lookup_fmap, Hi|].
    from_session env w w0 Hest.
    destruct (BatchDelete_call env memoryIDs w0 Htel) as (-> & -> & _).
    split; [done|]. cbn [call_method call_endpoint call_body].
    destruct (fetchWithErrorHandling _ _ _ _ _ _) as [response|e]; [|done].
    simpl. rewrite batch_result_cases. by destruct response.
Qed.

Lemma batch_operations_send_every_memory_witness :
  let env := env_answering (VMap {[ "message" := VString "2 memories deleted" ]}) in
  let w := world_of a_client in
  established_by env w w
  ∧ (BatchDelete env ["m1"; "m2"] w).1 = Ok "2 memories deleted"
  ∧ (BatchUpdate env [] w).1 = Ok "2 memories deleted"
  ∧ length (calls (BatchUpdate env [] w).2) = 1%nat.
Proof.
  intros env w.
  assert (established_by env w w) as Hest by (apply established_refl; discriminate).
  split; [exact Hest|].
  destruct (batch_operations_send_every_memory env w w Hest) as [HUpdate HDelete].
  destruct (HDelete ["m1"; "m2"]) as (bodies & _ & _ & _ & ->).
  destruct (HUpdate []) as (bodies' & _ & _ & -> & ->).
  repeat split.
Defined.

(** X17. [DeleteUser] deletes /v1/entities/<type>/<id>/, where an empty
    entity type stands for "user": leaving the type out is the same call
    as naming the type "user". Once the session is established this is
    the one call it makes; the organization and the project of the client
    are not part of it. *)
Theorem DeleteUser_defaults_to_user env data :
  let entityType :=
    if String.eqb (DeleteUserData.EntityType data) "" then "user"
    else DeleteUserData.EntityType data in
  let endpoint := "/v1/entities/" +:+ entityType +:+ "/"
                    +:+ fmt_d (DeleteUserData.EntityID data) +:+ "/" in
  DeleteUser env (DeleteUserData.mk (DeleteUserData.EntityID data) "")
  = DeleteUser env (DeleteUserData.mk (DeleteUserData.EntityID data) "user")
  ∧ ∀ w w0,
      established_by env w w0 →
      calls (DeleteUser env data w).2 = calls w0 ++ [mkCall "DELETE" endpoint VNil]
      ∧ (DeleteUser env data w).1
        = and_then (fetchWithErrorHandling env (client w0) (calls w0) "DELETE" endpoint VNil)
                   (parseResponse env (json_Unmarshal_MessageResponse env)).
Proof.
  intros entityType endpoint. split; [reflexivity|].
  intros w w0 Hest. pose proof Hest as [_ Htel]. from_session env w w0 Hest.
  assert (single_call env (DeleteUser env data) w0 (mkCall "DELETE" endpoint VNil)
            (parseResponse env (json_Unmarshal_MessageResponse env))) as (-> & -> & _);
    [|done].
  revert Htel. clear Hest. unfold DeleteUser. run_operation w0 Htel.
Qed.

(** X18. Only the API version "v2" selects the second version of the API:
    with any other version in the options, [GetAll] issues the GET of
    /v1/memories/ without a body and [Search] posts to
    /v1/memories/search/, as they do when no version is given. [Add]
    posts to /v1/memories/ whatever the version, which it passes on in
    the payload as [api_version] and [version]. *)
Theorem other_versions_are_treated_as_v1 env c version opts :
  MemoryOptions.APIVersion (SearchOptions.Base opts) = Some version →
  version ≠ APIVersionV2 →
  let request := GetAll_request env c [opts] in
  call_method request = "GET"
  ∧ path_of (call_endpoint request) = "/v1/memories/"
  ∧ call_body request = VNil
  ∧ Search_endpoint opts = "/v1/memories/search/"
  ∧ (∀ messages,
       Add_payload c messages [SearchOptions.Base opts] !! "api_version"
       = Some (VAPIVersion version)
       ∧ Add_payload c messages [SearchOptions.Base opts] !! "version"
         = Some (VAPIVersion version)).
Proof.
  intros Hversion Hne request. subst request.
  assert (is_v2 (SearchOptions.Base opts) = false) as Hv1.
  { unfold is_v2. rewrite Hversion. by apply String.eqb_neq. }
  rewrite GetAll_request_shape. cbn [first_or]. rewrite Hv1.
  cbn [call_method call_endpoint call_body].
  match goal with
  | |- context [target_of "/v1/memories/" ?pairs] =>
      destruct (query_pairs_joined "/v1/memories/" pairs) as [_ ->]
  end; [done | | ].
  { apply Forall_app. split; [apply Encode_pairs_safe | apply pagination_pairs_safe]. }
  do 3 (split; [done|]).
  split; [unfold Search_endpoint; by rewrite Hv1|].
  intros messages. unfold Add_payload. cbn [first_or].
  destruct (setOrgProject_keeps c (SearchOptions.Base opts)) as (Hkept & _).
  rewrite Hkept, Hversion.
  destruct (preparePayload_lookup messages
              (MemoryOptions.set_Version (Some version)
                 (setOrgProject c (SearchOptions.Base opts)))) as (_ & Hfields).
  split.
  - etrans; [exact (Hfields FAPIVersion)|]. cbn [in_payload field_value].
    cbn [MemoryOptions.set_Version MemoryOptions.APIVersion]. by rewrite Hkept, Hversion.
  - etrans; [exact (Hfields FVersion)|]. done.
Qed.

Lemma other_versions_are_treated_as_v1_witness :
  let opts := SearchOptions.set_Base
                (MemoryOptions.set_Version None
                   (MemoryOptions.mk (Some "V2") None (Some "alice") None None None
                      None None None None VNil VNil None None None None None None
                      None None None None None None None))
                SearchOptions.zero in
  let request := GetAll_request (env_of (always accepted) []) a_client [opts] in
  "V2" ≠ APIVersionV2
  ∧ (call_method request, call_endpoint request) = ("GET", "/v1/memories/?user_id=alice")
  ∧ Search_endpoint opts = "/v1/memories/search/".
Proof.
  intros opts request.
  assert ("V2" ≠ APIVersionV2) as Hne by discriminate.
  split; [exact Hne|].
  destruct (other_versions_are_treated_as_v1 (env_of (always accepted) []) a_client
              "V2" opts eq_refl Hne) as (Hmethod & _ & _ & HSearch & _).
  split; [|exact HSearch].
  subst request. rewrite (surjective_pairing (_, _)). cbn [fst snd].
  rewrite Hmethod. f_equal.
Defined.

Lemma delete_each_client env requestOptions toDelete w :
  client (delete_each env requestOptions toDelete w).2 = client w.
Proof.
  revert w. induction toDelete as [|entity rest IH]; intros w; [done|].
  simpl. rewrite bind_run. unfold on_error, fetch.
  destruct (fetchWithErrorHandling _ _ _ _ _ _); [|done].
  by rewrite IH.
Qed.

(** X19. Once the session is established, [DeleteUsers] given a parameter
    that names an entity deletes that entity and does nothing else: it
    does not list the entities, it looks at the first parameters given
    only, and it does not look at the answer of the server beyond its
    success. It returns the message "Entity deleted successfully." when
    the deletion succeeds and otherwise an API error of status code 0
    whose message names the entity and quotes the error of the transport;
    the client is the same afterwards. *)
Theorem DeleteUsers_deletes_the_named_entity env w w0 p rest type name :
  established_by env w w0 →
  first_set (by_priority p) = Some (type, name) →
  let call := delete_call env (client w0) (entity_of type name) in
  calls (DeleteUsers env (p :: rest) w).2 = calls w0 ++ [call]
  ∧ (DeleteUsers env (p :: rest) w).1
    = match fetchWithErrorHandling env (client w0) (calls w0) "DELETE"
              (call_endpoint call) VNil with
      | Ok _ => Ok (MessageResponse.mk "Entity deleted successfully.")
      | Err err =>
          Err (NewAPIError ("Failed to delete " +:+ type +:+ " " +:+ name +:+ ": "
                              +:+ Error err) 0 "")
      end
  ∧ client (DeleteUsers env (p :: rest) w).2 = client w0
  ∧ call_endpoint call
    = target_of ("/v2/entities/" +:+ type +:+ "/" +:+ name +:+ "/")
                (organization_pairs (Sprint_other env) (client w0)).
Proof.
  intros Hest Hfirst call. pose proof Hest as [_ Htel]. subst call.
  rewrite !(DeleteUsers_after_session env _ w w0 Hest).
  assert (selected_entity (first_or DeleteUsersParams.zero (p :: rest))
          = Some (entity_of type name)) as Hsel.
  { cbn [first_or]. by rewrite selected_entity_first_set, Hfirst. }
  destruct (DeleteUsers_selected_calls env (p :: rest) _ w0 Htel Hsel) as [Hcalls Hresult].
  split; [exact Hcalls|].
  split.
  { rewrite Hresult. cbn [delete_call call_endpoint].
    by rewrite entity_of_type, entity_of_name. }
  split.
  - destruct (DeleteUsers_selected_run env (p :: rest) _ w0 Htel Hsel) as [out ->].
    match goal with
    | |- context [delete_each env ?ro ?l ?w1] =>
        pose proof (delete_each_client env ro l w1) as Hclient;
        destruct (delete_each env ro l w1) as [[[]|e] w2]
    end; exact Hclient.
  - apply delete_endpoint_organization.
Qed.

Lemma DeleteUser_defaults_to_user_witness :
  let env := env_of (always accepted) [] in
  let w := world_of a_client in
  established_by env w w
  ∧ calls (DeleteUser env (DeleteUserData.mk 7 "") w).2
    = [mkCall "DELETE" "/v1/entities/user/7/" VNil]
  ∧ calls (DeleteUser env (DeleteUserData.mk 7 "agent") w).2
    = [mkCall "DELETE" "/v1/entities/agent/7/" VNil].
Proof.
  intros env w.
  assert (established_by env w w) as Hest by (apply established_refl; discriminate).
  split; [exact Hest|].
  destruct (DeleteUser_defaults_to_user env (DeleteUserData.mk 7 "")) as [_ Huser].
  destruct (DeleteUser_defaults_to_user env (DeleteUserData.mk 7 "agent")) as [_ Hagent].
  destruct (Huser w w Hest) as [-> _]. destruct (Hagent w w Hest) as [-> _].
  split; reflexivity.
Defined.

Lemma DeleteUsers_deletes_the_named_entity_witness :
  let env := env_of (always accepted) [alice; bot] in
  let w := world_of both_forms_client in
  established_by env w w
  ∧ first_set (by_priority (only_user "a/b c")) = Some ("user", "a/b c")
  ∧ DeleteUsers env [only_user "a/b c"; user_and_agent] w
    = (Ok (MessageResponse.mk "Entity deleted successfully."),
       mkWorld both_forms_client
         [mkCall "DELETE" "/v2/entities/user/a/b c/?org_id=org_1&project_id=42" VNil] []).
Proof.
  intros env w.
  assert (established_by env w w) as Hest by (apply established_refl; discriminate).
  split; [exact Hest|]. split; [reflexivity|].
  destruct (DeleteUsers_deletes_the_named_entity env w w (only_user "a/b c")
              [user_and_agent] "user" "a/b c" Hest eq_refl)
    as (Hcalls & Hresult & Hclient & _).
  destruct (DeleteUsers env [only_user "a/b c"; user_and_agent] w) as [r [c cs out]] eqn:Hrun.
  cbn [fst snd client calls] in *. subst r c cs.
  assert (out = []) as ->; [|reflexivity].
  vm_compute in Hrun. by injection Hrun as <-.
Defined.

Lemma entities_are_addressed_within_the_organization_witness :
  let env := env_of (always accepted) [] in
  Users_endpoint env both_forms_client = "/v1/entities/?org_id=org_1&project_id=42"
  ∧ Users_endpoint env a_client = "/v1/entities/?"
  ∧ query_pairs (Users_endpoint env half_configured_client) = []
  ∧ established_by env (world_of a_client) (world_of a_client)
  ∧ calls (Users env (world_of a_client)).2 = [mkCall "GET" "/v1/entities/?" VNil].
Proof.
  intros env.
  assert (established_by env (world_of a_client) (world_of a_client)) as Hest
    by (apply established_refl; discriminate).
  destruct (entities_are_addressed_within_the_organization env both_forms_client)
    as (Hboth & _).
  destruct (entities_are_addressed_within_the_organization env a_client)
    as (Hnone & _ & _ & _ & Hcalls).
  destruct (entities_are_addressed_within_the_organization env half_configured_client)
    as (_ & _ & Hhalf & _).
  split; [by rewrite Hboth|]. split; [by rewrite Hnone|]. split; [by rewrite Hhalf|].
  split; [exact Hest|]. by rewrite (Hcalls _ _ Hest eq_refl), Hnone.
Defined.

(** ** The text of the errors *)

(** X20. The API error that [DeleteUsers] returns for a deletion that the
    server refused has the status code 0, so that its text shows no
    status of its own; the status of the answer is found in the text
    only, which quotes the text of the error of the transport: "API
    request failed: Failed to delete <type> <name>: API request failed
    (status <code>): <body>". *)
Theorem refused_deletion_names_the_status_in_its_text env w w0 p type name status respBody :
  established_by env w w0 →
  first_set (by_priority p) = Some (type, name) →
  next_exchange env w0 (DoResponse status (Ok respBody)) →
  300 ≤ status →
  ∃ e,
    (DeleteUsers env [p] w).1 = Err (APIErr e)
    ∧ APIError.StatusCode e = 0
    ∧ APIError.Body e = ""
    ∧ Error (APIErr e)
      = "API request failed: Failed to delete " +:+ type +:+ " " +:+ name
          +:+ ": API request failed (status " +:+ fmt_d status +:+ "): " +:+ respBody
    ∧ Error (NewAPIError respBody status respBody)
      = "API request failed (status " +:+ fmt_d status +:+ "): " +:+ respBody.
Proof.
  intros Hest Hfirst Hnext Hstatus. pose proof Hest as [_ Htel].
  rewrite (DeleteUsers_after_session env _ w w0 Hest).
  assert (selected_entity (first_or DeleteUsersParams.zero [p])
          = Some (entity_of type name)) as Hsel.
  { cbn [first_or]. by rewrite selected_entity_first_set, Hfirst. }
  destruct (DeleteUsers_selected_calls env [p] _ w0 Htel Hsel) as [_ Hresult].
  rewrite (fetch_non_2xx env w0 status respBody) in Hresult by (done || lia).
  rewrite entity_of_type, entity_of_name in Hresult.
  eexists. split; [exact Hresult|]. split; [done|]. split; [done|].
  assert (Error (NewAPIError respBody status respBody)
          = "API request failed (status " +:+ fmt_d status +:+ "): " +:+ respBody) as Htext.
  { cbn [Error NewAPIError APIError.StatusCode APIError.Message].
    assert ((0 <? status) = true) as -> by lia. done. }
  split; [|exact Htext].
  cbn [Error APIError.StatusCode APIError.Message]. change (0 <? 0) with false.
  cbv beta iota. fold (NewAPIError respBody status respBody). by rewrite Htext.
Qed.

Lemma refused_deletion_names_the_status_in_its_text_witness :
  let env := env_of (always unauthorized) [] in
  let w := world_of a_client in
  established_by env w w
  ∧ ∃ e, (DeleteUsers env [only_user "alice"] w).1 = Err e
         ∧ Error e = "API request failed: Failed to delete user alice: API request failed (status 401): denied".
Proof.
  intros env w.
  assert (established_by env w w) as Hest by (apply established_refl; discriminate).
  split; [exact Hest|].
  destruct (refused_deletion_names_the_status_in_its_text env w w (only_user "alice")
              "user" "alice" 401 "denied" Hest eq_refl)
    as (e & Hresult & _ & _ & Htext & _).
  { apply next_exchange_always. } { lia. }
  exists (APIErr e). split; [exact Hresult|]. rewrite Htext. reflexivity.
Defined.

(** ** The request that is sent *)

Lemma headers_copied (headers : gmap string string) :
  map_fold (λ key value h, <[key := value]> h) ∅ headers = headers.
Proof.
  apply (map_fold_weak_ind (λ r m, r = m)); [done|].
  intros key value m r _ ->. done.
Qed.

(** X21. [fetchWithErrorHandling] sends one request: its method is the one
    given, its URL the host of the client followed by the endpoint, its
    headers those of the client, with Mem0-User-ID set to the session when
    there is one, and its body the JSON encoding of the body given, or no
    body when none is given. The result is decided by the answer to that
    request. A body that cannot be encoded, and then a request that cannot
    be constructed, end the function with their own wrapped error before
    the server is asked. *)
Theorem the_request_carries_the_headers env c history method endpoint body :
  let url := MemoryClient.host c +:+ endpoint in
  let encoded := if is_nil body then Ok None
                 else match json_Marshal env body with
                      | Ok jsonBody => Ok (Some jsonBody)
                      | Err err => Err err
                      end in
  ∃ header : gmap string string,
    (∀ key, key ≠ "Mem0-User-ID" → header !! key = MemoryClient.headers c !! key)
    ∧ header !! "Mem0-User-ID"
      = (if String.eqb (MemoryClient.telemetryID c) ""
         then MemoryClient.headers c !! "Mem0-User-ID"
         else Some (MemoryClient.telemetryID c))
    ∧ fetchWithErrorHandling env c history method endpoint body
      = match encoded with
        | Err err => Err (WrapError "failed to marshal request body: " err)
        | Ok reqBody =>
            match http_NewRequest env method url with
            | Some err => Err (WrapError "failed to create request: " err)
            | None =>
                match http_Do env history (mkRequest method url header reqBody) with
                | DoError err => Err (WrapError "request failed: " err)
                | DoResponse _ (Err err) =>
                    Err (WrapError "failed to read response body: " err)
                | DoResponse status (Ok respBody) =>
                    if (status <? 200) || (300 <=? status)
                    then Err (NewAPIError respBody status respBody)
                    else match json_Unmarshal env respBody with
                         | Ok result => Ok result
                         | Err err => Err (WrapError "failed to parse response JSON: " err)
                         end
                end
            end
        end.
Proof.
  intros url encoded. subst url encoded.
  exists (if String.eqb (MemoryClient.telemetryID c) "" then MemoryClient.headers c
          else <["Mem0-User-ID" := MemoryClient.telemetryID c]> (MemoryClient.headers c)).
  split; [|split].
  - intros key Hkey. destruct (String.eqb _ _); [done|]. by rewrite lookup_insert_ne.
  - destruct (String.eqb _ _); [done|]. by rewrite lookup_insert_eq.
  - unfold fetchWithErrorHandling. rewrite headers_copied.
    destruct (is_nil body); [|destruct (json_Marshal env body)]; try done;
      destruct (http_NewRequest env method _); try done;
      destruct (http_Do _ _ _) as [|? []]; try done;
      destruct (_ || _); try done; by destruct (json_Unmarshal env _).
Qed.

(** ** The helpers of the tests *)

Lemma charset_get k :
  0 ≤ k < 36 →
  ∃ c, String.get (Z.to_nat k) charset = Some c
       ∧ shouldEscape c = false
       ∧ byte_in "a" "z" c || byte_in "0" "9" c = true.
Proof.
  intros Hk.
  assert (Z.to_nat k < 36)%nat as Hlt by lia.
  generalize dependent (Z.to_nat k). intros n Hn.
  do 36 (destruct n as [|n];
         [eexists; split; [reflexivity | split; by vm_compute]|]).
  lia.
Qed.

Lemma QueryEscape_unreserved c s :
  shouldEscape c = false → QueryEscape s = s → QueryEscape (String c s) = String c s.
Proof.
  intros Hc Hs. simpl. rewrite Hc, Hs.
  destruct (Ascii.eqb_spec c " ") as [->|]; [by vm_compute in Hc | done].
Qed.

Lemma fill_spec Source (rand_Intn : Z → Source → Z * Source) n src :
  (∀ bound src, 0 < bound → 0 ≤ (rand_Intn bound src).1 < bound) →
  ∃ b, (fill Source rand_Intn n src).1 = Some b
       ∧ length b = n
       ∧ Forall (λ c, byte_in "a" "z" c || byte_in "0" "9" c = true) b
       ∧ QueryEscape (String.string_of_list_ascii b) = String.string_of_list_ascii b.
Proof.
  intros Hrand. revert src. induction n as [|n IH]; intros src.
  - exists []. repeat split. constructor.
  - cbn [fill]. change (Z.of_nat (String.length charset)) with 36.
    pose proof (Hrand 36 src eq_refl) as Hk.
    destruct (rand_Intn 36 src) as [k src1]. cbn [fst] in Hk.
    assert ((k <? 0) = false) as -> by lia.
    destruct (charset_get k Hk) as (c & -> & Hc & Hclass).
    destruct (IH src1) as (b & Hb & Hlen & Hbytes & Hescape).
    destruct (fill Source rand_Intn n src1) as [rest src2]. simpl in Hb. subst rest.
    exists (c :: b). cbn [fst fmap option_fmap option_map]. split; [done|].
    split; [by rewrite <- Hlen|].
    split; [by constructor|].
    by apply QueryEscape_unreserved.
Qed.

(** X22. Whatever the random source draws, within the range that
    [rand.Intn] promises, [randomString] does not panic and returns a
    string of 20 bytes, each a lowercase letter or a digit; such a string
    is left unchanged by [url.QueryEscape], so that a user id made of it
    appears in a query as it is. *)
Theorem randomString_is_twenty_safe_bytes Source (rand_Intn : Z → Source → Z * Source) src :
  (∀ bound src, 0 < bound → 0 ≤ (rand_Intn bound src).1 < bound) →
  ∃ s, (randomString Source rand_Intn src).1 = Some s
       ∧ String.length s = 20%nat
       ∧ Forall (λ c, byte_in "a" "z" c || byte_in "0" "9" c = true)
                (String.list_ascii_of_string s)
       ∧ QueryEscape s = s.
Proof.
  intros Hrand. unfold randomString.
  destruct (fill_spec Source rand_Intn 20 src Hrand)
    as (b & Hb & Hlen & Hbytes & Hescape).
  destruct (fill Source rand_Intn 20 src) as [rest src']. simpl in Hb. subst rest.
  exists (String.string_of_list_ascii b). split; [done|].
  split; [|split; [|done]].
  - rewrite <- Hlen. clear. induction b as [|c b IH]; simpl; congruence.
  - by rewrite String.list_ascii_of_string_of_list_ascii.
Qed.

Lemma randomString_is_twenty_safe_bytes_witness :
  (∀ bound seed, 0 < bound → 0 ≤ (lcg_Intn bound seed).1 < bound)
  ∧ ∃ s, (randomString Z lcg_Intn 42).1 = Some s
         ∧ String.length s = 20%nat
         ∧ Forall (λ c, byte_in "a" "z" c || byte_in "0" "9" c = true)
                  (String.list_ascii_of_string s).
Proof.
  assert (∀ bound seed, 0 < bound → 0 ≤ (lcg_Intn bound seed).1 < bound) as Hrand.
  { intros bound seed Hbound. unfold lcg_Intn. simpl. by apply Z.mod_pos_bound. }
  split; [exact Hrand|].
  destruct (randomString_is_twenty_safe_bytes Z lcg_Intn 42 Hrand)
    as (s & Hs & Hlen & Hbytes & _).
  exists s. exact (conj Hs (conj Hlen Hbytes)).
Defined.

Lemma snoc_if_nil {A} (b : bool) (l : list A) x :
  (if b then l ++ [x] else l) = [] ↔ b = false ∧ l = [].
Proof.
  destruct b.
  - split; [|by intros [? _]]. intros H. by destruct l.
  - split; [by intros -> | by intros [_ ->]].
Qed.

Lemma no_empty_category (categories : list string) :
  flat_map (λ category : string,
              if String.eqb category ""
              then ["Category should be a non-empty string"] else [])
           categories = []
  ↔ Forall (λ category, category ≠ "") categories.
Proof.
  induction categories as [|category l IH]; simpl.
  - split; [constructor | done].
  - destruct (String.eqb_spec category "") as [->|Hne]; simpl.
    + split; [done|]. by intros [? _]%Forall_cons.
    + rewrite IH. split; [by constructor | by intros [_ ?]%Forall_cons].
Qed.

(** X23. [validateMemoryObject] reports no failure exactly when the memory
    has an id, a content that is not empty and the expected user, none of
    its categories is empty, and neither of its dates, if present, is
    the zero time. A memory without categories and without dates passes;
    a missing content or user fails. *)
Theorem validateMemoryObject_accepts sprint memory expectedUserID :
  validateMemoryObject sprint memory expectedUserID = []
  ↔ Memory.ID memory ≠ ""
    ∧ (∃ content, Memory.Memory memory = Some content ∧ content ≠ "")
    ∧ Memory.UserID memory = Some expectedUserID
    ∧ Forall (λ category, category ≠ "") (Memory.Categories memory)
    ∧ (∀ t, Memory.CreatedAt memory = Some t → Time_IsZero t = false)
    ∧ (∀ t, Memory.UpdatedAt memory = Some t → Time_IsZero t = false).
Proof.
  unfold validateMemoryObject. cbv zeta.
  rewrite !snoc_if_nil, app_nil, !snoc_if_nil, no_empty_category.
  split.
  - intros (Hupdated & Hcreated & (Huser & Hcontent & Hid & _) & Hcategories).
    split; [by apply String.eqb_neq|].
    split.
    { destruct (Memory.Memory memory) as [content|]; [|done].
      exists content. split; [done|]. by apply String.eqb_neq. }
    split.
    { destruct (Memory.UserID memory) as [userID|]; [|done].
      apply negb_false_iff, String.eqb_eq in Huser. by subst. }
    split; [done|].
    split; intros t Ht; [by rewrite Ht in Hcreated | by rewrite Ht in Hupdated].
  - intros (Hid & (content & Hcontent & Hne) & Huser & Hcategories & Hcreated & Hupdated).
    rewrite Hcontent, Huser. repeat split; try done.
    + destruct (Memory.UpdatedAt memory) as [t|]; [by apply Hupdated | done].
    + destruct (Memory.CreatedAt memory) as [t|]; [by apply Hcreated | done].
    + by rewrite String.eqb_refl.
    + by apply String.eqb_neq.
    + by apply String.eqb_neq.
Qed.

(** ** The tests of the repository, evaluated on the model *)

Example TestValidateAPIKey :
  validateAPIKey "valid-api-key" = None
  ∧ validateAPIKey "" = Some (NewValidationError "apiKey" "Mem0 API key is required")
  ∧ validateAPIKey "   "
    = Some (NewValidationError "apiKey" "Mem0 API key cannot be empty").
Proof. vm_compute. repeat split. Qed.

Example TestPreparePayload :
  preparePayload [mkMessage "user" (VString "test message")]
    (MemoryOptions.mk (Some APIVersionV1) None (Some "test-user") None None None
       None None None None VNil VNil None None None None None None None None None
       None None None None)
  = {[ "messages" := VMessages [mkMessage "user" (VString "test message")];
       "user_id" := VString "test-user";
       "api_version" := VAPIVersion "v1" ]}.
Proof. vm_compute. repeat split. Qed.

Example TestPrepareParams :
  prepareParams (λ _, "?")
    (OfMemoryOptions
       (MemoryOptions.set_OrgID (VString "test-org")
          (MemoryOptions.mk None None (Some "test-user") None None None None None
             None None VNil VNil None None None None None None None None None
             None None None None)))
  = {[ "user_id" := ["test-user"]; "org_id" := ["test-org"] ]}.
Proof. vm_compute. repeat split. Qed.

Example TestErrorTypes :
  Error (NewAPIError "test message" 400 "response body")
  = "API request failed (status 400): test message"
  ∧ Error (NewValidationError "apiKey" "is required")
    = "validation error for field 'apiKey': is required".
Proof. vm_compute. repeat split. Qed.

Example TrimSpace_examples :
  TrimSpace "  a b  " = "a b"
  ∧ TrimSpace (String "009" (String "010" "")) = ""
  ∧ TrimSpace (String "194" (String "160" "x ")) = "x"
  ∧ whitespace_only (String "226" (String "128" (String "131" " "))) = true
  ∧ whitespace_only (String "192" (String "160" "")) = false.
Proof. vm_compute. repeat split. Qed.

Example QueryEscape_example : QueryEscape "a b&c=d/~" = "a+b%26c%3Dd%2F~".
Proof. reflexivity. Qed.

Example NewMemoryClient_pings_once :
  (NewMemoryClient (env_of (always accepted) []) (options_with_key "m0-key") [] []).1.2
  = [mkCall "GET" "/v1/ping/" VNil].
Proof. vm_compute. repeat split. Qed.
